(** * ArangoDBStarter: the HTTP control plane and the start-up checks

    A shallow embedding of [service/server.go] (the handlers of the
    starter's HTTP server) and of [main.go] ([cmdMainRun], [init],
    [getEnvVar], [handleSignal], [slasher] and [findExecutable]), followed
    by the properties of the bootstrap protocol proved about them.

    Conventions of the embedding:
    - a Go [int] is a [Z]; the additions of the source wrap around at 64
      bits ([GoInt.add]), [%] is the truncating remainder ([Z.rem]);
    - a Go struct is a record in a module of the struct's name, so that a
      field reads [Peer.ID p] for [p.ID];
    - a handler is a computation in the monad [Handler], whose state
      [World] holds the service, the response writer of the request being
      served, and what the handler does to the outside (the running
      trigger, the setup file); a Go [return] in the middle of a handler is
      the monad's [return_];
    - reading and decoding a request body is modelled by its outcome
      ([Body]), [json.Marshal] by the value that is marshalled ([Payload]);
      the structs that the handlers marshal hold strings, integers and
      booleans only, for which [json.Marshal] returns no error, so the
      branches on its error are left out, and so are the calls of the
      logger and the mutex that every mutating handler holds from its
      first to its last line. *)

From Stdlib Require Import ZArith Zquot List FinFun Sorted String Ascii Bool Lia.
From Stdlib Require Import DecimalString.
Import ListNotations.

Local Open Scope Z_scope.
Local Open Scope string_scope.
Local Open Scope list_scope.

Infix "+:+" := String.append (at level 60, right associativity).

(* ------------------------------------------------------------------ *)
(** ** Go integers *)

Module GoInt.

(** Two's complement wrap-around of a 64 bit [int]. *)
Definition wrap (z : Z) : Z := (z + 2 ^ 63) mod 2 ^ 64 - 2 ^ 63.

Definition in_range (z : Z) : Prop := - 2 ^ 63 <= z < 2 ^ 63.

(** [a + b] on [int]. *)
Definition add (a b : Z) : Z := wrap (a + b).

(** [a % b] on [int]: the sign follows the dividend. *)
Definition rem (a b : Z) : Z := Z.rem a b.

(** The verb [%d] of [fmt.Sprintf]. *)
Definition Sprintf_d (z : Z) : string := NilZero.string_of_int (Z.to_int z).

End GoInt.

(** [len(l)] of a slice. *)
Definition len {A : Type} (l : list A) : Z := Z.of_nat (List.length l).

(* ------------------------------------------------------------------ *)
(** ** Data model *)

Module Peer.
Record t : Type := mk {
  ID : string;
  Address : string;
  Port : Z;
  PortOffset : Z;
  DataDir : string;
  HasAgent : bool
}.

Definition set_Port (v : Z) (p : t) : t :=
  mk (ID p) (Address p) v (PortOffset p) (DataDir p) (HasAgent p).

Definition set_Address (v : string) (p : t) : t :=
  mk (ID p) v (Port p) (PortOffset p) (DataDir p) (HasAgent p).

Definition set_DataDir (v : string) (p : t) : t :=
  mk (ID p) (Address p) (Port p) (PortOffset p) v (HasAgent p).
End Peer.

(** [type HelloRequest struct]. *)
Module HelloRequest.
Record t : Type := mk {
  SlaveID : string;
  SlaveAddress : string;
  SlavePort : Z;
  DataDir : string
}.
End HelloRequest.

(** [type GoodbyeRequest struct]. *)
Module GoodbyeRequest.
Record t : Type := mk {
  SlaveID : string
}.
End GoodbyeRequest.

(** [type ServerProcess struct]. *)
Module ServerProcess.
Record t : Type := mk {
  Type_ : string;
  IP : string;
  Port : Z;
  ProcessID : Z;
  ContainerID : string
}.
End ServerProcess.

(** [type ProcessListResponse struct]. *)
Module ProcessListResponse.
Record t : Type := mk {
  ServersStarted : bool;
  Servers : list ServerProcess.t
}.
End ProcessListResponse.

(** The registry [s.myPeers]. Its fields [Peers] and [AgencySize] are the
    ones [helloHandler] assigns. *)
Module peers.

Record t : Type := mk {
  Peers : list Peer.t;
  AgencySize : Z
}.

Definition set_Peers (l : list Peer.t) (p : t) : t :=
  mk l (AgencySize p).

Definition set_AgencySize (n : Z) (p : t) : t :=
  mk (Peers p) n.

(** Modelled from the spec: the method [PeerByID] of the registry is not
    in the source file; "peerByID(id) -> Peer? -- O(n) scan". The scan
    returns the first peer that carries the id. *)
Definition PeerByID (id : string) (p : t) : option Peer.t :=
  find (fun x => String.eqb (Peer.ID x) id) (Peers p).

(** Modelled from the spec: the method [RemovePeerByID] is not in the
    source file; "removePeerByID(id) -> bool -- drops the entry; does
    NOT renumber remaining offsets". The peers that stay keep their
    order and all their fields; the result tells whether the id was
    there. *)
Definition RemovePeerByID (id : string) (p : t) : t * bool :=
  (set_Peers (filter (fun x => negb (String.eqb (Peer.ID x) id)) (Peers p)) p,
   existsb (fun x => String.eqb (Peer.ID x) id) (Peers p)).

Definition offsetInUse (o : Z) (p : t) : bool :=
  existsb (fun x => Z.eqb (Peer.PortOffset x) o) (Peers p).

(** Modelled from the spec: the method [GetFreePortOffset] and the
    stride between two offsets are not in the source file;
    "freePortOffset() -> int -- returns the next offset to assign", "a
    fresh offset equal to the smallest multiple of the per-cluster stride
    not currently in use". Among the first [n + 1] multiples at least one
    is free when [n] peers are registered, so the search is bounded
    (lemma [GetFreePortOffset_smallest_free] below). *)
Definition GetFreePortOffset (portOffsetIncrement : Z) (p : t) : Z :=
  let candidates :=
    map (fun k => Z.of_nat k * portOffsetIncrement)
        (seq 0 (S (List.length (Peers p)))) in
  match find (fun o => negb (offsetInUse o p)) candidates with
  | Some o => o
  | None => len (Peers p) * portOffsetIncrement
  end.

End peers.

(** A process started by the supervisor, seen through the two methods the
    handlers call on it. *)
Module Process.
Record t : Type := mk {
  ProcessID : Z;
  ContainerID : string
}.
End Process.

(** [s.servers]: a nil pointer is [None]. *)
Module servers.
Record t : Type := mk {
  agentProc : option Process.t;
  coordinatorProc : option Process.t;
  dbserverProc : option Process.t
}.
End servers.

(** Modelled from the spec: the declaration of the state type is not in the
    source file, which names [stateSlave] only; "role: {leader,
    follower}; leader iff no join address was configured". *)
Inductive State : Type :=
  | stateMaster
  | stateSlave.

Definition State_eqb (a b : State) : bool :=
  match a, b with
  | stateMaster, stateMaster => true
  | stateSlave, stateSlave => true
  | _, _ => false
  end.

(** The fields of [Service] that the handlers read or write, and the two
    role flags of its configuration ([StartCoordinator], [StartDBserver] of
    [ServiceConfig] in [main.go]), which no handler reads. *)
Module Service.

Record t : Type := mk {
  ID : string;
  DataDir : string;
  AgencySize : Z;
  MasterPort : Z;
  StartCoordinator : bool;
  StartDBserver : bool;
  announcePort : Z;
  isNetHost : bool;
  allowSameDataDir : bool;
  state : State;
  myPeers : peers.t;
  servers : servers.t
}.

Definition set_myPeers (p : peers.t) (s : t) : t :=
  mk (ID s) (DataDir s) (AgencySize s) (MasterPort s) (StartCoordinator s)
     (StartDBserver s) (announcePort s) (isNetHost s) (allowSameDataDir s)
     (state s) p (servers s).

Definition set_roles (c d : bool) (s : t) : t :=
  mk (ID s) (DataDir s) (AgencySize s) (MasterPort s) c d (announcePort s)
     (isNetHost s) (allowSameDataDir s) (state s) (myPeers s) (servers s).

End Service.

(** Modelled from the spec: the three constants are not in the source
    region; "Role offsets (fixed by contract): agent = 1, coordinator = 2,
    dbserver = 3". *)
Definition portOffsetAgent : Z := 1.
Definition portOffsetCoordinator : Z := 2.
Definition portOffsetDBServer : Z := 3.

(** [net/http] status codes. *)
Definition StatusOK : Z := 200.
Definition StatusTemporaryRedirect : Z := 307.
Definition StatusBadRequest : Z := 400.
Definition StatusNotFound : Z := 404.
Definition StatusMethodNotAllowed : Z := 405.
Definition StatusPreconditionFailed : Z := 412.
Definition StatusInternalServerError : Z := 500.

(* ------------------------------------------------------------------ *)
(** ** Requests, responses and the world a handler runs in *)

(** What a handler hands to [w.Write]: the value given to [json.Marshal]
    (the encoding itself is left to the library), or raw bytes. *)
Inductive Payload : Type :=
  | JSON_ErrorResponse (Error : string)
  | JSON_peers (p : peers.t)
  | JSON_ProcessListResponse (r : ProcessListResponse.t)
  | Bytes (b : string).

(** [http.ResponseWriter]: the status is fixed by the first [WriteHeader];
    a [Write] before any [WriteHeader] sends status 200. *)
Module ResponseWriter.

Record t : Type := mk {
  header : list (string * string);
  status : option Z;
  body : list Payload
}.

Definition new : t := mk [] None [].

Definition Header_Add (k v : string) (w : t) : t :=
  mk (header w ++ [(k, v)]) (status w) (body w).

Definition WriteHeader (code : Z) (w : t) : t :=
  match status w with
  | None => mk (header w) (Some code) (body w)
  | Some _ => w
  end.

Definition Write (b : Payload) (w : t) : t :=
  let w' := WriteHeader StatusOK w in
  mk (header w') (status w') (body w' ++ [b]).

End ResponseWriter.

(** The outcome of [ioutil.ReadAll(r.Body)] followed by [json.Unmarshal]
    into a value of type [A]. *)
Inductive Body (A : Type) : Type :=
  | Unreadable (err : string)
  | Malformed (err : string)
  | Decoded (req : A).

Arguments Unreadable {A} err.
Arguments Malformed {A} err.
Arguments Decoded {A} req.

(** The fields of [http.Request] that the handlers look at. *)
Module Request.
Record t (A : Type) : Type := mk {
  Method : string;
  Host : string;
  RemoteAddr : string;
  Body : Body A
}.
Arguments mk {A} _ _ _ _.
Arguments Method {A} _.
Arguments Host {A} _.
Arguments RemoteAddr {A} _.
Arguments Body {A} _.
End Request.

(** The outcome of [os.Open]: [os.IsNotExist(err)], another error, or the
    file, given by its contents. *)
Inductive OpenResult : Type :=
  | OpenNotExist
  | OpenError (err : string)
  | Opened (contents : string).

(** What a handler does besides answering: [s.startRunningTrigger()] and
    the call of [s.saveSetup()] with the registry it is to write. *)
Inductive Event : Type :=
  | EvStartRunningTrigger
  | EvSaveSetup (snapshot : peers.t).

Module World.

Record t : Type := mk {
  svc : Service.t;
  w : ResponseWriter.t;
  events : list Event;
  (** the contents of [{dataDir}/setup.json], if the file is there *)
  setupFile : option peers.t;
  (** whether a write of the setup file fails *)
  setupWriteFails : bool;
  (** the file system as [os.Open] sees it *)
  os_Open : string -> OpenResult
}.

Definition set_svc (s : Service.t) (x : t) : t :=
  mk s (w x) (events x) (setupFile x) (setupWriteFails x) (os_Open x).

Definition set_w (r : ResponseWriter.t) (x : t) : t :=
  mk (svc x) r (events x) (setupFile x) (setupWriteFails x) (os_Open x).

Definition emit (e : Event) (x : t) : t :=
  mk (svc x) (w x) (events x ++ [e]) (setupFile x) (setupWriteFails x)
     (os_Open x).

Definition set_setupFile (f : option peers.t) (x : t) : t :=
  mk (svc x) (w x) (events x) f (setupWriteFails x) (os_Open x).

End World.

(** *** The monad of the embedding

    A computation on a state of type [S]; [None] as a result means that
    the Go function has executed a [return] (or has left the process), so
    that nothing after it runs. *)
Definition M (S A : Type) : Type := S -> option A * S.

Definition ret {S A : Type} (a : A) : M S A := fun x => (Some a, x).

Definition bind {S A B : Type} (c : M S A) (k : A -> M S B) : M S B :=
  fun x =>
    match c x with
    | (Some a, x') => k a x'
    | (None, x') => (None, x')
    end.

Definition return_ {S A : Type} : M S A := fun x => (None, x).

(** A handler runs on a [World]. *)
Definition Handler (A : Type) : Type := M World.t A.

Notation "x <- c1 ;; c2" := (bind c1 (fun x => c2))
  (at level 61, c1 at next level, right associativity).
Notation "c1 ;; c2" := (bind c1 (fun _ => c2))
  (at level 61, right associativity).

Definition getService : Handler Service.t :=
  fun x => (Some (World.svc x), x).

Definition modifyService (f : Service.t -> Service.t) : Handler unit :=
  fun x => (Some tt, World.set_svc (f (World.svc x)) x).

Definition onWriter (f : ResponseWriter.t -> ResponseWriter.t) : Handler unit :=
  fun x => (Some tt, World.set_w (f (World.w x)) x).

Definition when {S : Type} (b : bool) (c : M S unit) : M S unit :=
  if b then c else ret tt.

(** [for _, p := range l { body }], the body may [return]. *)
Fixpoint forRange {S A : Type} (l : list A) (body : A -> M S unit)
  : M S unit :=
  match l with
  | [] => ret tt
  | a :: l' => body a ;; forRange l' body
  end.

(** The world after a handler has served a request. *)
Definition run {S : Type} (h : M S unit) (x : S) : S := snd (h x).

(** A request meets a fresh response writer. *)
Definition serve (h : Handler unit) (x : World.t) : World.t :=
  run h (World.set_w ResponseWriter.new x).

(** [writeError]. *)
Definition writeError (status : Z) (message : string) : Handler unit :=
  let message := if String.eqb message "" then "Unknown error" else message in
  onWriter (ResponseWriter.WriteHeader status) ;;
  onWriter (ResponseWriter.Write (JSON_ErrorResponse message)).

(** [s.startRunningTrigger()], seen as the signal it gives. *)
Definition startRunningTrigger : Handler unit :=
  fun x => (Some tt, World.emit EvStartRunningTrigger x).

(** Modelled from the spec: [saveSetup] is not in the source file;
    the store "reads/writes the registry snapshot as JSON at
    {dataDir}/setup.json. Writes are atomic (temp file + rename)". The
    result is the error of the write, if any; a failed write leaves the
    file as it was. *)
Definition saveSetup : Handler (option string) :=
  fun x =>
    let snapshot := Service.myPeers (World.svc x) in
    let x' := World.emit (EvSaveSetup snapshot) x in
    if World.setupWriteFails x'
    then (Some (Some "write failed"), x')
    else (Some None, World.set_setupFile (Some snapshot) x').

(** [os.Open(path)]. *)
Definition osOpen (path : string) : Handler OpenResult :=
  fun x => (Some (World.os_Open x path), x).

(** [l[i] = f(l[i])] on a slice; the handlers only index within bounds,
    where Go does not panic. *)
Fixpoint updateAt {A : Type} (i : nat) (f : A -> A) (l : list A) : list A :=
  match l, i with
  | [], _ => []
  | a :: l', O => f a :: l'
  | a :: l', S i' => a :: updateAt i' f l'
  end.

(* ------------------------------------------------------------------ *)
(** ** The handlers of [server.go] *)

Section Handlers.

(** The stride between two port offsets: a constant of the package that
    is declared outside [server.go]. *)
Variable portOffsetIncrement : Z.

(** [findHost], which derives an address from the Host header or from the
    remote address of a request, is defined outside [server.go]; the
    handlers only pass its result on. *)
Variable findHost : string -> string.

(** [filepath.Join] of the Go library. *)
Variable filepath_Join : list string -> string.

(** [getHTTPServerPort]: container port, host port and error. *)
Definition getHTTPServerPort (s : Service.t) : Z * Z * option string :=
  let containerPort := Service.MasterPort s in
  let hostPort := Service.announcePort s in
  let step :=
    if (Service.announcePort s =? Service.MasterPort s)%Z
       && (len (peers.Peers (Service.myPeers s)) >? 0)%Z
    then
      match peers.PeerByID (Service.ID s) (Service.myPeers s) with
      | Some myPeer => inl (GoInt.add containerPort (Peer.PortOffset myPeer))
      | None =>
          inr ("No peer information found for ID '" +:+ Service.ID s +:+ "'")
      end
    else inl containerPort in
  match step with
  | inr err => (0, 0, Some err)
  | inl containerPort =>
      let hostPort := if Service.isNetHost s then containerPort else hostPort in
      (containerPort, hostPort, None)
  end.

(** [s.myPeers.Peers[i].f = v]. *)
Definition modifyPeerAt (i : nat) (f : Peer.t -> Peer.t) : Handler unit :=
  modifyService (fun s =>
    Service.set_myPeers
      (peers.set_Peers (updateAt i f (peers.Peers (Service.myPeers s)))
                       (Service.myPeers s)) s).

(** One iteration of the loop of the branch "ID already found, update
    peer data": [p] is the element the slice holds at index [i]. *)
Definition updatePeerAt (req : HelloRequest.t) (i : nat) : Handler unit :=
  s <- getService ;;
  match nth_error (peers.Peers (Service.myPeers s)) i with
  | Some p =>
      when (String.eqb (Peer.ID p) (HelloRequest.SlaveID req))
        (modifyPeerAt i (Peer.set_Port (HelloRequest.SlavePort req)) ;;
         modifyPeerAt i (Peer.set_Address (HelloRequest.SlaveAddress req)) ;;
         modifyPeerAt i (Peer.set_DataDir (HelloRequest.DataDir req)))
  | None => ret tt
  end.

(** [for i, p := range s.myPeers.Peers { ... }]. *)
Definition updatePeerData (req : HelloRequest.t) : Handler unit :=
  s <- getService ;;
  forRange (seq 0 (List.length (peers.Peers (Service.myPeers s))))
           (updatePeerAt req).

(** [helloHandler]. *)
Definition helloHandler (r : Request.t HelloRequest.t) : Handler unit :=
  s <- getService ;;
  when (State_eqb (Service.state s) stateSlave)
    (match peers.Peers (Service.myPeers s) with
     | master :: _ =>
         (* len(s.myPeers.Peers) > 0 *)
         onWriter (ResponseWriter.Header_Add "Location"
           ("http://" +:+ Peer.Address master +:+ ":" +:+
            GoInt.Sprintf_d (Peer.Port master) +:+ "/hello")) ;;
         onWriter (ResponseWriter.WriteHeader StatusTemporaryRedirect)
     | [] => writeError StatusBadRequest "No master known."
     end ;;
     return_) ;;
  (* Learn my own address (if needed) *)
  s <- getService ;;
  when (len (peers.Peers (Service.myPeers s)) =? 0)%Z
    (let myself := findHost (Request.Host r) in
     let '(_, hostPort, _) := getHTTPServerPort s in
     modifyService (fun s =>
       Service.set_myPeers
         (peers.set_Peers
            [Peer.mk (Service.ID s) myself hostPort 0 (Service.DataDir s) true]
            (Service.myPeers s)) s) ;;
     modifyService (fun s =>
       Service.set_myPeers
         (peers.set_AgencySize (Service.AgencySize s) (Service.myPeers s)) s)) ;;
  when (String.eqb (Request.Method r) "POST")
    (match Request.Body r with
     | Unreadable err =>
         writeError StatusBadRequest ("Cannot read request body: " +:+ err) ;;
         return_
     | Malformed err =>
         writeError StatusBadRequest ("Cannot parse request body: " +:+ err) ;;
         return_
     | Decoded req =>
         let slaveAddr :=
           if String.eqb (HelloRequest.SlaveAddress req) ""
           then findHost (Request.RemoteAddr r)
           else HelloRequest.SlaveAddress req in
         let slavePort := HelloRequest.SlavePort req in
         (* Check request *)
         when (String.eqb (HelloRequest.SlaveID req) "")
           (writeError StatusBadRequest "SlaveID must be set." ;; return_) ;;
         (* Check datadir *)
         s <- getService ;;
         when (negb (Service.allowSameDataDir s))
           (forRange (peers.Peers (Service.myPeers s)) (fun p =>
              when (String.eqb (Peer.Address p) slaveAddr
                    && String.eqb (Peer.DataDir p) (HelloRequest.DataDir req)
                    && negb (String.eqb (Peer.ID p) (HelloRequest.SlaveID req)))
                (writeError StatusBadRequest "Cannot use same directory as peer." ;;
                 return_))) ;;
         (* If slaveID already known, then return data right away. *)
         s <- getService ;;
         match peers.PeerByID (HelloRequest.SlaveID req) (Service.myPeers s) with
         | Some _ =>
             (* ID already found, update peer data *)
             updatePeerData req
         | None =>
             (* ID not yet found, add it *)
             let newPeer :=
               Peer.mk (HelloRequest.SlaveID req) slaveAddr slavePort
                 (peers.GetFreePortOffset portOffsetIncrement (Service.myPeers s))
                 (HelloRequest.DataDir req)
                 (len (peers.Peers (Service.myPeers s)) <? Service.AgencySize s)%Z in
             modifyService (fun s =>
               Service.set_myPeers
                 (peers.set_Peers (peers.Peers (Service.myPeers s) ++ [newPeer])
                                  (Service.myPeers s)) s) ;;
             s <- getService ;;
             when (len (peers.Peers (Service.myPeers s)) =? Service.AgencySize s)%Z
               startRunningTrigger
         end
     end) ;;
  s <- getService ;;
  onWriter (ResponseWriter.Write (JSON_peers (Service.myPeers s))).

(** [goodbyeHandler]. *)
Definition goodbyeHandler (r : Request.t GoodbyeRequest.t) : Handler unit :=
  when (negb (String.eqb (Request.Method r) "POST"))
    (writeError StatusMethodNotAllowed "POST required" ;; return_) ;;
  match Request.Body r with
  | Unreadable err =>
      writeError StatusBadRequest ("Cannot read request body: " +:+ err) ;;
      return_
  | Malformed err =>
      writeError StatusBadRequest ("Cannot parse request body: " +:+ err) ;;
      return_
  | Decoded req =>
      (* Check request *)
      when (String.eqb (GoodbyeRequest.SlaveID req) "")
        (writeError StatusBadRequest "SlaveID must be set." ;; return_) ;;
      (* Remove the peer *)
      s <- getService ;;
      let '(remaining, removed) :=
        peers.RemovePeerByID (GoodbyeRequest.SlaveID req) (Service.myPeers s) in
      modifyService (Service.set_myPeers remaining) ;;
      when (negb removed)
        ((* ID not found *)
         writeError StatusNotFound "Unknown ID" ;; return_) ;;
      (* Peer has been removed, update stored config; an error of the
         save is logged and nothing else *)
      _ <- saveSetup ;;
      onWriter (ResponseWriter.WriteHeader StatusOK) ;;
      onWriter (ResponseWriter.Write (Bytes "BYE"))
  end.

(** The value [processListHandler] marshals: the processes it gathers
    and whether their number is the expected one. *)
Definition processList (s : Service.t) : ProcessListResponse.t :=
  let expectedServers := 2 in
  let '(resp_Servers, expectedServers) :=
    match peers.PeerByID (Service.ID s) (Service.myPeers s) with
    | Some myPeer =>
        let portOffset := Peer.PortOffset myPeer in
        let ip := Peer.Address myPeer in
        let expectedServers :=
          if Peer.HasAgent myPeer then 3 else expectedServers in
        let l := [] in
        let l :=
          match servers.agentProc (Service.servers s) with
          | Some p =>
              l ++ [ServerProcess.mk "agent" ip
                      (GoInt.add (GoInt.add (Service.MasterPort s) portOffset)
                                 portOffsetAgent)
                      (Process.ProcessID p) (Process.ContainerID p)]
          | None => l
          end in
        let l :=
          match servers.coordinatorProc (Service.servers s) with
          | Some p =>
              l ++ [ServerProcess.mk "coordinator" ip
                      (GoInt.add (GoInt.add (Service.MasterPort s) portOffset)
                                 portOffsetCoordinator)
                      (Process.ProcessID p) (Process.ContainerID p)]
          | None => l
          end in
        let l :=
          match servers.dbserverProc (Service.servers s) with
          | Some p =>
              l ++ [ServerProcess.mk "dbserver" ip
                      (GoInt.add (GoInt.add (Service.MasterPort s) portOffset)
                                 portOffsetDBServer)
                      (Process.ProcessID p) (Process.ContainerID p)]
          | None => l
          end in
        (l, expectedServers)
    | None => ([], expectedServers)
    end in
  ProcessListResponse.mk (len resp_Servers =? expectedServers)%Z resp_Servers.

(** [processListHandler]. *)
Definition processListHandler : Handler unit :=
  s <- getService ;;
  onWriter (ResponseWriter.Write (JSON_ProcessListResponse (processList s))).

(** Modelled from the spec: [needsAgent] is not in the source file; the
    agent is a role of the peer "iff hasAgent", and the log of the agent
    is "404 for agent when peer has no agent". *)
Definition needsAgent (s : Service.t) : bool :=
  match peers.PeerByID (Service.ID s) (Service.myPeers s) with
  | Some myPeer => Peer.HasAgent myPeer
  | None => false
  end.

(** [io.Copy(w, rd)]: the contents of the file go to the writer; nothing
    is written for an empty file. *)
Definition io_Copy (contents : string) : Handler unit :=
  when (negb (String.eqb contents ""))
    (onWriter (ResponseWriter.Write (Bytes contents))).

(** [logsHandler]. *)
Definition logsHandler (mode : string) (serverPortOffset : Z) : Handler unit :=
  s <- getService ;;
  match peers.PeerByID (Service.ID s) (Service.myPeers s) with
  | None =>
      (* Not ready yet *)
      onWriter (ResponseWriter.WriteHeader StatusPreconditionFailed) ;;
      return_
  | Some myPeer =>
      (* Find log path *)
      let portOffset := Peer.PortOffset myPeer in
      let myPort :=
        GoInt.add (GoInt.add (Service.MasterPort s) portOffset) serverPortOffset in
      let logPath :=
        filepath_Join [Service.DataDir s; mode +:+ GoInt.Sprintf_d myPort;
                       "arangod.log"] in
      rd <- osOpen logPath ;;
      match rd with
      | OpenNotExist =>
          (* Log file not there (yet), we allow this *)
          onWriter (ResponseWriter.WriteHeader StatusOK)
      | OpenError err =>
          onWriter (ResponseWriter.WriteHeader StatusInternalServerError) ;;
          onWriter (ResponseWriter.Write (Bytes err))
      | Opened contents =>
          (* Log open *)
          onWriter (ResponseWriter.WriteHeader StatusOK) ;;
          io_Copy contents
      end
  end.

(** [agentLogsHandler]. *)
Definition agentLogsHandler : Handler unit :=
  s <- getService ;;
  if needsAgent s
  then logsHandler "agent" portOffsetAgent
  else onWriter (ResponseWriter.WriteHeader StatusNotFound).

(** [dbserverLogsHandler]. *)
Definition dbserverLogsHandler : Handler unit :=
  logsHandler "dbserver" portOffsetDBServer.

(** [coordinatorLogsHandler]. *)
Definition coordinatorLogsHandler : Handler unit :=
  logsHandler "coordinator" portOffsetCoordinator.

End Handlers.

(* ------------------------------------------------------------------ *)
(** ** [main.go]: the start-up checks of [cmdMainRun] *)

(** The command line flags that [cmdMainRun] inspects before it creates the
    service. *)
Module Flags.
Record t : Type := mk {
  agencySize : Z;
  ownAddress : string;
  dockerImage : string;
  rrPath : string;
  dataDir : string
}.
End Flags.

(** What the process does while it starts, in the order of [cmdMainRun]. *)
Inductive MainEvent : Type :=
  | LogFatal (msg : string)
  | MkdirAll (dir : string)
  | GoHandleSignal
  | NewService
  | ServiceRun.

(** The tasks: the goroutine of the signal handler and the service. *)
Definition isTask (e : MainEvent) : bool :=
  match e with
  | GoHandleSignal | ServiceRun => true
  | _ => false
  end.

Module Proc.

(** The process: what it did so far and its exit code once it has left. *)
Record t : Type := mk {
  trace : list MainEvent;
  exitCode : option Z
}.

Definition start : t := mk [] None.

End Proc.

Definition Main (A : Type) : Type := M Proc.t A.

Definition emitMain (e : MainEvent) : Main unit :=
  fun x => (Some tt, Proc.mk (Proc.trace x ++ [e]) (Proc.exitCode x)).

(** [log.Fatal] and [log.Fatalf]: the message, then [os.Exit(1)]. *)
Definition log_Fatal {A : Type} (msg : string) : Main A :=
  fun x => (None, Proc.mk (Proc.trace x ++ [LogFatal msg]) (Some 1)).

(** What the surroundings answer during start-up: [filepath.Abs], the error
    of [os.MkdirAll] and the error of [service.NewService], if any. *)
Module MainEnv.
Record t : Type := mk {
  filepath_Abs : string -> string;
  mkdirAllErr : option string;
  newServiceErr : option string
}.
End MainEnv.

(** [cmdMainRun], from the plausibility checks on. *)
Definition cmdMainRun (f : Flags.t) (env : MainEnv.t) : Main unit :=
  (* Some plausibility checks: *)
  when ((GoInt.rem (Flags.agencySize f) 2 =? 0)%Z || (Flags.agencySize f <=? 0)%Z)
    (log_Fatal "Error: agencySize needs to be a positive, odd number.") ;;
  when ((Flags.agencySize f =? 1)%Z && String.eqb (Flags.ownAddress f) "")
    (log_Fatal "Error: if agencySize==1, ownAddress must be given.") ;;
  when (negb (String.eqb (Flags.dockerImage f) "")
        && negb (String.eqb (Flags.rrPath f) ""))
    (log_Fatal "Error: using --dockerImage and --rr is not possible.") ;;
  (* Sort out work directory: *)
  let dataDir :=
    if (Z.of_nat (String.length (Flags.dataDir f)) =? 0)%Z
    then "." else Flags.dataDir f in
  let dataDir := MainEnv.filepath_Abs env dataDir in
  emitMain (MkdirAll dataDir) ;;
  match MainEnv.mkdirAllErr env with
  | Some err =>
      log_Fatal ("Cannot create data directory " +:+ dataDir +:+ " because " +:+
                 err +:+ ", giving up.")
  | None => ret tt
  end ;;
  (* Interrupt signal: *)
  emitMain GoHandleSignal ;;
  (* Create service *)
  emitMain NewService ;;
  match MainEnv.newServiceErr env with
  | Some err => log_Fatal ("Failed to create service: " +:+ err)
  | None => ret tt
  end ;;
  (* Run the service *)
  emitMain ServiceRun.

(* ------------------------------------------------------------------ *)
(** ** Vocabulary of the properties *)

(** The peers of the registry, in join order. *)
Definition registry (x : World.t) : list Peer.t :=
  peers.Peers (Service.myPeers (World.svc x)).

Definition setRegistry (l : list Peer.t) (x : World.t) : World.t :=
  World.set_svc
    (Service.set_myPeers (peers.set_Peers l (Service.myPeers (World.svc x)))
                         (World.svc x)) x.

Definition status (x : World.t) : option Z := ResponseWriter.status (World.w x).
Definition body (x : World.t) : list Payload := ResponseWriter.body (World.w x).
Definition header (x : World.t) : list (string * string) :=
  ResponseWriter.header (World.w x).




(** What the update branch of [helloHandler] does to one peer. *)
Definition withRequestData (req : HelloRequest.t) (p : Peer.t) : Peer.t :=
  if String.eqb (Peer.ID p) (HelloRequest.SlaveID req)
  then Peer.set_DataDir (HelloRequest.DataDir req)
         (Peer.set_Address (HelloRequest.SlaveAddress req)
            (Peer.set_Port (HelloRequest.SlavePort req) p))
  else p.

(** The test of the same-dataDir guard on one peer. *)
Definition sameDataDir (slaveAddr : string) (req : HelloRequest.t) (p : Peer.t)
  : bool :=
  String.eqb (Peer.Address p) slaveAddr
  && String.eqb (Peer.DataDir p) (HelloRequest.DataDir req)
  && negb (String.eqb (Peer.ID p) (HelloRequest.SlaveID req)).

(** The answer of [writeError] on a fresh or used writer. *)
Definition errorReply (code : Z) (msg : string) (x : World.t) : World.t :=
  World.set_w
    (ResponseWriter.Write (JSON_ErrorResponse msg)
       (ResponseWriter.WriteHeader code (World.w x))) x.

(** The answer with the registry. *)
Definition registryReply (x : World.t) : World.t :=
  World.set_w
    (ResponseWriter.Write (JSON_peers (Service.myPeers (World.svc x))) (World.w x)) x.

(** The operations on the registry that arrive over HTTP. *)
Inductive Op : Type :=
  | OpHello (r : Request.t HelloRequest.t)
  | OpGoodbye (r : Request.t GoodbyeRequest.t).

Definition isHello (o : Op) : bool :=
  match o with
  | OpHello _ => true
  | OpGoodbye _ => false
  end.

(** The configuration cases of the start-up checks. *)
Definition agencySizeEvenOrNonPositive (f : Flags.t) : Prop :=
  Z.even (Flags.agencySize f) = true \/ (Flags.agencySize f <= 0)%Z.

Definition singleAgentWithoutOwnAddress (f : Flags.t) : Prop :=
  Flags.agencySize f = 1%Z /\ Flags.ownAddress f = "".

Definition containerWithDebugger (f : Flags.t) : Prop :=
  Flags.dockerImage f <> "" /\ Flags.rrPath f <> "".

(** The process has left with a fatal error before it did anything else. *)
Definition abortedAtChecks (p : Proc.t) : Prop :=
  exists msg, Proc.trace p = [LogFatal msg] /\ Proc.exitCode p = Some 1%Z.

(** The process got past the checks: it went on to the work directory. *)
Definition passedChecks (p : Proc.t) : Prop :=
  exists dir rest, Proc.trace p = MkdirAll dir :: rest.

Section Vocabulary.

Variable portOffsetIncrement : Z.
Variable findHost : string -> string.

(** The self-peer that the leader installs on an empty registry. *)
Definition selfPeer (s : Service.t) (r : Request.t HelloRequest.t) : Peer.t :=
  Peer.mk (Service.ID s) (findHost (Request.Host r))
          (snd (fst (getHTTPServerPort s))) 0 (Service.DataDir s) true.

(** The world after the step "Learn my own address (if needed)". *)
Definition selfInstalled (r : Request.t HelloRequest.t) (x : World.t) : World.t :=
  if (len (registry x) =? 0)%Z
  then World.set_svc
         (Service.set_myPeers
            (peers.mk [selfPeer (World.svc x) r] (Service.AgencySize (World.svc x)))
            (World.svc x)) x
  else x.

(** The address under which a joining peer is stored. *)
Definition slaveAddrOf (r : Request.t HelloRequest.t) (req : HelloRequest.t)
  : string :=
  if String.eqb (HelloRequest.SlaveAddress req) ""
  then findHost (Request.RemoteAddr r)
  else HelloRequest.SlaveAddress req.

(** The same-dataDir guard rejects the request on the registry of [x]. *)
Definition guardRejects (r : Request.t HelloRequest.t) (req : HelloRequest.t)
    (x : World.t) : bool :=
  negb (Service.allowSameDataDir (World.svc x))
  && existsb (sameDataDir (slaveAddrOf r req) req) (registry x).

(** The peer that the append branch adds to the registry of [x]. *)
Definition newPeerOf (r : Request.t HelloRequest.t) (req : HelloRequest.t)
    (x : World.t) : Peer.t :=
  Peer.mk (HelloRequest.SlaveID req) (slaveAddrOf r req)
          (HelloRequest.SlavePort req)
          (peers.GetFreePortOffset portOffsetIncrement
             (Service.myPeers (World.svc x)))
          (HelloRequest.DataDir req)
          (len (registry x) <? Service.AgencySize (World.svc x))%Z.

(** The case table of [helloHandler] on a starter that is not a slave
    (lemma [helloHandler_leader] below). *)
Definition helloLeader (r : Request.t HelloRequest.t) (x : World.t) : World.t :=
  let x1 := selfInstalled r x in
  if String.eqb (Request.Method r) "POST" then
    match Request.Body r with
    | Unreadable err =>
        errorReply StatusBadRequest ("Cannot read request body: " +:+ err) x1
    | Malformed err =>
        errorReply StatusBadRequest ("Cannot parse request body: " +:+ err) x1
    | Decoded req =>
        if String.eqb (HelloRequest.SlaveID req) ""
        then errorReply StatusBadRequest "SlaveID must be set." x1
        else if guardRejects r req x1
        then errorReply StatusBadRequest "Cannot use same directory as peer." x1
        else
          match peers.PeerByID (HelloRequest.SlaveID req)
                               (Service.myPeers (World.svc x1)) with
          | Some _ =>
              registryReply
                (setRegistry (map (withRequestData req) (registry x1)) x1)
          | None =>
              let x2 := setRegistry (registry x1 ++ [newPeerOf r req x1]) x1 in
              registryReply
                (if (len (registry x2) =? Service.AgencySize (World.svc x2))%Z
                 then World.emit EvStartRunningTrigger x2
                 else x2)
          end
    end
  else registryReply x1.

(** The two ways in which a hello lets a request in, where [x1] is the
    world after the self-install: the id is known, or it is new. *)
Definition updatePath (r : Request.t HelloRequest.t) (req : HelloRequest.t)
    (x1 : World.t) : Prop :=
  Request.Method r = "POST" /\ Request.Body r = Decoded req /\
  HelloRequest.SlaveID req <> "" /\ guardRejects r req x1 = false /\
  peers.PeerByID (HelloRequest.SlaveID req) (Service.myPeers (World.svc x1))
    <> None.

Definition appendPath (r : Request.t HelloRequest.t) (req : HelloRequest.t)
    (x1 : World.t) : Prop :=
  Request.Method r = "POST" /\ Request.Body r = Decoded req /\
  HelloRequest.SlaveID req <> "" /\ guardRejects r req x1 = false /\
  peers.PeerByID (HelloRequest.SlaveID req) (Service.myPeers (World.svc x1))
    = None.

(** The world after the starter has served a hello, a goodbye: each
    request meets a fresh response writer. *)
Definition hello (r : Request.t HelloRequest.t) (x : World.t) : World.t :=
  serve (helloHandler portOffsetIncrement findHost r) x.

Definition goodbye (r : Request.t GoodbyeRequest.t) (x : World.t) : World.t :=
  serve (goodbyeHandler r) x.

Definition step (x : World.t) (o : Op) : World.t :=
  match o with
  | OpHello r => hello r x
  | OpGoodbye r => goodbye r x
  end.

Definition runOps (x : World.t) (ops : list Op) : World.t :=
  fold_left step ops x.

End Vocabulary.

(** The roles whose logs the starter serves, with the handler of each. *)
Inductive Role : Type :=
  | agent
  | coordinator
  | dbserver.

Definition roleName (ro : Role) : string :=
  match ro with
  | agent => "agent"
  | coordinator => "coordinator"
  | dbserver => "dbserver"
  end.

Definition rolePortOffset (ro : Role) : Z :=
  match ro with
  | agent => portOffsetAgent
  | coordinator => portOffsetCoordinator
  | dbserver => portOffsetDBServer
  end.

Definition roleLogsHandler (filepath_Join : list string -> string) (ro : Role)
  : Handler unit :=
  match ro with
  | agent => agentLogsHandler filepath_Join
  | coordinator => coordinatorLogsHandler filepath_Join
  | dbserver => dbserverLogsHandler filepath_Join
  end.

(** The entry of the starter itself in its registry. *)
Definition myPeer (s : Service.t) : option Peer.t :=
  peers.PeerByID (Service.ID s) (Service.myPeers s).

(** The starter runs the role: it is registered and, for the agent, its
    entry has [HasAgent]. *)
Definition runsRole (ro : Role) (s : Service.t) : bool :=
  match ro with
  | agent => needsAgent s
  | _ => match myPeer s with Some _ => true | None => false end
  end.

(** The path of the log of a role, as [logsHandler] builds it. *)
Definition logPathOf (filepath_Join : list string -> string) (ro : Role)
    (s : Service.t) (p : Peer.t) : string :=
  filepath_Join
    [Service.DataDir s;
     roleName ro +:+
       GoInt.Sprintf_d
         (GoInt.add (GoInt.add (Service.MasterPort s) (Peer.PortOffset p))
                    (rolePortOffset ro));
     "arangod.log"].

(** The per-role constant behind the type of a listed server. *)
Definition portOffsetOfType (ty : string) : option Z :=
  if String.eqb ty "agent" then Some portOffsetAgent
  else if String.eqb ty "coordinator" then Some portOffsetCoordinator
  else if String.eqb ty "dbserver" then Some portOffsetDBServer
  else None.

(** The ways in which a hello ends without a join. *)
Inductive NoJoin (guard : HelloRequest.t -> bool) (r : Request.t HelloRequest.t)
  : Prop :=
  | NoJoin_notPost :
      Request.Method r <> "POST" -> NoJoin guard r
  | NoJoin_unreadable err :
      Request.Method r = "POST" -> Request.Body r = Unreadable err ->
      NoJoin guard r
  | NoJoin_malformed err :
      Request.Method r = "POST" -> Request.Body r = Malformed err ->
      NoJoin guard r
  | NoJoin_emptyID req :
      Request.Method r = "POST" -> Request.Body r = Decoded req ->
      HelloRequest.SlaveID req = "" -> NoJoin guard r
  | NoJoin_sameDataDir req :
      Request.Method r = "POST" -> Request.Body r = Decoded req ->
      HelloRequest.SlaveID req <> "" -> guard req = true -> NoJoin guard r.

(* ------------------------------------------------------------------ *)
(** ** A small cluster to run the handlers on

    The starter [A] leads; its peers address it as [hostA]. In the runs
    below [findHost] leaves an address as it is, the stride of the port
    offsets is 5 and [filepath.Join] puts a slash between the elements. *)

Definition exFindHost (a : string) : string := a.

Definition exStride : Z := 5.

Definition exJoin (l : list string) : string := String.concat "/" l.

Definition exService (st : State) (agencySize : Z) (l : list Peer.t) : Service.t :=
  Service.mk "A" "/data/a" agencySize 4000 true true 4000 false false st
             (peers.mk l agencySize) (servers.mk None None None).

Definition exWorld (s : Service.t) : World.t :=
  World.mk s ResponseWriter.new [] None false (fun _ => OpenNotExist).

Definition exGet : Request.t HelloRequest.t :=
  Request.mk "GET" "hostA" "hostB" (Malformed "unexpected end of JSON input").

Definition exPost (id addr dir : string) : Request.t HelloRequest.t :=
  Request.mk "POST" "hostA" "hostB" (Decoded (HelloRequest.mk id addr 4000 dir)).

Definition exBye (id : string) : Request.t GoodbyeRequest.t :=
  Request.mk "POST" "hostA" "hostB" (Decoded (GoodbyeRequest.mk id)).

Definition exPeer (id addr : string) (off : Z) (ag : bool) : Peer.t :=
  Peer.mk id addr 4000 off ("/data/" +:+ id) ag.

Definition exPeerA : Peer.t := Peer.mk "A" "hostA" 4000 0 "/data/a" true.

(** The leader before anybody has said hello. *)
Definition exLeader (agencySize : Z) : World.t :=
  exWorld (exService stateMaster agencySize []).


Definition exJoins : list Op :=
  [OpHello (exPost "B" "hostB" "/data/B"); OpHello (exPost "C" "hostC" "/data/C");
   OpHello (exPost "D" "hostD" "/data/D")].

(** A follower that knows the leader [A] and itself. *)
Definition exFollower : World.t :=
  exWorld (exService stateSlave 3 [exPeerA; exPeer "B" "hostB" 5 true]).

(** The leader with [A] and [B] registered. *)
Definition exLeaderAB : World.t :=
  exWorld (exService stateMaster 3 [exPeerA; exPeer "B" "hostB" 5 true]).

(** The leader with three peers, the setup file holding the three; the
    flag says whether the next write of the file fails. *)
Definition exABC : list Peer.t :=
  [exPeerA; exPeer "B" "hostB" 5 true; exPeer "C" "hostC" 10 true].

Definition exSaved (writeFails : bool) : World.t :=
  World.mk (exService stateMaster 3 exABC) ResponseWriter.new []
           (Some (peers.mk exABC 3)) writeFails (fun _ => OpenNotExist).

(** The starter [A] with its three servers running. *)
Definition exRunning : Service.t :=
  Service.mk "A" "/data/a" 3 4000 true true 4000 false false stateMaster
             (peers.mk exABC 3)
             (servers.mk (Some (Process.mk 101 "")) (Some (Process.mk 102 ""))
                         (Some (Process.mk 103 ""))).

(** The starter [A] on a file system that answers every [os.Open] with
    [res]. *)
Definition exWithFiles (l : list Peer.t) (res : OpenResult) : World.t :=
  World.mk (exService stateMaster 3 l) ResponseWriter.new [] None false
           (fun _ => res).

Definition exEnv : MainEnv.t := MainEnv.mk (fun d => d) None None.

(* ------------------------------------------------------------------ *)
(** ** [shutdownHandler] *)

(** The fields of [http.Request] that [shutdownHandler] looks at: the
    method, and the form through [r.FormValue], which answers with the
    empty string for a key that the form does not hold. *)
Module FormRequest.
Record t : Type := mk {
  Method : string;
  FormValue : string -> string
}.
End FormRequest.

(** What [shutdownHandler] does besides answering. *)
Inductive Call : Type :=
  | CallSendMasterGoodbye
  | CallCancel.

(** The starter as [shutdownHandler] meets it: the world of the other
    handlers, the calls of [s.sendMasterGoodbye()] and [s.cancel()] made so
    far, and the error that [s.sendMasterGoodbye()] comes back with, if
    any (the method is defined outside [server.go]). *)
Module Starter.

Record t : Type := mk {
  world : World.t;
  sendMasterGoodbyeErr : option string;
  calls : list Call
}.

Definition set_world (x : World.t) (d : t) : t :=
  mk x (sendMasterGoodbyeErr d) (calls d).

Definition call (c : Call) (d : t) : t :=
  mk (world d) (sendMasterGoodbyeErr d) (calls d ++ [c]).

End Starter.

(** A handler of the other kind, run on the world of the starter. *)
Definition inWorld {A : Type} (h : Handler A) : M Starter.t A :=
  fun d =>
    let '(a, x') := h (Starter.world d) in
    (a, Starter.set_world x' d).

(** [s.sendMasterGoodbye()], seen as the call and its error. *)
Definition sendMasterGoodbye : M Starter.t (option string) :=
  fun d => (Some (Starter.sendMasterGoodbyeErr d),
            Starter.call CallSendMasterGoodbye d).

(** [s.cancel()], seen as the call. *)
Definition cancel : M Starter.t unit :=
  fun d => (Some tt, Starter.call CallCancel d).

(** [shutdownHandler]. *)
Definition shutdownHandler (r : FormRequest.t) : M Starter.t unit :=
  when (negb (String.eqb (FormRequest.Method r) "POST"))
    (inWorld (onWriter (ResponseWriter.WriteHeader StatusMethodNotAllowed)) ;;
     return_) ;;
  when (String.eqb (FormRequest.FormValue r "mode") "goodbye")
    ((* Inform the master we're leaving for good *)
     err <- sendMasterGoodbye ;;
     match err with
     | Some err =>
         inWorld (writeError StatusInternalServerError err) ;;
         return_
     | None => ret tt
     end) ;;
  (* Stop my services *)
  cancel ;;
  inWorld (onWriter (ResponseWriter.WriteHeader StatusOK)) ;;
  inWorld (onWriter (ResponseWriter.Write (Bytes "OK"))).

(** A shutdown request meets a fresh response writer. *)
Definition shutdown (r : FormRequest.t) (d : Starter.t) : Starter.t :=
  run (shutdownHandler r)
      (Starter.set_world (World.set_w ResponseWriter.new (Starter.world d)) d).

(* ------------------------------------------------------------------ *)
(** ** [main.go]: signals, paths and the environment *)

(** The process as [handleSignal] acts on it: the lines it has printed,
    the number of calls of [cancel], and the exit code once [os.Exit] has
    been called. *)
Module SignalProc.

Record t : Type := mk {
  stdout : list string;
  cancelCalls : nat;
  exitCode : option Z
}.

Definition start : t := mk [] 0%nat None.

End SignalProc.

(** [fmt.Println(a, b)]: the operands with a space between them, as one
    line. *)
Definition fmt_Println2 (a b : string) : M SignalProc.t unit :=
  fun p => (Some tt,
            SignalProc.mk (SignalProc.stdout p ++ [a +:+ " " +:+ b])
                          (SignalProc.cancelCalls p) (SignalProc.exitCode p)).

(** [os.Exit(code)]: nothing runs after it. *)
Definition os_Exit {A : Type} (code : Z) : M SignalProc.t A :=
  fun p => (None,
            SignalProc.mk (SignalProc.stdout p) (SignalProc.cancelCalls p)
                          (Some code)).

(** The call of the [cancel] that [handleSignal] is given. *)
Definition callCancel : M SignalProc.t unit :=
  fun p => (Some tt,
            SignalProc.mk (SignalProc.stdout p) (S (SignalProc.cancelCalls p))
                          (SignalProc.exitCode p)).

(** The loop [for s := range sigChannel] of [handleSignal]: the channel is
    given by the signals that arrive on it, each by the name it prints
    under; [signalCount] is the local variable of the function. *)
Fixpoint handleSignalLoop (signalCount : Z) (sigChannel : list string)
  : M SignalProc.t unit :=
  match sigChannel with
  | [] => ret tt
  | s :: sigChannel' =>
      let signalCount := GoInt.add signalCount 1 in
      fmt_Println2 "Received signal:" s ;;
      when (signalCount >? 1)%Z (os_Exit 1) ;;
      callCancel ;;
      handleSignalLoop signalCount sigChannel'
  end.

(** [handleSignal]. *)
Definition handleSignal (sigChannel : list string) : M SignalProc.t unit :=
  let signalCount := 0 in
  handleSignalLoop signalCount sigChannel.

(** The byte of the backslash. *)
Definition backslash : ascii := ascii_of_nat 92.

(** [strings.Replace(s, old, new, -1)] for an [old] and a [new] of one byte
    each: every byte [old] of [s] becomes [new]. *)
Fixpoint strings_ReplaceByte (old new : ascii) (s : string) : string :=
  match s with
  | EmptyString => EmptyString
  | String c s' =>
      String (if Ascii.eqb c old then new else c)
             (strings_ReplaceByte old new s')
  end.

(** [slasher]. *)
Definition slasher (s : string) : string :=
  strings_ReplaceByte backslash "/"%char s.

(** [getEnvVar]; [os.Getenv] answers with the empty string for a variable
    that is not set. *)
Definition getEnvVar (os_Getenv : string -> string) (key defaultValue : string)
  : string :=
  let value := os_Getenv key in
  if negb (String.eqb value "") then value else defaultValue.

(** [init]: the defaults it gives to the flags that [cmdMainRun] inspects
    ([agencySize], [ownAddress], [docker], [rr] and [dataDir]). *)
Definition init (os_Getenv : string -> string) : Flags.t :=
  Flags.mk 3 "" (getEnvVar os_Getenv "DOCKER_IMAGE" "") ""
           (getEnvVar os_Getenv "DATA_DIR" ".").

(* ------------------------------------------------------------------ *)
(** ** [main.go]: [findExecutable] *)

(** The outcome of [os.Stat]: no error, an error with [os.IsNotExist],
    another error. *)
Inductive StatResult : Type :=
  | StatOk
  | StatNotExist
  | StatError.

(** The outcome of [os.Open] on a directory followed by [d.Readdir(1024)]:
    the open fails, the read fails, or the entries that were read, each
    with its [Name()] and its [IsDir()]. *)
Inductive DirListing : Type :=
  | DirOpenError
  | DirReadError
  | DirEntries (l : list (string * bool)).

(** The host as [findExecutable] meets it: [runtime.GOOS], the file system
    and the functions of [path/filepath]. *)
Module Host.
Record t : Type := mk {
  GOOS : string;
  readDir : string -> DirListing;
  os_Stat : string -> StatResult;
  filepath_Clean : string -> string;
  filepath_FromSlash : string -> string;
  filepath_Abs : string -> string;
  filepath_Dir : string -> string
}.
End Host.

(** The two variables of [main.go] that [findExecutable] assigns. *)
Module Executable.
Record t : Type := mk {
  arangodExecutable : string;
  arangodJSstartup : string
}.

Definition set_arangodExecutable (v : string) (g : t) : t :=
  mk v (arangodJSstartup g).

Definition set_arangodJSstartup (v : string) (g : t) : t :=
  mk (arangodExecutable g) v.
End Executable.

(** [sort.Sort(sort.Reverse(sort.StringSlice(l)))]: the strings of [l] in
    descending order, strings being compared byte by byte. *)
Fixpoint insertDescending (s : string) (l : list string) : list string :=
  match l with
  | [] => [s]
  | t :: l' =>
      if String.ltb s t then t :: insertDescending s l' else s :: l
  end.

Definition sortReverse (l : list string) : list string :=
  fold_right insertDescending [] l.

(** The slice [foundPaths] of the case "windows" before it is sorted: the
    installations under the default location. An entry of the directory is
    given by its [Name()] and its [IsDir()]. *)
Definition foundPaths (h : Host.t) : list string :=
  let foundPaths := [] in
  let basePath := "C:/Program Files" in
  match Host.readDir h basePath with
  | DirEntries l =>
      fold_left
        (fun foundPaths (n : string * bool) =>
           if snd n then
             let name := fst n in
             if String.prefix "ArangoDB3 " name
                || String.prefix "ArangoDB3e " name
             then foundPaths ++ [basePath +:+ "/" +:+ name +:+
                                 "/usr/bin/arangod.exe"]
             else foundPaths
           else foundPaths)
        l foundPaths
  | DirOpenError | DirReadError => foundPaths
  end.

(** The slice [pathList] when the loop over it begins. *)
Definition pathList (h : Host.t) : list string :=
  let pathList := [] in
  let pathList := pathList ++ ["build/bin/arangod"] in
  if String.eqb (Host.GOOS h) "windows" then
    (* Look in the default installation location: *)
    pathList ++ sortReverse (foundPaths h)
  else if String.eqb (Host.GOOS h) "darwin" then
    pathList ++ ["/Applications/ArangoDB3-CLI.app/Contents/MacOS/usr/sbin/arangod";
                 "/usr/local/opt/arangodb/sbin/arangod"]
  else if String.eqb (Host.GOOS h) "linux" then
    pathList ++ ["/usr/sbin/arangod"]
  else pathList.

(** The test of the loop: [e == nil || !os.IsNotExist(e)]. *)
Definition statFinds (h : Host.t) (p : string) : bool :=
  match Host.os_Stat h (Host.filepath_Clean h (Host.filepath_FromSlash h p)) with
  | StatOk => true
  | StatNotExist => false
  | StatError => true
  end.

(** An assignment to the variables. *)
Definition assign (f : Executable.t -> Executable.t) : M Executable.t unit :=
  fun g => (Some tt, f g).

(** The body of the loop [for _, p := range pathList]. *)
Definition tryPath (h : Host.t) (p : string) : M Executable.t unit :=
  when (statFinds h p)
    (assign (Executable.set_arangodExecutable
               (Host.filepath_Abs h (Host.filepath_FromSlash h p))) ;;
     (if String.eqb p "build/bin/arangod"
      then assign (Executable.set_arangodJSstartup (Host.filepath_Abs h "js"))
      else assign (Executable.set_arangodJSstartup
                     (Host.filepath_Abs h
                        (Host.filepath_FromSlash h
                           (Host.filepath_Dir h p +:+ "/../share/arangodb3/js"))))) ;;
     return_).

(** [findExecutable]. *)
Definition findExecutable (h : Host.t) : M Executable.t unit :=
  forRange (pathList h) (tryPath h).

(** What [findExecutable] assigns when it settles on the path [p]. *)
Definition settledOn (h : Host.t) (p : string) : Executable.t :=
  Executable.mk
    (Host.filepath_Abs h (Host.filepath_FromSlash h p))
    (if String.eqb p "build/bin/arangod"
     then Host.filepath_Abs h "js"
     else Host.filepath_Abs h
            (Host.filepath_FromSlash h
               (Host.filepath_Dir h p +:+ "/../share/arangodb3/js"))).

(* ------------------------------------------------------------------ *)
(** ** More vocabulary *)

(** Two entries of the registry stand for the same member: the id, the
    port offset and the agent flag agree. *)
Definition sameMember (p p' : Peer.t) : Prop :=
  Peer.ID p' = Peer.ID p /\
  Peer.PortOffset p' = Peer.PortOffset p /\
  Peer.HasAgent p' = Peer.HasAgent p.

Definition isTrigger (e : Event) : bool :=
  match e with
  | EvStartRunningTrigger => true
  | EvSaveSetup _ => false
  end.

Definition isSave (e : Event) : bool :=
  match e with
  | EvStartRunningTrigger => false
  | EvSaveSetup _ => true
  end.

(** How often the running trigger has been signalled. *)
Definition triggerCount (x : World.t) : nat :=
  List.length (filter isTrigger (World.events x)).

(** No two peers with different ids share an address and a data
    directory: what the guard "Check datadir" of [helloHandler] is after. *)
Definition dataDirsApart (l : list Peer.t) : Prop :=
  forall p q, In p l -> In q l -> Peer.ID p <> Peer.ID q ->
    ~ (Peer.Address p = Peer.Address q /\ Peer.DataDir p = Peer.DataDir q).

(** The starter is the first peer of its registry, with port offset 0 and
    an agent, and the registry carries the agency size of the starter. *)
Definition leadsRegistry (x : World.t) : Prop :=
  exists p rest,
    registry x = p :: rest /\
    Peer.ID p = Service.ID (World.svc x) /\
    Peer.PortOffset p = 0 /\
    Peer.HasAgent p = true /\
    peers.AgencySize (Service.myPeers (World.svc x))
      = Service.AgencySize (World.svc x).


(** The start-up checks of [cmdMainRun] refuse the flags. *)
Definition refusedAtChecks (f : Flags.t) : Prop :=
  agencySizeEvenOrNonPositive f \/ singleAgentWithoutOwnAddress f \/
  containerWithDebugger f.

(** The directory that [cmdMainRun] works in. *)
Definition workDir (f : Flags.t) (env : MainEnv.t) : string :=
  MainEnv.filepath_Abs env
    (if String.eqb (Flags.dataDir f) "" then "." else Flags.dataDir f).

(** The three tests of the start-up checks, taken together. *)
Definition checksRefuse (f : Flags.t) : bool :=
  (GoInt.rem (Flags.agencySize f) 2 =? 0)%Z || (Flags.agencySize f <=? 0)%Z
  || ((Flags.agencySize f =? 1)%Z && String.eqb (Flags.ownAddress f) "")
  || (negb (String.eqb (Flags.dockerImage f) "")
      && negb (String.eqb (Flags.rrPath f) "")).

(** A list of strings is in descending order: no string is followed,
    at whatever distance, by a greater one. *)
Definition descending (l : list string) : Prop :=
  StronglySorted (fun a b => String.leb b a = true) l.

(* ------------------------------------------------------------------ *)
(** ** More of the small cluster *)

(** [C] joins, then [B] says hello again without an address. *)
Definition exMoreHellos : list Op :=
  [OpHello (exPost "C" "hostC" "/data/C"); OpHello (exPost "B" "" "/data/B")].

(** A Windows host without a build in the working directory, with two
    installations under the default location; the functions of
    [path/filepath] leave a path as it is. *)
Definition exWindows : Host.t :=
  Host.mk "windows"
    (fun _ => DirEntries [("ArangoDB3 3.1.0", true); ("Notes", true);
                          ("ArangoDB3 3.2.0", true); ("ArangoDB3e.txt", false)])
    (fun p => if String.eqb p "build/bin/arangod" then StatNotExist else StatOk)
    (fun p => p) (fun p => p) (fun p => p) (fun p => p).

Definition exDefaults : Executable.t :=
  Executable.mk "/usr/sbin/arangod" "/usr/share/arangodb3/js".

(* ------------------------------------------------------------------ *)
(** ** Running the monad *)

Ltac mbind :=
  match goal with
  | |- context [bind ?c ?k ?x] =>
      change (bind c k x) with
        (match c x with (Some a, x') => k a x' | (None, x') => (None, x') end)
  end.

Lemma forRange_reject {S A : Type} (c : A -> bool) (h : M S unit) (l : list A) :
  (forall y, fst (h y) = None) ->
  forall x,
    forRange l (fun p => when (c p) h) x =
    if existsb c l then (None, snd (h x)) else (Some tt, x).
Proof.
  intros Hh. induction l as [|a l IH]; intros x; simpl.
  - reflexivity.
  - mbind. unfold when at 1. destruct (c a); simpl.
    + specialize (Hh x).
      destruct (h x) as [[u|] y]; simpl in *; [discriminate|reflexivity].
    + unfold ret. apply IH.
Qed.

Lemma writeError_run code msg x :
  writeError code msg x =
  (Some tt,
   errorReply code (if String.eqb msg "" then "Unknown error" else msg) x).
Proof. reflexivity. Qed.

Lemma State_eqb_slave st : State_eqb st stateSlave = false <-> st <> stateSlave.
Proof. destruct st; simpl; split; congruence. Qed.

(** *** Slices and the registry *)

Lemma updateAt_app {A : Type} (f : A -> A) (pre : list A) a post :
  updateAt (List.length pre) f (pre ++ a :: post) = pre ++ f a :: post.
Proof. induction pre; simpl; congruence. Qed.

Lemma nth_error_middle {A : Type} (pre : list A) a post :
  nth_error (pre ++ a :: post) (List.length pre) = Some a.
Proof. induction pre; simpl; auto. Qed.

Lemma setRegistry_setRegistry l l' x :
  setRegistry l (setRegistry l' x) = setRegistry l x.
Proof. reflexivity. Qed.

Lemma setRegistry_registry x : setRegistry (registry x) x = x.
Proof.
  destruct x as [[? ? ? ? ? ? ? ? ? ? [? ?] ?] ? ? ? ? ?]. reflexivity.
Qed.

Lemma registry_setRegistry l x : registry (setRegistry l x) = l.
Proof. reflexivity. Qed.

Lemma modifyPeerAt_run i f x :
  modifyPeerAt i f x = (Some tt, setRegistry (updateAt i f (registry x)) x).
Proof. reflexivity. Qed.

(** *** The free port offset

    The bounded search of [GetFreePortOffset] meets the words it is
    modelled from: with a stride other than 0 it returns the smallest
    multiple of the stride that no peer of the registry uses. *)

Lemma find_map_seq_first {B : Type} (f : B -> bool) (g : nat -> B) m :
  forall a x,
    find f (map g (seq a m)) = Some x ->
    exists k, (a <= k < a + m)%nat /\ x = g k /\ f (g k) = true /\
              forall j, (a <= j < k)%nat -> f (g j) = false.
Proof.
  induction m as [|m IH]; intros a x H; cbn [seq map find] in H; [discriminate|].
  destruct (f (g a)) eqn:Ha.
  - injection H as <-. exists a. repeat split; auto; lia.
  - destruct (IH (S a) x H) as (k & Hk & Hx & Hf & Hmin).
    exists k. repeat split; auto; try lia.
    intros j Hj. destruct (Nat.eq_dec j a) as [->|Hne]; [exact Ha|].
    apply Hmin. lia.
Qed.

Lemma GetFreePortOffset_smallest_free stride p :
  stride <> 0 ->
  exists k,
    peers.GetFreePortOffset stride p = Z.of_nat k * stride /\
    peers.offsetInUse (Z.of_nat k * stride) p = false /\
    forall j, (j < k)%nat -> peers.offsetInUse (Z.of_nat j * stride) p = true.
Proof.
  intros Hs. unfold peers.GetFreePortOffset.
  set (n := List.length (peers.Peers p)).
  set (g := fun k => Z.of_nat k * stride).
  set (f := fun o => negb (peers.offsetInUse o p)).
  destruct (find f (map g (seq 0 (S n)))) as [o|] eqn:Hfind.
  - destruct (find_map_seq_first f g (S n) 0%nat o Hfind)
      as (k & _ & -> & Hf & Hmin).
    exists k. split; [reflexivity|]. split.
    + unfold f in Hf. now apply negb_true_iff in Hf.
    + intros j Hj. specialize (Hmin j (conj (Nat.le_0_l j) Hj)).
      unfold f in Hmin. now apply negb_false_iff in Hmin.
  - (* n + 1 multiples, all in use by n peers: too many *)
    exfalso.
    assert (Hincl : incl (map g (seq 0 (S n)))
                         (map Peer.PortOffset (peers.Peers p))).
    { intros o Ho. pose proof (find_none _ _ Hfind o Ho) as Hu.
      unfold f in Hu. apply negb_false_iff in Hu.
      unfold peers.offsetInUse in Hu. apply existsb_exists in Hu.
      destruct Hu as (q & Hq & Heq). apply Z.eqb_eq in Heq.
      apply in_map_iff. exists q. split; [exact Heq|exact Hq]. }
    assert (Hnd : NoDup (map g (seq 0 (S n)))).
    { apply Injective_map_NoDup; [|apply seq_NoDup].
      intros a b Hab. unfold g in Hab. nia. }
    pose proof (NoDup_incl_length Hnd Hincl) as Hlen.
    rewrite !length_map, length_seq in Hlen. fold n in Hlen. lia.
Qed.


(** *** The update loop rewrites the entries of the id and no other *)

Lemma updatePeerAt_run req pre a post x :
  registry x = pre ++ a :: post ->
  updatePeerAt req (List.length pre) x =
  (Some tt, setRegistry (pre ++ withRequestData req a :: post) x).
Proof.
  intros Hx. unfold updatePeerAt. mbind. cbn [getService].
  change (peers.Peers (Service.myPeers (World.svc x))) with (registry x).
  rewrite Hx, nth_error_middle. unfold withRequestData.
  destruct (String.eqb (Peer.ID a) (HelloRequest.SlaveID req)).
  - unfold when.
    mbind. rewrite modifyPeerAt_run, Hx, updateAt_app. cbn beta iota.
    mbind. rewrite modifyPeerAt_run, registry_setRegistry, updateAt_app.
    cbn beta iota.
    rewrite modifyPeerAt_run, registry_setRegistry, updateAt_app.
    rewrite !setRegistry_setRegistry. reflexivity.
  - unfold when, ret. rewrite <- Hx, setRegistry_registry. reflexivity.
Qed.

Lemma updateLoop_run req (post pre : list Peer.t) x :
  registry x = pre ++ post ->
  forRange (seq (List.length pre) (List.length post)) (updatePeerAt req) x
  = (Some tt, setRegistry (pre ++ map (withRequestData req) post) x).
Proof.
  revert pre x. induction post as [|a post IH]; intros pre x Hx.
  - simpl. rewrite <- Hx. rewrite setRegistry_registry. reflexivity.
  - cbn [List.length seq forRange map].
    mbind. rewrite (updatePeerAt_run req pre a post x Hx).
    specialize (IH (pre ++ [withRequestData req a])
                   (setRegistry (pre ++ withRequestData req a :: post) x)).
    rewrite length_app, Nat.add_1_r, <- !app_assoc in IH. cbn [app] in IH.
    rewrite IH by reflexivity. rewrite setRegistry_setRegistry. reflexivity.
Qed.

Lemma updatePeerData_run req x :
  updatePeerData req x =
  (Some tt, setRegistry (map (withRequestData req) (registry x)) x).
Proof.
  unfold updatePeerData. mbind. cbn [getService].
  exact (updateLoop_run req (registry x) [] x eq_refl).
Qed.

(** *** The update keeps the id, the offset and the agent flag *)

Lemma withRequestData_ID req p : Peer.ID (withRequestData req p) = Peer.ID p.
Proof. unfold withRequestData. now destruct (String.eqb _ _). Qed.

Lemma withRequestData_PortOffset req p :
  Peer.PortOffset (withRequestData req p) = Peer.PortOffset p.
Proof. unfold withRequestData. now destruct (String.eqb _ _). Qed.

Lemma withRequestData_HasAgent req p :
  Peer.HasAgent (withRequestData req p) = Peer.HasAgent p.
Proof. unfold withRequestData. now destruct (String.eqb _ _). Qed.

Lemma sameDataDir_withRequestData a req p :
  sameDataDir a req (withRequestData req p) = sameDataDir a req p.
Proof.
  unfold sameDataDir, withRequestData.
  destruct (String.eqb (Peer.ID p) (HelloRequest.SlaveID req)) eqn:E.
  - cbn [Peer.ID Peer.set_DataDir Peer.set_Address Peer.set_Port]. rewrite E.
    cbn [negb]. now rewrite !andb_false_r.
  - now rewrite ?E.
Qed.

Lemma existsb_sameDataDir_map a req l :
  existsb (sameDataDir a req) (map (withRequestData req) l) =
  existsb (sameDataDir a req) l.
Proof.
  induction l as [|p l IH]; cbn [map existsb]; [reflexivity|].
  now rewrite sameDataDir_withRequestData, IH.
Qed.

Lemma existsb_sameDataDir_snoc a req l p :
  Peer.ID p = HelloRequest.SlaveID req ->
  existsb (sameDataDir a req) (l ++ [p]) = existsb (sameDataDir a req) l.
Proof.
  intros E. rewrite existsb_app. cbn [existsb]. unfold sameDataDir at 2.
  rewrite E, String.eqb_refl. cbn [negb]. now rewrite andb_false_r, !orb_false_r.
Qed.

Lemma find_ID_map req id l :
  find (fun p => String.eqb (Peer.ID p) id) (map (withRequestData req) l) =
  option_map (withRequestData req) (find (fun p => String.eqb (Peer.ID p) id) l).
Proof.
  induction l as [|p l IH]; cbn [map find]; [reflexivity|].
  rewrite withRequestData_ID.
  destruct (String.eqb (Peer.ID p) id); [reflexivity|exact IH].
Qed.

Lemma find_ID_snoc id l p :
  Peer.ID p = id ->
  find (fun p => String.eqb (Peer.ID p) id) (l ++ [p]) <> None.
Proof.
  intros E. induction l as [|q l IH]; cbn [app find].
  - rewrite E, String.eqb_refl. discriminate.
  - destruct (String.eqb (Peer.ID q) id); [discriminate|exact IH].
Qed.

Lemma find_filter_out id l :
  find (fun p => String.eqb (Peer.ID p) id)
       (filter (fun p => negb (String.eqb (Peer.ID p) id)) l) = None.
Proof.
  induction l as [|a l IH]; cbn [filter find]; [reflexivity|].
  destruct (String.eqb (Peer.ID a) id) eqn:E; cbn [negb find]; [exact IH|].
  now rewrite E.
Qed.

Lemma filter_none {A : Type} (f : A -> bool) (l : list A) :
  existsb f l = false -> filter (fun a => negb (f a)) l = l.
Proof.
  induction l as [|a l IH]; cbn [existsb filter]; [reflexivity|].
  intros H. apply orb_false_iff in H. destruct H as [Ha Hl].
  rewrite Ha. cbn [negb]. f_equal. now apply IH.
Qed.

Lemma find_ID_none id l :
  find (fun p => String.eqb (Peer.ID p) id) l = None ->
  ~ In id (map Peer.ID l).
Proof.
  induction l as [|q l IH]; cbn [find map In]; [tauto|].
  destruct (String.eqb_spec (Peer.ID q) id) as [E|E]; [discriminate|].
  intros H [H1|H1]; [contradiction|]. exact (IH H H1).
Qed.

Lemma NoDup_ID_filter f (l : list Peer.t) :
  NoDup (map Peer.ID l) -> NoDup (map Peer.ID (filter f l)).
Proof.
  induction l as [|q l IH]; cbn [filter map]; [auto|].
  intros H. inversion H as [|a l' Hq Hl]; subst.
  destruct (f q); cbn [map]; [|auto].
  constructor; [|auto].
  intros Hin. apply Hq. apply in_map_iff in Hin. destruct Hin as (y & Hy & Hf).
  apply in_map_iff. exists y. split; [exact Hy|].
  apply filter_In in Hf. tauto.
Qed.

Lemma NoDup_ID_snoc (l : list Peer.t) p :
  NoDup (map Peer.ID l) -> ~ In (Peer.ID p) (map Peer.ID l) ->
  NoDup (map Peer.ID (l ++ [p])).
Proof.
  intros Hl Hp. rewrite map_app. cbn [map].
  apply NoDup_app; [exact Hl|constructor; [intros []|constructor]|].
  intros a Ha [<-|[]]. contradiction.
Qed.

Lemma map_ID_withRequestData req l :
  map Peer.ID (map (withRequestData req) l) = map Peer.ID l.
Proof.
  rewrite map_map. apply map_ext. intros p. apply withRequestData_ID.
Qed.

(** *** Counting agents *)





Lemma len_snoc {A : Type} (l : list A) a : len (l ++ [a]) = len l + 1.
Proof. unfold len. rewrite length_app. cbn [List.length]. lia. Qed.

(** *** Flags by position *)







(* ------------------------------------------------------------------ *)
(** ** [goodbyeHandler], path by path *)

Lemma goodbyeHandler_run r x :
  run (goodbyeHandler r) x =
  if negb (String.eqb (Request.Method r) "POST")
  then errorReply StatusMethodNotAllowed "POST required" x
  else
    match Request.Body r with
    | Unreadable err =>
        errorReply StatusBadRequest ("Cannot read request body: " +:+ err) x
    | Malformed err =>
        errorReply StatusBadRequest ("Cannot parse request body: " +:+ err) x
    | Decoded req =>
        if String.eqb (GoodbyeRequest.SlaveID req) ""
        then errorReply StatusBadRequest "SlaveID must be set." x
        else
          let rem := peers.RemovePeerByID (GoodbyeRequest.SlaveID req)
                       (Service.myPeers (World.svc x)) in
          let x1 := World.set_svc (Service.set_myPeers (fst rem) (World.svc x)) x in
          if snd rem then
            let x2 := World.emit (EvSaveSetup (fst rem)) x1 in
            let x3 := if World.setupWriteFails x then x2
                      else World.set_setupFile (Some (fst rem)) x2 in
            World.set_w
              (ResponseWriter.Write (Bytes "BYE")
                 (ResponseWriter.WriteHeader StatusOK (World.w x))) x3
          else errorReply StatusNotFound "Unknown ID" x1
    end.
Proof.
  unfold run, goodbyeHandler.
  mbind. destruct (String.eqb (Request.Method r) "POST"); cbn [negb when].
  { cbn [ret]. cbn beta iota.
    destruct (Request.Body r) as [err|err|req].
    - mbind. rewrite writeError_run. reflexivity.
    - mbind. rewrite writeError_run. reflexivity.
    - mbind. destruct (String.eqb (GoodbyeRequest.SlaveID req) ""); cbn [when].
      + mbind. rewrite writeError_run. reflexivity.
      + cbn [ret]. cbn beta iota. mbind. cbn [getService]. cbn beta iota.
        cbv zeta.
        destruct (peers.RemovePeerByID (GoodbyeRequest.SlaveID req)
                    (Service.myPeers (World.svc x))) as [remaining removed].
        cbn [fst snd].
        mbind. unfold modifyService at 1. cbn beta iota.
        mbind. destruct removed; cbn [negb when].
        * cbn [ret]. cbn beta iota. mbind. unfold saveSetup.
          cbn [World.svc World.set_svc Service.myPeers Service.set_myPeers
               World.setupWriteFails World.emit].
          destruct (World.setupWriteFails x); cbn beta iota; mbind; reflexivity.
        * mbind. rewrite writeError_run. reflexivity. }
  mbind. rewrite writeError_run. reflexivity.
Qed.

Lemma RemovePeerByID_unknown id p :
  snd (peers.RemovePeerByID id p) = false -> fst (peers.RemovePeerByID id p) = p.
Proof.
  unfold peers.RemovePeerByID. cbn [fst snd]. intros H.
  rewrite filter_none by exact H. now destruct p.
Qed.

Lemma RemovePeerByID_known id p :
  snd (peers.RemovePeerByID id p) = true <-> peers.PeerByID id p <> None.
Proof.
  unfold peers.RemovePeerByID, peers.PeerByID. cbn [snd].
  induction (peers.Peers p) as [|a l IH]; cbn [existsb find].
  - split; [discriminate|congruence].
  - destruct (String.eqb (Peer.ID a) id); cbn [orb];
      [split; [discriminate|reflexivity]|exact IH].
Qed.

(** A goodbye takes peers out of the registry and does nothing else to
    it. *)
Lemma goodbye_registry r x :
  let x' := goodbye r x in
  Service.AgencySize (World.svc x') = Service.AgencySize (World.svc x) /\
  (registry x' = registry x \/ exists f, registry x' = filter f (registry x)).
Proof.
  cbv zeta. unfold goodbye, serve. rewrite goodbyeHandler_run.
  destruct (negb _); [split; [reflexivity|left; reflexivity]|].
  destruct (Request.Body r) as [err|err|req];
    try (split; [reflexivity|left; reflexivity]).
  destruct (String.eqb _ _); [split; [reflexivity|left; reflexivity]|].
  cbv zeta.
  destruct (snd _); [destruct (World.setupWriteFails _)|];
    (split; [reflexivity|right; eexists; reflexivity]).
Qed.


(* ------------------------------------------------------------------ *)
(** ** [helloHandler] on the leader, path by path *)

Section HelloPaths.

Variable portOffsetIncrement : Z.
Variable findHost : string -> string.

Lemma selfInstall_run r x :
  when (len (peers.Peers (Service.myPeers (World.svc x))) =? 0)%Z
    (let myself := findHost (Request.Host r) in
     let '(_, hostPort, _) := getHTTPServerPort (World.svc x) in
     modifyService (fun s =>
       Service.set_myPeers
         (peers.set_Peers
            [Peer.mk (Service.ID s) myself hostPort 0 (Service.DataDir s) true]
            (Service.myPeers s)) s) ;;
     modifyService (fun s =>
       Service.set_myPeers
         (peers.set_AgencySize (Service.AgencySize s) (Service.myPeers s)) s)) x
  = (Some tt, selfInstalled findHost r x).
Proof.
  unfold selfInstalled, registry, selfPeer.
  destruct (len (peers.Peers (Service.myPeers (World.svc x))) =? 0)%Z;
    [|reflexivity].
  unfold when. cbv zeta.
  destruct (getHTTPServerPort (World.svc x)) as [[c h] e]. reflexivity.
Qed.

Lemma guard_run r req x :
  when (negb (Service.allowSameDataDir (World.svc x)))
    (forRange (peers.Peers (Service.myPeers (World.svc x))) (fun p =>
       when (String.eqb (Peer.Address p) (slaveAddrOf findHost r req)
             && String.eqb (Peer.DataDir p) (HelloRequest.DataDir req)
             && negb (String.eqb (Peer.ID p) (HelloRequest.SlaveID req)))
         (writeError StatusBadRequest "Cannot use same directory as peer." ;;
          return_))) x
  = if guardRejects findHost r req x
    then (None,
          errorReply StatusBadRequest "Cannot use same directory as peer." x)
    else (Some tt, x).
Proof.
  unfold guardRejects.
  destruct (Service.allowSameDataDir (World.svc x)); [reflexivity|].
  cbn [negb andb when].
  rewrite (forRange_reject (sameDataDir (slaveAddrOf findHost r req) req)).
  - reflexivity.
  - intros y. reflexivity.
Qed.

(** On a starter that is not a slave the handler follows the case table
    [helloLeader]. *)
Lemma helloHandler_leader r x :
  Service.state (World.svc x) <> stateSlave ->
  run (helloHandler portOffsetIncrement findHost r) x =
  helloLeader portOffsetIncrement findHost r x.
Proof.
  intros Hst. apply State_eqb_slave in Hst.
  unfold run, helloHandler, helloLeader.
  mbind. cbn [getService]. cbn beta iota.
  mbind. rewrite Hst. cbn [when ret]. cbn beta iota.
  mbind. cbn [getService]. cbn beta iota.
  mbind. rewrite selfInstall_run. cbn beta iota.
  set (x1 := selfInstalled findHost r x).
  destruct (String.eqb (Request.Method r) "POST").
  2:{ mbind. cbn [when ret]. cbn beta iota. mbind. reflexivity. }
  mbind. cbn [when].
  destruct (Request.Body r) as [err|err|req].
  - mbind. rewrite writeError_run. reflexivity.
  - mbind. rewrite writeError_run. reflexivity.
  - cbv zeta. fold (slaveAddrOf findHost r req).
    mbind.
    destruct (String.eqb (HelloRequest.SlaveID req) "").
    + cbn [when]. mbind. rewrite writeError_run. reflexivity.
    + cbn [when ret]. cbn beta iota.
      mbind. cbn [getService]. cbn beta iota.
      mbind. rewrite guard_run.
      destruct (guardRejects findHost r req x1); [reflexivity|].
      cbn beta iota.
      mbind. cbn [getService]. cbn beta iota.
      destruct (peers.PeerByID (HelloRequest.SlaveID req)
                  (Service.myPeers (World.svc x1))).
      * rewrite updatePeerData_run. cbn beta iota. mbind. reflexivity.
      * mbind. unfold modifyService at 1. cbn beta iota.
        mbind. cbn [getService]. cbn beta iota.
        fold (registry x1).
        fold (newPeerOf portOffsetIncrement findHost r req x1).
        fold (setRegistry
                (registry x1 ++ [newPeerOf portOffsetIncrement findHost r req x1])
                x1).
        set (x2 := setRegistry _ x1).
        fold (registry x2).
        destruct (len (registry x2) =? Service.AgencySize (World.svc x2))%Z.
        -- cbn [when]. unfold startRunningTrigger. cbn beta iota.
           mbind. reflexivity.
        -- cbn [when ret]. cbn beta iota. mbind. reflexivity.
Qed.

(** On a slave the handler answers with the redirect, or with the error
    when no master is known, and returns. *)
Lemma helloHandler_slave r x :
  Service.state (World.svc x) = stateSlave ->
  run (helloHandler portOffsetIncrement findHost r) x =
  match registry x with
  | master :: _ =>
      World.set_w
        (ResponseWriter.WriteHeader StatusTemporaryRedirect
           (ResponseWriter.Header_Add "Location"
              ("http://" +:+ Peer.Address master +:+ ":" +:+
               GoInt.Sprintf_d (Peer.Port master) +:+ "/hello")
              (World.w x))) x
  | [] => errorReply StatusBadRequest "No master known." x
  end.
Proof.
  intros Hst. unfold run, helloHandler.
  mbind. cbn [getService]. cbn beta iota.
  mbind. rewrite Hst. cbn [State_eqb when].
  unfold registry.
  destruct (peers.Peers (Service.myPeers (World.svc x))) as [|master l].
  - mbind. rewrite writeError_run. reflexivity.
  - mbind. mbind. reflexivity.
Qed.

Lemma hello_leader r x :
  Service.state (World.svc x) <> stateSlave ->
  hello portOffsetIncrement findHost r x =
  helloLeader portOffsetIncrement findHost r (World.set_w ResponseWriter.new x).
Proof. intros H. unfold hello, serve. now rewrite helloHandler_leader. Qed.

(** *** The self-install *)

Lemma selfInstalled_cases r x :
  (registry x = [] /\
   selfInstalled findHost r x =
     World.set_svc
       (Service.set_myPeers
          (peers.mk [selfPeer findHost (World.svc x) r]
                    (Service.AgencySize (World.svc x)))
          (World.svc x)) x)
  \/ (registry x <> [] /\ selfInstalled findHost r x = x).
Proof.
  unfold selfInstalled. destruct (registry x) eqn:E.
  - left. split; auto.
  - right. split; [congruence|]. unfold len. cbn [List.length].
    destruct (Z.eqb_spec (Z.of_nat (S (List.length l))) 0); [lia|reflexivity].
Qed.

Lemma selfInstalled_nonempty r x : registry (selfInstalled findHost r x) <> [].
Proof.
  destruct (selfInstalled_cases r x) as [[_ ->]|[H ->]]; [|exact H].
  cbn. discriminate.
Qed.

Lemma selfInstalled_svc r x :
  exists P,
    World.svc (selfInstalled findHost r x) = Service.set_myPeers P (World.svc x).
Proof.
  destruct (selfInstalled_cases r x) as [[_ ->]|[H ->]].
  - eexists. reflexivity.
  - exists (Service.myPeers (World.svc x)). now destruct (World.svc x).
Qed.

Lemma selfInstalled_set_w r w' x :
  selfInstalled findHost r (World.set_w w' x) =
  World.set_w w' (selfInstalled findHost r x).
Proof.
  unfold selfInstalled.
  change (registry (World.set_w w' x)) with (registry x).
  destruct (len (registry x) =? 0)%Z; reflexivity.
Qed.

Lemma getHTTPServerPort_empty s :
  peers.Peers (Service.myPeers s) = [] ->
  snd (fst (getHTTPServerPort s)) =
  if Service.isNetHost s then Service.MasterPort s else Service.announcePort s.
Proof.
  intros E. unfold getHTTPServerPort. rewrite E. cbn [len List.length Z.of_nat].
  rewrite andb_false_r. reflexivity.
Qed.

(** *** What a hello leaves untouched *)

Lemma helloLeader_frame r x :
  let x' := helloLeader portOffsetIncrement findHost r x in
  (exists P, World.svc x' = Service.set_myPeers P (World.svc x)) /\
  World.setupFile x' = World.setupFile x /\
  World.setupWriteFails x' = World.setupWriteFails x /\
  World.os_Open x' = World.os_Open x.
Proof.
  cbv zeta. unfold helloLeader.
  destruct (selfInstalled_svc r x) as [P HP].
  assert (F : World.setupFile (selfInstalled findHost r x) = World.setupFile x /\
              World.setupWriteFails (selfInstalled findHost r x)
                = World.setupWriteFails x /\
              World.os_Open (selfInstalled findHost r x) = World.os_Open x).
  { destruct (selfInstalled_cases r x) as [[_ ->]|[H ->]]; auto. }
  set (x1 := selfInstalled findHost r x) in *.
  repeat match goal with
  | |- context [if ?b then _ else _] => destruct b
  | |- context [match ?b with _ => _ end] => destruct b
  end; cbn; (split; [|exact F]); rewrite ?HP; eexists; reflexivity.
Qed.

(** *** The paths of a hello on the leader *)

Lemma hello_paths r x1 :
  NoJoin (fun req => guardRejects findHost r req x1) r \/
  (exists req, updatePath findHost r req x1) \/
  (exists req, appendPath findHost r req x1).
Proof.
  destruct (String.eqb_spec (Request.Method r) "POST") as [Hm|Hm].
  2:{ left. now apply NoJoin_notPost. }
  destruct (Request.Body r) as [err|err|req] eqn:Hb.
  - left. eapply NoJoin_unreadable; eauto.
  - left. eapply NoJoin_malformed; eauto.
  - destruct (String.eqb_spec (HelloRequest.SlaveID req) "") as [Hid|Hid].
    { left. eapply NoJoin_emptyID; eauto. }
    destruct (guardRejects findHost r req x1) eqn:Hg.
    { left. eapply NoJoin_sameDataDir; eauto. }
    destruct (peers.PeerByID (HelloRequest.SlaveID req)
                (Service.myPeers (World.svc x1))) eqn:Hf.
    + right. left. exists req. unfold updatePath. rewrite Hf.
      repeat split; auto. discriminate.
    + right. right. exists req. unfold appendPath. auto.
Qed.

Lemma helloLeader_noJoin r x :
  let x1 := selfInstalled findHost r x in
  NoJoin (fun req => guardRejects findHost r req x1) r ->
  exists w',
    helloLeader portOffsetIncrement findHost r x = World.set_w w' x1 /\
    (Request.Method r = "POST" ->
     exists msg,
       w' = ResponseWriter.Write (JSON_ErrorResponse msg)
              (ResponseWriter.WriteHeader StatusBadRequest (World.w x1))) /\
    (Request.Method r <> "POST" ->
     w' = ResponseWriter.Write (JSON_peers (Service.myPeers (World.svc x1)))
            (World.w x1)).
Proof.
  cbv zeta. intros N. unfold helloLeader.
  destruct N as [Hm|err Hm Hb|err Hm Hb|req Hm Hb Hid|req Hm Hb Hid Hg].
  - apply String.eqb_neq in Hm. rewrite Hm. eexists. split; [reflexivity|].
    apply String.eqb_neq in Hm. split; [congruence|reflexivity].
  - rewrite Hm, Hb. cbn [String.eqb Ascii.eqb Bool.eqb].
    eexists. split; [reflexivity|]. split; [eauto|congruence].
  - rewrite Hm, Hb. cbn [String.eqb Ascii.eqb Bool.eqb].
    eexists. split; [reflexivity|]. split; [eauto|congruence].
  - rewrite Hm, Hb, Hid. cbn [String.eqb Ascii.eqb Bool.eqb].
    eexists. split; [reflexivity|]. split; [eauto|congruence].
  - apply String.eqb_neq in Hid. rewrite Hm, Hb, Hid, Hg.
    cbn [String.eqb Ascii.eqb Bool.eqb].
    eexists. split; [reflexivity|]. split; [eauto|congruence].
Qed.

Lemma helloLeader_update r req x :
  let x1 := selfInstalled findHost r x in
  updatePath findHost r req x1 ->
  helloLeader portOffsetIncrement findHost r x =
  registryReply (setRegistry (map (withRequestData req) (registry x1)) x1).
Proof.
  cbv zeta. intros (Hm & Hb & Hid & Hg & Hf). unfold helloLeader.
  apply String.eqb_neq in Hid. rewrite Hm, Hb, Hid, Hg.
  cbn [String.eqb Ascii.eqb Bool.eqb].
  destruct (peers.PeerByID _ _); [reflexivity|congruence].
Qed.

Lemma helloLeader_append r req x :
  let x1 := selfInstalled findHost r x in
  let x2 :=
    setRegistry
      (registry x1 ++ [newPeerOf portOffsetIncrement findHost r req x1]) x1 in
  appendPath findHost r req x1 ->
  helloLeader portOffsetIncrement findHost r x =
  registryReply
    (if (len (registry x2) =? Service.AgencySize (World.svc x2))%Z
     then World.emit EvStartRunningTrigger x2 else x2).
Proof.
  cbv zeta. intros (Hm & Hb & Hid & Hg & Hf). unfold helloLeader.
  apply String.eqb_neq in Hid. rewrite Hm, Hb, Hid, Hg, Hf. reflexivity.
Qed.

Lemma guardRejects_svc r req y y' :
  World.svc y = World.svc y' ->
  guardRejects findHost r req y = guardRejects findHost r req y'.
Proof. intros E. unfold guardRejects, registry. now rewrite E. Qed.

Lemma NoJoin_svc r y y' :
  World.svc y = World.svc y' ->
  NoJoin (fun req => guardRejects findHost r req y) r ->
  NoJoin (fun req => guardRejects findHost r req y') r.
Proof.
  intros E N.
  destruct N as [Hm|err Hm Hb|err Hm Hb|req Hm Hb Hid|req Hm Hb Hid Hg].
  - now apply NoJoin_notPost.
  - eapply NoJoin_unreadable; eauto.
  - eapply NoJoin_malformed; eauto.
  - eapply NoJoin_emptyID; eauto.
  - eapply NoJoin_sameDataDir; [exact Hm|exact Hb|exact Hid|].
    cbv beta in *. now rewrite <- (guardRejects_svc r req y y' E).
Qed.

(** *** After a hello *)

(** A hello on a registry that is not empty and knows the id takes the
    update branch or ends without a join. *)
Lemma hello_known_id r y :
  Service.state (World.svc y) <> stateSlave ->
  registry y <> [] ->
  (forall req, Request.Body r = Decoded req ->
     peers.PeerByID (HelloRequest.SlaveID req) (Service.myPeers (World.svc y))
       <> None) ->
  let y' := hello portOffsetIncrement findHost r y in
  (NoJoin (fun req => guardRejects findHost r req y) r /\
   World.svc y' = World.svc y /\ World.events y' = World.events y) \/
  (exists req,
     Request.Method r = "POST" /\ Request.Body r = Decoded req /\
     guardRejects findHost r req y = false /\
     y' = registryReply
            (setRegistry (map (withRequestData req) (registry y))
                         (World.set_w ResponseWriter.new y))).
Proof.
  intros Hst Hne Hk y'. subst y'. rewrite hello_leader by exact Hst.
  set (y0 := World.set_w ResponseWriter.new y).
  assert (E1 : selfInstalled findHost r y0 = y0).
  { destruct (selfInstalled_cases r y0) as [[H _]|[_ H]]; [|exact H].
    contradiction. }
  destruct (hello_paths r (selfInstalled findHost r y0)) as [N|[[req U]|[req A]]].
  - left. destruct (helloLeader_noJoin r y0 N) as (w' & -> & _).
    rewrite E1. split; [|split; reflexivity].
    eapply NoJoin_svc; [|exact N]. now rewrite E1.
  - right. exists req. rewrite (helloLeader_update r req y0 U), E1.
    rewrite E1 in U. destruct U as (Hm & Hb & _ & Hg & _). repeat split; auto.
  - exfalso. rewrite E1 in A. destruct A as (_ & Hb & _ & _ & Hf).
    exact (Hk req Hb Hf).
Qed.

(** After a hello on the leader the registry is not empty, the starter is
    still no slave, and the id of a request that was let in is known. *)
Lemma hello_leader_after r x :
  Service.state (World.svc x) <> stateSlave ->
  let x1 := selfInstalled findHost r x in
  let x' := hello portOffsetIncrement findHost r x in
  Service.state (World.svc x') <> stateSlave /\
  Service.allowSameDataDir (World.svc x')
    = Service.allowSameDataDir (World.svc x) /\
  registry x' <> [] /\
  ((NoJoin (fun req => guardRejects findHost r req x1) r /\
    World.svc x' = World.svc x1 /\
    (Request.Method r = "POST" -> status x' = Some 400)) \/
   (exists req,
      Request.Method r = "POST" /\ Request.Body r = Decoded req /\
      HelloRequest.SlaveID req <> "" /\
      guardRejects findHost r req x1 = false /\
      status x' = Some 200 /\
      (registry x' = map (withRequestData req) (registry x1) \/
       exists p, registry x' = registry x1 ++ [p] /\
                 Peer.ID p = HelloRequest.SlaveID req) /\
      peers.PeerByID (HelloRequest.SlaveID req) (Service.myPeers (World.svc x'))
        <> None)).
Proof.
  intros Hst x1 x'.
  assert (Hne : registry x1 <> []) by apply selfInstalled_nonempty.
  assert (F : exists P, World.svc x' = Service.set_myPeers P (World.svc x)).
  { subst x'. rewrite hello_leader by exact Hst.
    apply (helloLeader_frame r (World.set_w ResponseWriter.new x)). }
  destruct F as [P HP].
  split; [now rewrite HP|]. split; [now rewrite HP|]. clear P HP.
  subst x'. rewrite hello_leader by exact Hst.
  set (x0 := World.set_w ResponseWriter.new x).
  assert (E1 : selfInstalled findHost r x0 = World.set_w ResponseWriter.new x1)
    by apply selfInstalled_set_w.
  destruct (hello_paths r (selfInstalled findHost r x0)) as [N|[[req U]|[req A]]].
  - destruct (helloLeader_noJoin r x0 N) as (w' & -> & Hp & _).
    rewrite E1. split; [exact Hne|]. left. split; [|split; [reflexivity|]].
    + eapply NoJoin_svc; [|exact N]. now rewrite E1.
    + intros Hm. destruct (Hp Hm) as [msg ->]. rewrite E1. reflexivity.
  - rewrite (helloLeader_update r req x0 U), E1.
    rewrite E1 in U. destruct U as (Hm & Hb & Hid & Hg & Hf).
    assert (R : registry
                  (registryReply
                     (setRegistry
                        (map (withRequestData req)
                             (registry (World.set_w ResponseWriter.new x1)))
                        (World.set_w ResponseWriter.new x1)))
                = map (withRequestData req) (registry x1)) by reflexivity.
    rewrite R. split.
    { destruct (registry x1); [congruence|discriminate]. }
    right. exists req. repeat split; auto.
    unfold peers.PeerByID in *.
    change (peers.Peers
              (Service.myPeers
                 (World.svc
                    (registryReply
                       (setRegistry
                          (map (withRequestData req)
                               (registry (World.set_w ResponseWriter.new x1)))
                          (World.set_w ResponseWriter.new x1))))))
      with (map (withRequestData req) (registry x1)).
    rewrite find_ID_map.
    change (peers.Peers
              (Service.myPeers (World.svc (World.set_w ResponseWriter.new x1))))
      with (registry x1) in Hf.
    destruct (find _ (registry x1)); [discriminate|congruence].
  - rewrite (helloLeader_append r req x0 A), E1.
    rewrite E1 in A. destruct A as (Hm & Hb & Hid & Hg & Hf).
    set (x2 := setRegistry _ _).
    set (p := newPeerOf portOffsetIncrement findHost r req
                (World.set_w ResponseWriter.new x1)).
    assert (R : forall b : bool,
               registry
                 (registryReply
                    (if b then World.emit EvStartRunningTrigger x2 else x2))
               = registry x1 ++ [p]) by (intros []; reflexivity).
    assert (St : forall b : bool,
               status
                 (registryReply
                    (if b then World.emit EvStartRunningTrigger x2 else x2))
               = Some 200) by (intros []; reflexivity).
    rewrite R. split.
    { destruct (registry x1); discriminate. }
    right. exists req. repeat split; auto.
    + right. exists p. split; reflexivity.
    + unfold peers.PeerByID.
      match goal with
      | |- find _ ?l <> None =>
          change l with
            (registry
               (registryReply
                  (if (len (registry x2) =? Service.AgencySize (World.svc x2))%Z
                   then World.emit EvStartRunningTrigger x2 else x2)))
      end.
      rewrite R. now apply find_ID_snoc.
Qed.

Lemma guardRejects_after r req y y' :
  Service.allowSameDataDir (World.svc y')
    = Service.allowSameDataDir (World.svc y) ->
  (registry y' = map (withRequestData req) (registry y) \/
   exists p, registry y' = registry y ++ [p] /\
             Peer.ID p = HelloRequest.SlaveID req) ->
  guardRejects findHost r req y' = guardRejects findHost r req y.
Proof.
  intros Ha [R|(p & R & Hp)]; unfold guardRejects; rewrite Ha, R.
  - now rewrite existsb_sameDataDir_map.
  - now rewrite existsb_sameDataDir_snoc.
Qed.

(** The shape of the registry after a hello, whatever the role. *)
Lemma hello_registry r x :
  let n := Service.AgencySize (World.svc x) in
  let l1 := registry (selfInstalled findHost r x) in
  let x' := hello portOffsetIncrement findHost r x in
  Service.AgencySize (World.svc x') = n /\
  (registry x' = registry x \/
   registry x' = l1 \/
   (exists req, registry x' = map (withRequestData req) l1) \/
   (exists p, registry x' = l1 ++ [p] /\
              Peer.HasAgent p = (len l1 <? n)%Z /\
              ~ In (Peer.ID p) (map Peer.ID l1))).
Proof.
  cbv zeta.
  destruct (Service.state (World.svc x)) eqn:Hst.
  2:{ unfold hello, serve. rewrite helloHandler_slave by exact Hst.
      change (registry (World.set_w ResponseWriter.new x)) with (registry x).
      destruct (registry x) eqn:E; (split; [reflexivity|left; exact E]). }
  assert (Hl : Service.state (World.svc x) <> stateSlave) by congruence.
  rewrite hello_leader by exact Hl.
  set (x0 := World.set_w ResponseWriter.new x).
  assert (E1 : selfInstalled findHost r x0 =
               World.set_w ResponseWriter.new (selfInstalled findHost r x))
    by apply selfInstalled_set_w.
  set (x1 := selfInstalled findHost r x) in *.
  assert (Hag : Service.AgencySize (World.svc x1)
                = Service.AgencySize (World.svc x)).
  { destruct (selfInstalled_svc r x) as [P HP]. fold x1 in HP. now rewrite HP. }
  split.
  { destruct (helloLeader_frame r x0) as ([P HP] & _). now rewrite HP. }
  destruct (hello_paths r (selfInstalled findHost r x0)) as [N|[[req U]|[req A]]].
  - destruct (helloLeader_noJoin r x0 N) as (w' & -> & _).
    rewrite E1. right. left. reflexivity.
  - rewrite (helloLeader_update r req x0 U), E1.
    right. right. left. exists req. reflexivity.
  - rewrite (helloLeader_append r req x0 A), E1.
    right. right. right.
    exists (newPeerOf portOffsetIncrement findHost r req
              (World.set_w ResponseWriter.new x1)).
    split; [|split].
    + match goal with |- context [if ?b then _ else _] => destruct b end;
        reflexivity.
    + cbn [newPeerOf Peer.HasAgent]. rewrite <- Hag. reflexivity.
    + rewrite E1 in A. destruct A as (_ & _ & _ & _ & Hf).
      apply find_ID_none. exact Hf.
Qed.

(** *** Agents along a run of hellos and goodbyes *)






(** C2, as amended. On the leader a hello signals the running trigger
    exactly when it appends a peer to the registry that the self-install
    left and the size is then the agency size; the self-install never
    signals, so with agencySize = 1 no hello signals the trigger. *)
Theorem hello_trigger_on_append_only (x : World.t) (r : Request.t HelloRequest.t) :
  Service.state (World.svc x) <> stateSlave ->
  let x1 := selfInstalled findHost r x in
  let x' := hello portOffsetIncrement findHost r x in
  World.events x' =
    World.events x ++
    (if (len (registry x') =? len (registry x1) + 1)%Z
        && (len (registry x') =? Service.AgencySize (World.svc x))%Z
     then [EvStartRunningTrigger] else [])
  /\ (Service.AgencySize (World.svc x) = 1 -> World.events x' = World.events x).
Proof.
  intros Hst x1 x'.
  assert (Hne : (1 <= len (registry x1))%Z).
  { pose proof (selfInstalled_nonempty r x) as H. fold x1 in H.
    destruct (registry x1); [congruence|]. unfold len. cbn [List.length]. lia. }
  assert (Hag : Service.AgencySize (World.svc x1)
                = Service.AgencySize (World.svc x)).
  { destruct (selfInstalled_svc r x) as [P HP]. fold x1 in HP.
    rewrite HP. reflexivity. }
  assert (Hev : World.events x1 = World.events x).
  { subst x1. destruct (selfInstalled_cases r x) as [[_ ->]|[_ ->]]; reflexivity. }
  assert (Main : World.events x' =
    World.events x ++
    (if (len (registry x') =? len (registry x1) + 1)%Z
        && (len (registry x') =? Service.AgencySize (World.svc x))%Z
     then [EvStartRunningTrigger] else [])).
  { subst x'. rewrite hello_leader by exact Hst.
    set (x0 := World.set_w ResponseWriter.new x).
    assert (E1 : selfInstalled findHost r x0 = World.set_w ResponseWriter.new x1)
      by apply selfInstalled_set_w.
    destruct (hello_paths r (selfInstalled findHost r x0))
      as [N|[[req U]|[req A]]].
    - destruct (helloLeader_noJoin r x0 N) as (w' & -> & _).
      rewrite E1.
      change (registry (World.set_w w' (World.set_w ResponseWriter.new x1)))
        with (registry x1).
      destruct (Z.eqb_spec (len (registry x1)) (len (registry x1) + 1)); [lia|].
      cbn [andb]. rewrite app_nil_r. exact Hev.
    - rewrite (helloLeader_update r req x0 U), E1.
      cbn [registry registryReply setRegistry World.svc World.set_w
           World.set_svc World.events Service.myPeers Service.set_myPeers
           peers.Peers peers.set_Peers].
      fold (registry x1).
      change (registry (World.set_w ResponseWriter.new x1)) with (registry x1).
      unfold len. rewrite length_map.
      destruct (Z.eqb_spec (Z.of_nat (List.length (registry x1)))
                           (Z.of_nat (List.length (registry x1)) + 1)); [lia|].
      cbn [andb]. rewrite app_nil_r. exact Hev.
    - rewrite (helloLeader_append r req x0 A), E1.
      set (x2 := setRegistry _ _).
      assert (R2 : registry x2 =
                   registry x1 ++
                   [newPeerOf portOffsetIncrement findHost r req
                      (World.set_w ResponseWriter.new x1)]) by reflexivity.
      assert (A2 : Service.AgencySize (World.svc x2)
                   = Service.AgencySize (World.svc x)).
      { rewrite <- Hag. reflexivity. }
      assert (L2 : len (registry x2) = len (registry x1) + 1).
      { rewrite R2. apply len_snoc. }
      rewrite A2.
      destruct (len (registry x2) =? Service.AgencySize (World.svc x))%Z eqn:Hq.
      + change (registry (registryReply (World.emit EvStartRunningTrigger x2)))
          with (registry x2).
        rewrite Hq, L2, Z.eqb_refl. cbn [andb].
        cbn [registryReply World.events World.emit World.set_w].
        change (World.events x2) with (World.events x1). now rewrite Hev.
      + change (registry (registryReply x2)) with (registry x2).
        rewrite Hq, andb_false_r. cbv iota. rewrite app_nil_r.
        change (World.events (registryReply x2)) with (World.events x1).
        exact Hev. }
  split; [exact Main|].
  intros H1. rewrite Main.
  destruct (Z.eqb_spec (len (registry x')) (len (registry x1) + 1)); cbn [andb];
    [|apply app_nil_r].
  destruct (Z.eqb_spec (len (registry x')) (Service.AgencySize (World.svc x)));
    [lia|apply app_nil_r].
Qed.

(** C3. On the leader, serving the same hello request a second time leaves
    the membership as the first time left it: the size of the registry,
    the ids and the port offsets are unchanged, no trigger is signalled;
    when the request is a valid one (the first answer was the registry),
    the second time rewrites the entry of its id in place with the
    request's address, port and data directory. *)
Theorem hello_twice_same_membership (x : World.t) (r : Request.t HelloRequest.t) :
  Service.state (World.svc x) <> stateSlave ->
  let x1 := hello portOffsetIncrement findHost r x in
  let x2 := hello portOffsetIncrement findHost r x1 in
  len (registry x2) = len (registry x1) /\
  map Peer.ID (registry x2) = map Peer.ID (registry x1) /\
  map Peer.PortOffset (registry x2) = map Peer.PortOffset (registry x1) /\
  World.events x2 = World.events x1 /\
  (forall req,
     Request.Method r = "POST" -> Request.Body r = Decoded req ->
     status x1 = Some 200 ->
     registry x2 = map (withRequestData req) (registry x1) /\
     status x2 = Some 200).
Proof.
  intros Hst x1 x2.
  destruct (hello_leader_after r x Hst) as (Hst1 & Hal & Hne & Hcase).
  fold x1 in Hst1, Hal, Hne, Hcase.
  set (y1 := selfInstalled findHost r x) in *.
  assert (Same : World.svc x2 = World.svc x1 /\
                 World.events x2 = World.events x1 ->
    len (registry x2) = len (registry x1) /\
    map Peer.ID (registry x2) = map Peer.ID (registry x1) /\
    map Peer.PortOffset (registry x2) = map Peer.PortOffset (registry x1) /\
    World.events x2 = World.events x1).
  { intros [E Ev]. unfold registry. rewrite E. auto. }
  assert (Upd : forall req,
    x2 = registryReply
           (setRegistry (map (withRequestData req) (registry x1))
                        (World.set_w ResponseWriter.new x1)) ->
    (len (registry x2) = len (registry x1) /\
     map Peer.ID (registry x2) = map Peer.ID (registry x1) /\
     map Peer.PortOffset (registry x2) = map Peer.PortOffset (registry x1) /\
     World.events x2 = World.events x1) /\
    registry x2 = map (withRequestData req) (registry x1) /\
    status x2 = Some 200).
  { intros req E.
    assert (R : registry x2 = map (withRequestData req) (registry x1))
      by (rewrite E; reflexivity).
    rewrite R. split; [|split; [reflexivity|rewrite E; reflexivity]].
    unfold len. rewrite length_map, !map_map. repeat split.
    - apply map_ext. intros p. apply withRequestData_ID.
    - apply map_ext. intros p. apply withRequestData_PortOffset.
    - rewrite E. reflexivity. }
  destruct Hcase as [(N & Hsvc & H400)|(req & Hm & Hb & Hid & Hg & H200 & HR & Hf)].
  - (* the first hello ended without a join: so does the second *)
    assert (E2 : World.svc x2 = World.svc x1 /\ World.events x2 = World.events x1).
    { subst x2. rewrite hello_leader by exact Hst1.
      set (x0 := World.set_w ResponseWriter.new x1).
      assert (E1 : selfInstalled findHost r x0 = x0).
      { destruct (selfInstalled_cases r x0) as [[H _]|[_ H]]; [|exact H].
        contradiction. }
      destruct (helloLeader_noJoin r x0) as (w' & -> & _).
      { rewrite E1. eapply NoJoin_svc; [|exact N]. symmetry. exact Hsvc. }
      rewrite E1. split; reflexivity. }
    destruct (Same E2) as (A & B & C & D).
    split; [exact A|split; [exact B|split; [exact C|split; [exact D|]]]].
    intros req Hm Hb H200. rewrite (H400 Hm) in H200. discriminate.
  - destruct (hello_known_id r x1 Hst1 Hne)
      as [(N2 & E2 & Ev2)|(req' & _ & Hb' & _ & E2)].
    { intros req' Hb'. rewrite Hb in Hb'. injection Hb' as <-. exact Hf. }
    + fold x2 in E2, Ev2.
      destruct (Same (conj E2 Ev2)) as (A & B & C & D).
      split; [exact A|split; [exact B|split; [exact C|split; [exact D|]]]].
      (* the second hello passes the checks that the first one passed *)
      exfalso.
      destruct N2 as [Hm'|err Hm' Hb'|err Hm' Hb'|req' Hm' Hb' Hid'
                     |req' Hm' Hb' Hid' Hg']; try congruence.
      rewrite Hb in Hb'. injection Hb' as <-. cbv beta in Hg'.
      rewrite (guardRejects_after r req y1 x1) in Hg'; [congruence| |exact HR].
      rewrite Hal. destruct (selfInstalled_svc r x) as [P HP].
      fold y1 in HP. now rewrite HP.
    + fold x2 in E2. rewrite Hb in Hb'. injection Hb' as <-.
      destruct (Upd req E2) as ((A & B & C & D) & R & S2).
      split; [exact A|split; [exact B|split; [exact C|split; [exact D|]]]].
      intros req' _ Hb' _. rewrite Hb in Hb'. injection Hb' as <-. now split.
Qed.

(** C6. A starter that is a slave answers every hello without touching its
    state: when it knows a peer, with status 307 and the header Location
    http://<peers[0].Address>:<peers[0].Port>/hello; when it knows none,
    with status 400. *)
Theorem hello_on_slave (x : World.t) (r : Request.t HelloRequest.t) :
  Service.state (World.svc x) = stateSlave ->
  let x' := hello portOffsetIncrement findHost r x in
  World.svc x' = World.svc x /\
  World.events x' = World.events x /\
  match registry x with
  | master :: _ =>
      status x' = Some 307 /\
      header x' =
        [("Location",
          "http://" +:+ Peer.Address master +:+ ":" +:+
          GoInt.Sprintf_d (Peer.Port master) +:+ "/hello")] /\
      body x' = []
  | [] =>
      status x' = Some 400 /\
      body x' = [JSON_ErrorResponse "No master known."]
  end.
Proof.
  intros Hst. cbv zeta. unfold hello, serve.
  rewrite helloHandler_slave by exact Hst.
  change (registry (World.set_w ResponseWriter.new x)) with (registry x).
  destruct (registry x) as [|master l]; cbn; auto.
Qed.

(** C9. On the leader with an empty registry the self-peer (port offset 0,
    hasAgent) is installed before the request is looked at: a request that
    is no POST, a POST whose body cannot be read or parsed, a POST with an
    empty SlaveID and a POST that the same-dataDir guard rejects all leave
    the registry holding the self-peer and nobody else; the POSTs among
    them are answered with status 400. *)
Theorem hello_installs_self_before_checks (x : World.t)
    (r : Request.t HelloRequest.t) :
  Service.state (World.svc x) <> stateSlave ->
  registry x = [] ->
  let s := World.svc x in
  let self :=
    Peer.mk (Service.ID s) (findHost (Request.Host r))
            (if Service.isNetHost s then Service.MasterPort s
             else Service.announcePort s)
            0 (Service.DataDir s) true in
  let x' := hello portOffsetIncrement findHost r x in
  NoJoin (fun req => negb (Service.allowSameDataDir s)
                     && sameDataDir (slaveAddrOf findHost r req) req self) r ->
  registry x' = [self] /\
  World.events x' = World.events x /\
  (Request.Method r = "POST" -> status x' = Some 400).
Proof.
  intros Hst He s self x' N. subst x'.
  rewrite hello_leader by exact Hst.
  set (x0 := World.set_w ResponseWriter.new x).
  assert (H1 : selfInstalled findHost r x0 =
               World.set_svc
                 (Service.set_myPeers (peers.mk [self] (Service.AgencySize s)) s)
                 x0).
  { unfold selfInstalled. change (registry x0) with (registry x). rewrite He.
    cbn [len List.length Z.of_nat Z.eqb]. unfold selfPeer.
    change (World.svc x0) with s. rewrite getHTTPServerPort_empty by exact He.
    reflexivity. }
  destruct (helloLeader_noJoin r x0) as (w' & E & Hp & _).
  { rewrite H1.
    assert (G : forall req,
      guardRejects findHost r req
        (World.set_svc
           (Service.set_myPeers (peers.mk [self] (Service.AgencySize s)) s) x0)
      = negb (Service.allowSameDataDir s)
        && sameDataDir (slaveAddrOf findHost r req) req self).
    { intros req. unfold guardRejects, registry. cbn. now rewrite orb_false_r. }
    destruct N as [Hm|err Hm Hb|err Hm Hb|req Hm Hb Hid|req Hm Hb Hid Hg].
    - now apply NoJoin_notPost.
    - eapply NoJoin_unreadable; eauto.
    - eapply NoJoin_malformed; eauto.
    - eapply NoJoin_emptyID; eauto.
    - eapply NoJoin_sameDataDir; [exact Hm|exact Hb|exact Hid|].
      cbv beta. rewrite G. exact Hg. }
  rewrite E, H1. repeat split.
  intros Hm. destruct (Hp Hm) as [msg Hw]. rewrite Hw, H1. reflexivity.
Qed.

(** C10. On the leader, for a POST that passes the checks: a new id is
    appended with the request's SlaveAddress, or with the address derived
    from the remote address when SlaveAddress is empty; a known id has its
    stored Address overwritten with the raw SlaveAddress, the empty string
    included. *)
Theorem hello_address_append_vs_update (x : World.t)
    (r : Request.t HelloRequest.t) (req : HelloRequest.t) :
  Service.state (World.svc x) <> stateSlave ->
  Request.Method r = "POST" ->
  Request.Body r = Decoded req ->
  HelloRequest.SlaveID req <> "" ->
  let x1 := selfInstalled findHost r x in
  guardRejects findHost r req x1 = false ->
  let x' := hello portOffsetIncrement findHost r x in
  match peers.PeerByID (HelloRequest.SlaveID req)
                       (Service.myPeers (World.svc x1)) with
  | None =>
      exists p,
        registry x' = registry x1 ++ [p] /\
        Peer.ID p = HelloRequest.SlaveID req /\
        Peer.Address p =
          (if String.eqb (HelloRequest.SlaveAddress req) ""
           then findHost (Request.RemoteAddr r)
           else HelloRequest.SlaveAddress req)
  | Some _ =>
      registry x' = map (withRequestData req) (registry x1) /\
      forall p, In p (registry x') ->
        Peer.ID p = HelloRequest.SlaveID req ->
        Peer.Address p = HelloRequest.SlaveAddress req
  end.
Proof.
  intros Hst Hm Hb Hid x1 Hg x'. subst x'.
  rewrite hello_leader by exact Hst.
  set (x0 := World.set_w ResponseWriter.new x).
  assert (E1 : selfInstalled findHost r x0 = World.set_w ResponseWriter.new x1)
    by apply selfInstalled_set_w.
  destruct (peers.PeerByID _ _) eqn:Hf.
  - rewrite (helloLeader_update r req x0).
    2:{ rewrite E1. unfold updatePath. repeat split; auto.
        change (World.svc (World.set_w ResponseWriter.new x1)) with (World.svc x1).
        rewrite Hf. discriminate. }
    rewrite E1.
    cbn [registry registryReply setRegistry World.svc World.set_w World.set_svc
         Service.myPeers Service.set_myPeers peers.Peers peers.set_Peers].
    fold (registry x1). split; [reflexivity|].
    intros p Hin Hp. apply in_map_iff in Hin. destruct Hin as (q & <- & _).
    unfold withRequestData in *.
    destruct (String.eqb_spec (Peer.ID q) (HelloRequest.SlaveID req));
      [reflexivity|contradiction].
  - rewrite (helloLeader_append r req x0).
    2:{ rewrite E1. unfold appendPath. repeat split; auto. }
    rewrite E1.
    exists (newPeerOf portOffsetIncrement findHost r req x1).
    split; [|split; reflexivity].
    match goal with |- context [if ?b then _ else _] => destruct b end;
      reflexivity.
Qed.

(** *** The ids of the registry *)

Lemma selfInstalled_NoDup r x :
  NoDup (map Peer.ID (registry x)) ->
  NoDup (map Peer.ID (registry (selfInstalled findHost r x))).
Proof.
  intros H. destruct (selfInstalled_cases r x) as [[_ ->]|[_ ->]]; [|exact H].
  cbn. constructor; [intros []|constructor].
Qed.

Lemma step_NoDup x o :
  NoDup (map Peer.ID (registry x)) ->
  NoDup (map Peer.ID (registry (step portOffsetIncrement findHost x o))).
Proof.
  intros H. destruct o as [r|r]; cbn [step].
  - destruct (hello_registry r x) as (_ & Hshape).
    pose proof (selfInstalled_NoDup r x H) as H1.
    destruct Hshape as [->|[->|[[req ->]|(p & -> & _ & Hp)]]]; auto.
    + now rewrite map_ID_withRequestData.
    + now apply NoDup_ID_snoc.
  - destruct (goodbye_registry r x) as (_ & [->|[f ->]]); [exact H|].
    now apply NoDup_ID_filter.
Qed.

(** The ids of the peers stay pairwise distinct along every run of hello
    and goodbye operations: a hello appends a peer only under an id that
    the registry does not hold. *)
Theorem ids_stay_distinct (x : World.t) (ops : list Op) :
  NoDup (map Peer.ID (registry x)) ->
  NoDup (map Peer.ID (registry (runOps portOffsetIncrement findHost x ops))).
Proof.
  revert x. induction ops as [|o ops IH]; intros x H; cbn [runOps fold_left].
  - exact H.
  - apply IH. now apply step_NoDup.
Qed.

End HelloPaths.

(* ------------------------------------------------------------------ *)
(** ** Goodbye *)

(** C5, as amended. A goodbye POST with a non-empty SlaveID. When the id is
    in the registry: the peer is removed, [saveSetup] is called on the
    registry without it, and the answer is 200 with body BYE whether the
    write succeeds or not; the setup file holds the new registry unless
    the write failed, in which case it is left as it was. When the id is
    unknown: the answer is 404, the service is unchanged and the setup
    file is not written. *)
Theorem goodbye_removes_and_saves (x : World.t)
    (r : Request.t GoodbyeRequest.t) (req : GoodbyeRequest.t) :
  Request.Method r = "POST" ->
  Request.Body r = Decoded req ->
  GoodbyeRequest.SlaveID req <> "" ->
  let id := GoodbyeRequest.SlaveID req in
  let x' := goodbye r x in
  match peers.PeerByID id (Service.myPeers (World.svc x)) with
  | Some _ =>
      registry x' = filter (fun p => negb (String.eqb (Peer.ID p) id)) (registry x) /\
      peers.PeerByID id (Service.myPeers (World.svc x')) = None /\
      World.events x' =
        World.events x ++ [EvSaveSetup (Service.myPeers (World.svc x'))] /\
      World.setupFile x' =
        (if World.setupWriteFails x then World.setupFile x
         else Some (Service.myPeers (World.svc x'))) /\
      status x' = Some 200 /\
      body x' = [Bytes "BYE"]
  | None =>
      status x' = Some 404 /\
      body x' = [JSON_ErrorResponse "Unknown ID"] /\
      World.svc x' = World.svc x /\
      World.events x' = World.events x /\
      World.setupFile x' = World.setupFile x
  end.
Proof.
  intros Hm Hb Hid id x'. subst x'. unfold goodbye, serve.
  rewrite goodbyeHandler_run.
  apply String.eqb_neq in Hid. rewrite Hm, Hb, Hid.
  cbn [String.eqb Ascii.eqb Bool.eqb negb].
  cbv zeta. cbn [World.svc World.set_w World.setupWriteFails World.w].
  pose proof (RemovePeerByID_known id (Service.myPeers (World.svc x))) as Hk.
  pose proof (RemovePeerByID_unknown id (Service.myPeers (World.svc x))) as Hu.
  fold id.
  destruct (snd (peers.RemovePeerByID id (Service.myPeers (World.svc x))))
    eqn:Hrem.
  - destruct (peers.PeerByID id (Service.myPeers (World.svc x))) eqn:Hf.
    2:{ exfalso. now apply (proj1 Hk). }
    assert (Hnone :
      peers.PeerByID id
        (fst (peers.RemovePeerByID id (Service.myPeers (World.svc x)))) = None).
    { unfold peers.PeerByID, peers.RemovePeerByID.
      cbn [fst peers.Peers peers.set_Peers]. apply find_filter_out. }
    destruct (World.setupWriteFails x); repeat split; try reflexivity;
      exact Hnone.
  - destruct (peers.PeerByID id (Service.myPeers (World.svc x))) eqn:Hf.
    { assert (false = true) by (apply (proj2 Hk); discriminate). discriminate. }
    rewrite (Hu eq_refl). repeat split; try reflexivity.
    cbn. now destruct (World.svc x).
Qed.

(* ------------------------------------------------------------------ *)
(** ** Logs *)

Section Logs.

Variable filepath_Join : list string -> string.

Lemma logsHandler_run mode off x :
  run (logsHandler filepath_Join mode off) x =
  match myPeer (World.svc x) with
  | None =>
      World.set_w
        (ResponseWriter.WriteHeader StatusPreconditionFailed (World.w x)) x
  | Some p =>
      let path :=
        filepath_Join
          [Service.DataDir (World.svc x);
           mode +:+ GoInt.Sprintf_d
             (GoInt.add (GoInt.add (Service.MasterPort (World.svc x))
                                   (Peer.PortOffset p)) off);
           "arangod.log"] in
      match World.os_Open x path with
      | OpenNotExist =>
          World.set_w (ResponseWriter.WriteHeader StatusOK (World.w x)) x
      | OpenError err =>
          World.set_w
            (ResponseWriter.Write (Bytes err)
               (ResponseWriter.WriteHeader StatusInternalServerError
                  (World.w x))) x
      | Opened c =>
          if String.eqb c ""
          then World.set_w (ResponseWriter.WriteHeader StatusOK (World.w x)) x
          else World.set_w
                 (ResponseWriter.Write (Bytes c)
                    (ResponseWriter.WriteHeader StatusOK (World.w x))) x
      end
  end.
Proof.
  unfold run, logsHandler, myPeer. mbind. cbn [getService]. cbn beta iota.
  destruct (peers.PeerByID _ _) as [p|].
  - cbv zeta. mbind. unfold osOpen. cbn beta iota.
    destruct (World.os_Open x _) as [|err|c].
    + reflexivity.
    + mbind. reflexivity.
    + mbind. unfold onWriter at 1. cbn beta iota. unfold io_Copy.
      destruct (String.eqb c ""); reflexivity.
  - mbind. reflexivity.
Qed.

Lemma agentLogsHandler_run x :
  run (agentLogsHandler filepath_Join) x =
  if needsAgent (World.svc x)
  then run (logsHandler filepath_Join "agent" portOffsetAgent) x
  else World.set_w (ResponseWriter.WriteHeader StatusNotFound (World.w x)) x.
Proof.
  unfold run, agentLogsHandler. mbind. cbn [getService]. cbn beta iota.
  destruct (needsAgent (World.svc x)); reflexivity.
Qed.

(** C7, as amended. Serving the log of a role never changes the service.
    The log of the agent on a starter that runs no agent is answered with
    404. On a starter that runs the role (it finds itself in its registry,
    with hasAgent for the agent) the answer follows [os.Open] on the log
    file under {dataDir}/{role}{port}/: 200 with an empty body when the
    file does not exist, 200 with the contents when it opens, 500 with the
    error text when opening fails for another reason. *)
Theorem logs_by_role (x : World.t) (ro : Role) :
  let s := World.svc x in
  let x' := serve (roleLogsHandler filepath_Join ro) x in
  World.svc x' = s /\
  (ro = agent -> needsAgent s = false -> status x' = Some 404 /\ body x' = []) /\
  (runsRole ro s = true ->
   exists p, myPeer s = Some p /\
     match World.os_Open x (logPathOf filepath_Join ro s p) with
     | OpenNotExist => status x' = Some 200 /\ body x' = []
     | OpenError err => status x' = Some 500 /\ body x' = [Bytes err]
     | Opened c =>
         status x' = Some 200 /\
         body x' = (if String.eqb c "" then [] else [Bytes c])
     end).
Proof.
  cbv zeta.
  set (x0 := World.set_w ResponseWriter.new x).
  assert (L : forall off,
    let y := run (logsHandler filepath_Join (roleName ro) off) x0 in
    World.svc y = World.svc x /\
    forall p, myPeer (World.svc x) = Some p ->
     match World.os_Open x (filepath_Join
          [Service.DataDir (World.svc x);
           roleName ro +:+ GoInt.Sprintf_d
             (GoInt.add (GoInt.add (Service.MasterPort (World.svc x))
                                   (Peer.PortOffset p)) off);
           "arangod.log"]) with
     | OpenNotExist => status y = Some 200 /\ body y = []
     | OpenError err => status y = Some 500 /\ body y = [Bytes err]
     | Opened c =>
         status y = Some 200 /\
         body y = (if String.eqb c "" then [] else [Bytes c])
     end).
  { intros off. cbv zeta. rewrite logsHandler_run.
    change (World.svc x0) with (World.svc x).
    change (World.os_Open x0) with (World.os_Open x).
    destruct (myPeer (World.svc x)) as [p|]; [|split; [reflexivity|discriminate]].
    cbv zeta. split.
    - destruct (World.os_Open x _) as [|err|c]; try reflexivity.
      destruct (String.eqb c ""); reflexivity.
    - intros q Hq. injection Hq as <-.
      destruct (World.os_Open x _) as [|err|c]; try (split; reflexivity).
      destruct (String.eqb c ""); split; reflexivity. }
  destruct ro; cbn [roleLogsHandler runsRole].
  - (* agent *)
    unfold serve. fold x0. rewrite agentLogsHandler_run.
    change (World.svc x0) with (World.svc x).
    destruct (needsAgent (World.svc x)) eqn:Hna.
    + destruct (L portOffsetAgent) as [Hs Hl]. cbn [roleName] in *.
      split; [exact Hs|]. split; [discriminate|]. intros _.
      unfold needsAgent in Hna. fold (myPeer (World.svc x)) in Hna.
      destruct (myPeer (World.svc x)) as [p|] eqn:Hp; [|discriminate].
      exists p. split; [reflexivity|]. exact (Hl p eq_refl).
    + split; [reflexivity|]. split; [|discriminate]. intros _ _.
      split; reflexivity.
  - (* coordinator *)
    unfold serve, coordinatorLogsHandler. fold x0.
    destruct (L portOffsetCoordinator) as [Hs Hl]. cbn [roleName] in *.
    split; [exact Hs|]. split; [discriminate|].
    destruct (myPeer (World.svc x)) as [p|] eqn:Hp; [|discriminate].
    intros _. exists p. split; [reflexivity|]. exact (Hl p eq_refl).
  - (* dbserver *)
    unfold serve, dbserverLogsHandler. fold x0.
    destruct (L portOffsetDBServer) as [Hs Hl]. cbn [roleName] in *.
    split; [exact Hs|]. split; [discriminate|].
    destruct (myPeer (World.svc x)) as [p|] eqn:Hp; [|discriminate].
    intros _. exists p. split; [reflexivity|]. exact (Hl p eq_refl).
Qed.

End Logs.

(* ------------------------------------------------------------------ *)
(** ** The process list *)

(** Within the range of [int] the additions of the handlers are the
    additions of the integers. *)
Lemma GoInt_add_exact a b : GoInt.in_range (a + b) -> GoInt.add a b = a + b.
Proof.
  unfold GoInt.in_range, GoInt.add, GoInt.wrap. intros H.
  rewrite Z.mod_small; lia.
Qed.

(** C4. The answer to a /process request is 200 with the process list, and
    the service is unchanged. Its field serversStarted is true exactly when
    the number of listed servers is 2, plus 1 when the entry of this starter
    has hasAgent; the role flags StartCoordinator and StartDBserver of the
    configuration play no part. The port of every listed server is
    masterPort + the port offset of this starter + the constant of the
    server's role (in the arithmetic of [int]), and the three constants
    differ from one another. *)
Theorem process_list_started (x : World.t) :
  let s := World.svc x in
  let x' := serve processListHandler x in
  let resp := processList s in
  World.svc x' = s /\
  status x' = Some 200 /\
  body x' = [JSON_ProcessListResponse resp] /\
  (ProcessListResponse.ServersStarted resp = true <->
   len (ProcessListResponse.Servers resp) = 2 + (if needsAgent s then 1 else 0)) /\
  (forall c d, processList (Service.set_roles c d s) = resp) /\
  (forall sp, In sp (ProcessListResponse.Servers resp) ->
     exists p c,
       myPeer s = Some p /\
       portOffsetOfType (ServerProcess.Type_ sp) = Some c /\
       ServerProcess.Port sp =
         GoInt.add (GoInt.add (Service.MasterPort s) (Peer.PortOffset p)) c) /\
  (portOffsetAgent <> portOffsetCoordinator /\
   portOffsetAgent <> portOffsetDBServer /\
   portOffsetCoordinator <> portOffsetDBServer).
Proof.
  cbv zeta.
  split; [reflexivity|]. split; [reflexivity|]. split; [reflexivity|].
  split; [|split; [reflexivity|split; [|repeat split; discriminate]]].
  - unfold processList, needsAgent.
    destruct (peers.PeerByID _ _) as [p|]; [|cbn; split; [discriminate|lia]].
    destruct (Peer.HasAgent p);
      destruct (servers.agentProc _), (servers.coordinatorProc _),
               (servers.dbserverProc _);
      cbn; split; (discriminate || reflexivity || lia).
  - intros sp Hin. unfold processList, myPeer in *.
    destruct (peers.PeerByID _ _) as [p|]; [|destruct Hin].
    exists p.
    destruct (servers.agentProc _), (servers.coordinatorProc _),
             (servers.dbserverProc _);
      cbn in Hin;
      repeat (destruct Hin as [<-|Hin]; [eexists; repeat split; reflexivity|]);
      destruct Hin.
Qed.

(* ------------------------------------------------------------------ *)
(** ** The start-up checks *)

Lemma rem2_even a : (GoInt.rem a 2 =? 0)%Z = Z.even a.
Proof. unfold GoInt.rem. symmetry. apply Zeven_rem. Qed.

(** C8. [cmdMainRun] leaves the process with a fatal error (exit code 1)
    before it has done anything else, so before any task is started,
    exactly when the agency size is even or not positive, or it is 1 and no
    own address is given, or a docker image is given together with the
    path of rr; in every other configuration the run gets past the checks
    and goes on to the work directory. *)
Theorem startup_checks (f : Flags.t) (env : MainEnv.t) :
  let p := run (cmdMainRun f env) Proc.start in
  let refused :=
    agencySizeEvenOrNonPositive f \/ singleAgentWithoutOwnAddress f \/
    containerWithDebugger f in
  (refused <-> abortedAtChecks p) /\
  (~ refused <-> passedChecks p) /\
  (abortedAtChecks p ->
   existsb isTask (Proc.trace p) = false /\ Proc.exitCode p = Some 1).
Proof.
  cbv zeta.
  unfold agencySizeEvenOrNonPositive, singleAgentWithoutOwnAddress,
         containerWithDebugger.
  set (p := run (cmdMainRun f env) Proc.start).
  assert (Hp : (abortedAtChecks p /\ ~ passedChecks p /\
                (Z.even (Flags.agencySize f) = true \/ Flags.agencySize f <= 0 \/
                 (Flags.agencySize f = 1 /\ Flags.ownAddress f = "") \/
                 (Flags.dockerImage f <> "" /\ Flags.rrPath f <> "")))
               \/ (passedChecks p /\ ~ abortedAtChecks p /\
                   Z.even (Flags.agencySize f) = false /\
                   0 < Flags.agencySize f /\
                   ~ (Flags.agencySize f = 1 /\ Flags.ownAddress f = "") /\
                   ~ (Flags.dockerImage f <> "" /\ Flags.rrPath f <> ""))).
  { subst p. unfold run, cmdMainRun.
    mbind. rewrite rem2_even.
    destruct (Z.even (Flags.agencySize f)) eqn:He; cbn [orb when].
    { left. split; [eexists; split; reflexivity|].
      split; [intros (d & rest & H); discriminate|auto]. }
    destruct (Z.leb_spec (Flags.agencySize f) 0) as [Hle|Hgt]; cbn [when].
    { left. split; [eexists; split; reflexivity|].
      split; [intros (d & rest & H); discriminate|auto]. }
    cbn [ret]. cbn beta iota. mbind.
    destruct (Z.eqb_spec (Flags.agencySize f) 1) as [H1|H1];
      destruct (String.eqb_spec (Flags.ownAddress f) "") as [Ho|Ho];
      cbn [andb when].
    { left. split; [eexists; split; reflexivity|].
      split; [intros (d & rest & H); discriminate|auto]. }
    all: cbn [ret]; cbn beta iota; mbind.
    all: destruct (String.eqb_spec (Flags.dockerImage f) "") as [Hd|Hd];
      destruct (String.eqb_spec (Flags.rrPath f) "") as [Hr|Hr];
      cbn [negb andb when].
    all: try (left; split; [eexists; split; reflexivity|];
              split; [intros (d & rest & H); discriminate|auto]; fail).
    all: right; cbn [ret]; cbn beta iota; cbv zeta; mbind; unfold emitMain at 1;
      cbn beta iota; cbn [Proc.trace Proc.start app Proc.exitCode].
    all: split; [|split; [|repeat split; auto; tauto]].
    all: try (destruct (MainEnv.mkdirAllErr env);
              [|destruct (MainEnv.newServiceErr env)];
              unfold abortedAtChecks; cbn; intros (msg & H & _); discriminate).
    all: destruct (MainEnv.mkdirAllErr env);
         [|destruct (MainEnv.newServiceErr env)];
         unfold passedChecks; cbn; eexists; eexists; reflexivity. }
  destruct Hp as [(Ha & Hnp & Hbad)|(Hps & Hna & He & Hpos & H1 & H3)].
  - split; [|split].
    + split; [auto|]. intros _. tauto.
    + split; [|contradiction]. intros Hn. exfalso. apply Hn. tauto.
    + intros _. destruct Ha as (msg & Ht & Hx). rewrite Ht, Hx.
      split; reflexivity.
  - split; [|split].
    + split; [|contradiction].
      intros [[H|H]|[H|H]]; try congruence; try lia; contradiction.
    + split; [auto|].
      intros _ [[H|H]|[H|H]]; try congruence; try lia; contradiction.
    + contradiction.
Qed.

(* ------------------------------------------------------------------ *)
(** ** The handlers at work on the small cluster *)



(** C2, witness: the leader of an agency of three knows [A] and [B]; the
    hello of [C] makes the size 3 and signals the trigger. *)
Lemma hello_trigger_third_peer :
  let x' := hello exStride exFindHost (exPost "C" "hostC" "/data/C") exLeaderAB in
  Service.state (World.svc exLeaderAB) <> stateSlave /\
  len (registry x') = 3 /\
  World.events x' = [EvStartRunningTrigger].
Proof.
  cbv zeta.
  assert (Hst : Service.state (World.svc exLeaderAB) <> stateSlave)
    by discriminate.
  split; [exact Hst|]. split; [reflexivity|].
  exact (proj1 (hello_trigger_on_append_only exStride exFindHost exLeaderAB
                  (exPost "C" "hostC" "/data/C") Hst)).
Defined.

(** C2, counterexample: the leader of an agency of one, registry empty. A
    GET of /hello installs the self-peer, the size of the registry goes
    from 0 to 1 = agencySize, and no trigger is signalled; the POST of a
    first joiner makes the size 2 and signals none either. *)
Lemma self_install_gives_no_trigger :
  let x := exLeader 1 in
  let x' := hello exStride exFindHost exGet x in
  let x'' := hello exStride exFindHost (exPost "B" "hostB" "/data/B") x in
  Service.state (World.svc x) = stateMaster /\
  Service.AgencySize (World.svc x) = 1 /\
  len (registry x) = 0 /\
  len (registry x') = 1 /\
  World.events x' = [] /\
  map Peer.ID (registry x'') = ["A"; "B"] /\
  World.events x'' = [].
Proof. vm_compute. repeat split; reflexivity. Qed.

(** C3, witness: [B] says hello twice to the fresh leader [A]. *)
Lemma hello_twice_peer_B :
  let r := exPost "B" "hostB" "/data/B" in
  let x1 := hello exStride exFindHost r (exLeader 3) in
  let x2 := hello exStride exFindHost r x1 in
  Service.state (World.svc (exLeader 3)) <> stateSlave /\
  len (registry x2) = 2 /\
  map Peer.ID (registry x2) = ["A"; "B"] /\
  map Peer.PortOffset (registry x2) = [0; 5] /\
  World.events x2 = [].
Proof.
  cbv zeta.
  assert (Hst : Service.state (World.svc (exLeader 3)) <> stateSlave)
    by discriminate.
  destruct (hello_twice_same_membership exStride exFindHost (exLeader 3)
              (exPost "B" "hostB" "/data/B") Hst) as (A & B & C & D & _).
  split; [exact Hst|]. split; [exact A|]. split; [exact B|].
  split; [exact C|exact D].
Defined.

(** C4, witness: the starter [A], an agent, with its three servers up. *)
Lemma process_list_three_servers :
  let resp := processList exRunning in
  len (ProcessListResponse.Servers resp) = 3 /\
  map ServerProcess.Port (ProcessListResponse.Servers resp) = [4001; 4002; 4003] /\
  ProcessListResponse.ServersStarted resp = true.
Proof.
  cbv zeta.
  destruct (process_list_started (exWorld exRunning)) as (_ & _ & _ & H & _).
  split; [reflexivity|]. split; [reflexivity|]. apply H. reflexivity.
Defined.

(** C5, witness: [C] says goodbye to the leader, the write of the setup
    file succeeds. *)
Lemma goodbye_peer_C :
  let x' := goodbye (exBye "C") (exSaved false) in
  registry x' = [exPeerA; exPeer "B" "hostB" 5 true] /\
  World.setupFile x' = Some (peers.mk [exPeerA; exPeer "B" "hostB" 5 true] 3) /\
  status x' = Some 200 /\
  body x' = [Bytes "BYE"].
Proof.
  cbv zeta.
  assert (Hne : GoodbyeRequest.SlaveID (GoodbyeRequest.mk "C") <> "")
    by discriminate.
  destruct (goodbye_removes_and_saves (exSaved false) (exBye "C")
              (GoodbyeRequest.mk "C") eq_refl eq_refl Hne)
    as (R & _ & _ & F & St & B).
  split; [exact R|]. split; [exact F|]. split; [exact St|exact B].
Defined.

(** C5, counterexample: [C] says goodbye to the leader while the write of
    the setup file fails. The peer is removed and the answer is 200 BYE,
    but the setup file still lists the three peers. *)
Lemma goodbye_ok_though_save_failed :
  let x := exSaved true in
  let x' := goodbye (exBye "C") x in
  peers.PeerByID "C" (Service.myPeers (World.svc x)) = Some (exPeer "C" "hostC" 10 true) /\
  status x' = Some 200 /\
  body x' = [Bytes "BYE"] /\
  registry x' = [exPeerA; exPeer "B" "hostB" 5 true] /\
  World.setupFile x' = Some (peers.mk exABC 3) /\
  World.setupFile x' <> Some (Service.myPeers (World.svc x')).
Proof.
  vm_compute. repeat split; try reflexivity. intros H. discriminate H.
Qed.

(** C6, witness: a follower that knows the leader [A] sends a hello on to
    it. *)
Lemma hello_on_slave_redirects_to_A :
  let x' := hello exStride exFindHost exGet exFollower in
  Service.state (World.svc exFollower) = stateSlave /\
  World.svc x' = World.svc exFollower /\
  status x' = Some 307 /\
  header x' = [("Location", "http://hostA:4000/hello")].
Proof.
  cbv zeta.
  destruct (hello_on_slave exStride exFindHost exFollower exGet eq_refl)
    as (S & _ & St & H & _).
  split; [reflexivity|]. split; [exact S|]. split; [exact St|exact H].
Defined.

(** C7, witness: the agent [A] with a log that opens, and a starter
    without agent. *)
Lemma logs_of_agent_and_of_none :
  let x := exWithFiles [exPeerA] (Opened "started") in
  let x' := serve (roleLogsHandler exJoin agent) x in
  let y := exWithFiles [exPeer "A" "hostA" 0 false] OpenNotExist in
  let y' := serve (roleLogsHandler exJoin agent) y in
  runsRole agent (World.svc x) = true /\
  logPathOf exJoin agent (World.svc x) exPeerA = "/data/a/agent4001/arangod.log" /\
  status x' = Some 200 /\ body x' = [Bytes "started"] /\
  needsAgent (World.svc y) = false /\
  status y' = Some 404 /\ body y' = [].
Proof.
  cbv zeta.
  destruct (logs_by_role exJoin (exWithFiles [exPeerA] (Opened "started")) agent)
    as (_ & _ & H).
  destruct (H eq_refl) as (p & _ & Hs & Hb).
  destruct (logs_by_role exJoin
              (exWithFiles [exPeer "A" "hostA" 0 false] OpenNotExist) agent)
    as (_ & H' & _).
  destruct (H' eq_refl eq_refl) as (Hs' & Hb').
  split; [reflexivity|]. split; [reflexivity|]. split; [exact Hs|].
  split; [exact Hb|]. split; [reflexivity|]. split; [exact Hs'|exact Hb'].
Defined.

(** C7, counterexample: the starter [A] runs an agent whose log file is
    there but cannot be opened ([os.Open] answers with an error that is
    not "does not exist"). The answer is 500 with the error text, not 200
    with the contents. *)
Lemma logs_unreadable_file_is_500 :
  let x := exWithFiles [exPeerA] (OpenError "permission denied") in
  let x' := serve (roleLogsHandler exJoin agent) x in
  runsRole agent (World.svc x) = true /\
  World.os_Open x (logPathOf exJoin agent (World.svc x) exPeerA)
    = OpenError "permission denied" /\
  status x' = Some 500 /\
  body x' = [Bytes "permission denied"].
Proof. vm_compute. repeat split; reflexivity. Qed.

(** C8, witness: an even agency size, a single agent without own address
    and a container together with rr are refused; three agents pass. *)
Lemma startup_checks_examples :
  abortedAtChecks (run (cmdMainRun (Flags.mk 2 "" "" "" ".") exEnv) Proc.start) /\
  abortedAtChecks (run (cmdMainRun (Flags.mk 1 "" "" "" ".") exEnv) Proc.start) /\
  abortedAtChecks
    (run (cmdMainRun (Flags.mk 3 "" "arangodb" "/usr/bin/rr" ".") exEnv)
         Proc.start) /\
  passedChecks (run (cmdMainRun (Flags.mk 3 "" "" "" ".") exEnv) Proc.start).
Proof.
  split; [|split; [|split]].
  - apply (proj1 (proj1 (startup_checks (Flags.mk 2 "" "" "" ".") exEnv))).
    left. left. reflexivity.
  - apply (proj1 (proj1 (startup_checks (Flags.mk 1 "" "" "" ".") exEnv))).
    right. left. split; reflexivity.
  - apply (proj1 (proj1 (startup_checks
                           (Flags.mk 3 "" "arangodb" "/usr/bin/rr" ".") exEnv))).
    right. right. split; discriminate.
  - apply (proj1 (proj1 (proj2 (startup_checks (Flags.mk 3 "" "" "" ".") exEnv)))).
    intros [[H|H]|[[H _]|[H _]]].
    + discriminate H.
    + cbn in H. lia.
    + discriminate H.
    + apply H. reflexivity.
Defined.

(** C9, witness: the first request that the fresh leader [A] sees is a POST
    of [B] that claims the address and the data directory of [A]. It is
    rejected with 400, and [A] is in the registry all the same. *)
Lemma hello_same_dir_still_installs_self :
  let r := exPost "B" "hostA" "/data/a" in
  let x' := hello exStride exFindHost r (exLeader 3) in
  Service.state (World.svc (exLeader 3)) <> stateSlave /\
  registry (exLeader 3) = [] /\
  registry x' = [exPeerA] /\
  status x' = Some 400.
Proof.
  cbv zeta.
  assert (Hst : Service.state (World.svc (exLeader 3)) <> stateSlave)
    by discriminate.
  assert (Hne : HelloRequest.SlaveID (HelloRequest.mk "B" "hostA" 4000 "/data/a")
                <> "") by discriminate.
  pose proof (hello_installs_self_before_checks exStride exFindHost (exLeader 3)
                (exPost "B" "hostA" "/data/a") Hst eq_refl) as H.
  cbv zeta in H. destruct H as (R & _ & St).
  { apply NoJoin_sameDataDir with (req := HelloRequest.mk "B" "hostA" 4000 "/data/a");
      [reflexivity|reflexivity|exact Hne|reflexivity]. }
  split; [exact Hst|]. split; [reflexivity|]. split; [exact R|exact (St eq_refl)].
Defined.

(** C10, witness: [B], known to the leader under the address hostB, says
    hello again with an empty SlaveAddress: its stored address becomes the
    empty string. *)
Lemma rehello_empty_address :
  let r := exPost "B" "" "/data/B" in
  let x' := hello exStride exFindHost r exLeaderAB in
  Service.state (World.svc exLeaderAB) <> stateSlave /\
  map Peer.Address (registry exLeaderAB) = ["hostA"; "hostB"] /\
  map Peer.Address (registry x') = ["hostA"; ""].
Proof.
  cbv zeta.
  assert (Hst : Service.state (World.svc exLeaderAB) <> stateSlave)
    by discriminate.
  assert (Hne : HelloRequest.SlaveID (HelloRequest.mk "B" "" 4000 "/data/B") <> "")
    by discriminate.
  pose proof (hello_address_append_vs_update exStride exFindHost exLeaderAB
                (exPost "B" "" "/data/B") (HelloRequest.mk "B" "" 4000 "/data/B")
                Hst eq_refl eq_refl Hne eq_refl) as H.
  split; [exact Hst|]. split; [reflexivity|].
  exact (f_equal (map Peer.Address) (proj1 H)).
Defined.

(** The ids after [B], [C] and [D] have joined and [B] has left. *)
Lemma ids_distinct_after_joins :
  let x' := runOps exStride exFindHost (exLeader 3)
              (exJoins ++ [OpGoodbye (exBye "B")]) in
  NoDup (map Peer.ID (registry (exLeader 3))) /\
  map Peer.ID (registry x') = ["A"; "C"; "D"] /\
  NoDup (map Peer.ID (registry x')).
Proof.
  cbv zeta.
  assert (H0 : NoDup (map Peer.ID (registry (exLeader 3)))) by constructor.
  split; [exact H0|]. split; [reflexivity|].
  exact (ids_stay_distinct exStride exFindHost (exLeader 3)
           (exJoins ++ [OpGoodbye (exBye "B")]) H0).
Defined.

(* ------------------------------------------------------------------ *)
(** ** More on [helloHandler] *)

Section HelloMore.

Variable portOffsetIncrement : Z.
Variable findHost : string -> string.

(** What a hello leaves untouched, whatever the role of the starter. *)
Lemma hello_frame r x :
  let x' := hello portOffsetIncrement findHost r x in
  (exists P, World.svc x' = Service.set_myPeers P (World.svc x)) /\
  World.setupFile x' = World.setupFile x /\
  World.setupWriteFails x' = World.setupWriteFails x /\
  World.os_Open x' = World.os_Open x.
Proof.
  cbv zeta. destruct (Service.state (World.svc x)) eqn:Hst.
  - assert (Hl : Service.state (World.svc x) <> stateSlave) by congruence.
    rewrite (hello_leader portOffsetIncrement findHost r x Hl).
    exact (helloLeader_frame portOffsetIncrement findHost r
             (World.set_w ResponseWriter.new x)).
  - unfold hello, serve.
    rewrite helloHandler_slave by exact Hst.
    change (registry (World.set_w ResponseWriter.new x)) with (registry x).
    assert (E : World.svc x =
                Service.set_myPeers (Service.myPeers (World.svc x)) (World.svc x))
      by now destruct (World.svc x).
    destruct (registry x); cbn; (split; [eexists; exact E|auto]).
Qed.

(** The three ways a hello goes on a starter that is not a slave, each
    with the world it leaves. *)
Lemma hello_leader_cases r x :
  Service.state (World.svc x) <> stateSlave ->
  let x1 := selfInstalled findHost r x in
  let x' := hello portOffsetIncrement findHost r x in
  (NoJoin (fun req => guardRejects findHost r req x1) r /\
   World.svc x' = World.svc x1 /\
   World.events x' = World.events x /\
   ((Request.Method r = "POST" /\ status x' = Some 400 /\
     exists msg, body x' = [JSON_ErrorResponse msg] /\ msg <> "") \/
    (Request.Method r <> "POST" /\ status x' = Some 200 /\
     body x' = [JSON_peers (Service.myPeers (World.svc x'))])))
  \/
  (exists req,
     updatePath findHost r req x1 /\
     x' = registryReply
            (setRegistry (map (withRequestData req) (registry x1))
                         (World.set_w ResponseWriter.new x1)))
  \/
  (exists req,
     appendPath findHost r req x1 /\
     x' = registryReply
            (let x2 :=
               setRegistry
                 (registry x1 ++ [newPeerOf portOffsetIncrement findHost r req x1])
                 (World.set_w ResponseWriter.new x1) in
             if (len (registry x2) =? Service.AgencySize (World.svc x2))%Z
             then World.emit EvStartRunningTrigger x2 else x2)).
Proof.
  intros Hst x1 x'. subst x'. rewrite hello_leader by exact Hst.
  set (x0 := World.set_w ResponseWriter.new x).
  assert (E1 : selfInstalled findHost r x0 = World.set_w ResponseWriter.new x1)
    by apply selfInstalled_set_w.
  assert (Hev : World.events x1 = World.events x).
  { subst x1. destruct (selfInstalled_cases findHost r x) as [[_ ->]|[_ ->]];
      reflexivity. }
  destruct (hello_paths findHost r (selfInstalled findHost r x0))
    as [N|[[req U]|[req A]]].
  - left.
    assert (N1 : NoJoin (fun req => guardRejects findHost r req x1) r).
    { eapply NoJoin_svc; [|exact N]. now rewrite E1. }
    split; [exact N1|].
    unfold helloLeader. rewrite E1.
    destruct N as [Hm|err Hm Hb|err Hm Hb|req Hm Hb Hid|req Hm Hb Hid Hg].
    + pose proof Hm as Hm'. apply String.eqb_neq in Hm'. rewrite Hm'.
      split; [reflexivity|]. split; [exact Hev|]. right.
      split; [exact Hm|]. split; reflexivity.
    + rewrite Hm, Hb. cbn [String.eqb Ascii.eqb Bool.eqb].
      split; [reflexivity|]. split; [exact Hev|]. left.
      split; [reflexivity|]. split; [reflexivity|].
      eexists. split; [reflexivity|]. discriminate.
    + rewrite Hm, Hb. cbn [String.eqb Ascii.eqb Bool.eqb].
      split; [reflexivity|]. split; [exact Hev|]. left.
      split; [reflexivity|]. split; [reflexivity|].
      eexists. split; [reflexivity|]. discriminate.
    + rewrite Hm, Hb, Hid. cbn [String.eqb Ascii.eqb Bool.eqb].
      split; [reflexivity|]. split; [exact Hev|]. left.
      split; [reflexivity|]. split; [reflexivity|].
      eexists. split; [reflexivity|]. discriminate.
    + apply String.eqb_neq in Hid. rewrite E1 in Hg. cbv beta in Hg.
      rewrite Hm, Hb, Hid, Hg. cbn [String.eqb Ascii.eqb Bool.eqb].
      split; [reflexivity|]. split; [exact Hev|]. left.
      split; [reflexivity|]. split; [reflexivity|].
      eexists. split; [reflexivity|]. discriminate.
  - right. left. exists req.
    rewrite (helloLeader_update portOffsetIncrement findHost r req x0 U), E1.
    rewrite E1 in U. split; [exact U|reflexivity].
  - right. right. exists req.
    rewrite (helloLeader_append portOffsetIncrement findHost r req x0 A), E1.
    rewrite E1 in A. split; [exact A|reflexivity].
Qed.


Lemma hello_slave_same r x :
  Service.state (World.svc x) = stateSlave ->
  let x' := hello portOffsetIncrement findHost r x in
  World.svc x' = World.svc x /\ World.events x' = World.events x.
Proof.
  intros Hst. cbv zeta. unfold hello, serve.
  rewrite helloHandler_slave by exact Hst.
  change (registry (World.set_w ResponseWriter.new x)) with (registry x).
  destruct (registry x); split; reflexivity.
Qed.

Lemma selfInstalled_same r x :
  registry x <> [] -> selfInstalled findHost r x = x.
Proof.
  intros Hne. destruct (selfInstalled_cases findHost r x) as [[H _]|[_ H]];
    [contradiction|exact H].
Qed.

Lemma selfInstalled_fresh r x :
  registry x = [] ->
  registry (selfInstalled findHost r x) = [selfPeer findHost (World.svc x) r] /\
  Service.myPeers (World.svc (selfInstalled findHost r x)) =
    peers.mk [selfPeer findHost (World.svc x) r] (Service.AgencySize (World.svc x)).
Proof.
  intros He. destruct (selfInstalled_cases findHost r x) as [[_ ->]|[H _]];
    [split; reflexivity|contradiction].
Qed.

Lemma sameMember_refl p : sameMember p p.
Proof. repeat split. Qed.

Lemma sameMember_trans p q s :
  sameMember p q -> sameMember q s -> sameMember p s.
Proof. unfold sameMember. intros (A & B & C) (D & E & F). repeat split; congruence. Qed.

Lemma sameMember_withRequestData req p : sameMember p (withRequestData req p).
Proof.
  split; [apply withRequestData_ID|].
  split; [apply withRequestData_PortOffset|apply withRequestData_HasAgent].
Qed.

(** One hello leaves every registered peer at its place. *)
Lemma hello_keeps_positions r x i p :
  nth_error (registry x) i = Some p ->
  exists p',
    nth_error (registry (hello portOffsetIncrement findHost r x)) i = Some p' /\
    sameMember p p'.
Proof.
  intros Hp.
  assert (Hne : registry x <> []).
  { intros E. rewrite E in Hp. destruct i; discriminate. }
  destruct (hello_registry portOffsetIncrement findHost r x) as (_ & Hshape).
  cbv zeta in Hshape. rewrite (selfInstalled_same r x Hne) in Hshape.
  destruct Hshape as [->|[->|[[req ->]|(q & -> & _)]]].
  - exists p. split; [exact Hp|apply sameMember_refl].
  - exists p. split; [exact Hp|apply sameMember_refl].
  - exists (withRequestData req p). rewrite nth_error_map, Hp.
    split; [reflexivity|apply sameMember_withRequestData].
  - exists p. split; [|apply sameMember_refl].
    rewrite nth_error_app1; [exact Hp|]. apply nth_error_Some. congruence.
Qed.

Lemma runOps_cons x o ops :
  runOps portOffsetIncrement findHost x (o :: ops) =
  runOps portOffsetIncrement findHost (step portOffsetIncrement findHost x o) ops.
Proof. reflexivity. Qed.

(** A run of hello operations never removes, moves or renumbers a peer:
    whoever is registered at a position stays there with its id, its port
    offset and its agent flag. *)
Theorem hello_run_keeps_peers (x : World.t) (ops : list Op) (i : nat)
    (p : Peer.t) :
  forallb isHello ops = true ->
  nth_error (registry x) i = Some p ->
  exists p',
    nth_error (registry (runOps portOffsetIncrement findHost x ops)) i = Some p' /\
    sameMember p p'.
Proof.
  revert x p. induction ops as [|o ops IH]; intros x p Hops Hp.
  - exists p. split; [exact Hp|apply sameMember_refl].
  - cbn [forallb] in Hops. apply andb_true_iff in Hops. destruct Hops as [Ho Hops].
    destruct o as [r|r]; [|discriminate]. rewrite runOps_cons. cbn [step].
    destruct (hello_keeps_positions r x i p Hp) as (p1 & Hp1 & S1).
    destruct (IH _ p1 Hops Hp1) as (p' & Hp' & S').
    exists p'. split; [exact Hp'|]. exact (sameMember_trans _ _ _ S1 S').
Qed.


(** *** The running trigger along a run *)

Lemma len_nonneg {A : Type} (l : list A) : 0 <= len l.
Proof. unfold len. lia. Qed.

Lemma selfInstalled_len r x :
  len (registry x) <= len (registry (selfInstalled findHost r x)).
Proof.
  destruct (selfInstalled_cases findHost r x) as [[E ->]|[_ ->]]; [|lia].
  rewrite E. cbn. lia.
Qed.

Lemma selfInstalled_AgencySize r x :
  Service.AgencySize (World.svc (selfInstalled findHost r x))
  = Service.AgencySize (World.svc x).
Proof.
  destruct (selfInstalled_svc findHost r x) as [P HP]. now rewrite HP.
Qed.

(** What one hello does to the size of the registry and to the events:
    the size does not go down, and the one event there can be is the
    trigger, signalled when the size goes up to the agency size. *)
Lemma hello_size_events r x :
  let n := Service.AgencySize (World.svc x) in
  let x' := hello portOffsetIncrement findHost r x in
  Service.AgencySize (World.svc x') = n /\
  len (registry x) <= len (registry x') /\
  (World.events x' = World.events x \/
   (World.events x' = World.events x ++ [EvStartRunningTrigger] /\
    len (registry x) < n /\ len (registry x') = n)).
Proof.
  cbv zeta.
  split.
  { destruct (hello_frame r x) as ([P HP] & _). now rewrite HP. }
  destruct (Service.state (World.svc x)) eqn:Hst.
  2:{ destruct (hello_slave_same r x Hst) as [E Ev].
      unfold registry. rewrite E. split; [lia|left; exact Ev]. }
  assert (Hl : Service.state (World.svc x) <> stateSlave) by congruence.
  pose proof (selfInstalled_len r x) as Hlen.
  pose proof (selfInstalled_AgencySize r x) as Hag.
  assert (Hev : World.events (selfInstalled findHost r x) = World.events x).
  { destruct (selfInstalled_cases findHost r x) as [[_ ->]|[_ ->]]; reflexivity. }
  destruct (hello_leader_cases r x Hl)
    as [(_ & E & Ev & _)|[(req & _ & E)|(req & _ & E)]].
  - unfold registry at 2. rewrite E. fold (registry (selfInstalled findHost r x)).
    split; [exact Hlen|left; exact Ev].
  - rewrite E.
    change (registry _) with
      (map (withRequestData req) (registry (selfInstalled findHost r x))) at 2.
    unfold len at 2. rewrite length_map. fold (len (registry (selfInstalled findHost r x))).
    split; [exact Hlen|left; exact Hev].
  - rewrite E. cbv zeta.
    set (x1 := selfInstalled findHost r x) in *.
    set (x2 := setRegistry _ _).
    assert (L2 : len (registry x2) = len (registry x1) + 1) by apply len_snoc.
    assert (A2 : Service.AgencySize (World.svc x2)
                 = Service.AgencySize (World.svc x)) by exact Hag.
    rewrite A2.
    destruct (Z.eqb_spec (len (registry x2)) (Service.AgencySize (World.svc x)))
      as [Hq|Hq].
    + change (registry (registryReply (World.emit EvStartRunningTrigger x2)))
        with (registry x2).
      split; [lia|]. right.
      split; [|lia].
      change (World.events (registryReply (World.emit EvStartRunningTrigger x2)))
        with (World.events x1 ++ [EvStartRunningTrigger]).
      now rewrite Hev.
    + change (registry (registryReply x2)) with (registry x2).
      split; [lia|]. left.
      change (World.events (registryReply x2)) with (World.events x1).
      exact Hev.
Qed.

Lemma triggerCount_same x x' :
  World.events x' = World.events x -> triggerCount x' = triggerCount x.
Proof. unfold triggerCount. now intros ->. Qed.

Lemma triggerCount_signal x x' :
  World.events x' = World.events x ++ [EvStartRunningTrigger] ->
  triggerCount x' = S (triggerCount x).
Proof.
  unfold triggerCount. intros ->. rewrite filter_app, length_app. cbn. lia.
Qed.

(** Along a run of hello operations the running trigger is signalled at
    most once, and not at all once the registry holds as many peers as the
    agency has agents. *)
Theorem hello_run_triggers_once (x : World.t) (ops : list Op) :
  forallb isHello ops = true ->
  let x' := runOps portOffsetIncrement findHost x ops in
  (triggerCount x' <= S (triggerCount x))%nat /\
  (Service.AgencySize (World.svc x) <= len (registry x) ->
   triggerCount x' = triggerCount x).
Proof.
  revert x. induction ops as [|o ops IH]; intros x Hops; cbv zeta.
  - cbn. split; [lia|reflexivity].
  - cbn [forallb] in Hops. apply andb_true_iff in Hops. destruct Hops as [Ho Hops].
    destruct o as [r|r]; [|discriminate]. rewrite runOps_cons. cbn [step].
    destruct (hello_size_events r x) as (Hag & Hlen & Hev).
    specialize (IH (hello portOffsetIncrement findHost r x) Hops).
    cbv zeta in IH. destruct IH as [IH1 IH2]. rewrite Hag in IH2.
    destruct Hev as [Hev|(Hev & Hlt & Heq)].
    + rewrite (triggerCount_same _ _ Hev) in IH1, IH2.
      split; [exact IH1|]. intros Hfull. apply IH2. lia.
    + rewrite (triggerCount_signal _ _ Hev) in IH1, IH2.
      split; [|intros Hfull; lia].
      rewrite IH2 by lia. lia.
Qed.

(** Below the agency size, with an agency of two or more: a hello either
    leaves the registry below the agency size and signals nothing, or it
    makes the registry as large as the agency and signals the trigger. *)
Lemma hello_below_agency r x :
  let n := Service.AgencySize (World.svc x) in
  let x' := hello portOffsetIncrement findHost r x in
  2 <= n -> len (registry x) < n ->
  (World.events x' = World.events x /\ len (registry x') < n) \/
  (World.events x' = World.events x ++ [EvStartRunningTrigger] /\
   len (registry x') = n).
Proof.
  cbv zeta. intros Hn Hlt.
  destruct (Service.state (World.svc x)) eqn:Hst.
  2:{ destruct (hello_slave_same r x Hst) as [E Ev].
      unfold registry at 1 2. rewrite E. left. split; [exact Ev|exact Hlt]. }
  assert (Hl : Service.state (World.svc x) <> stateSlave) by congruence.
  pose proof (selfInstalled_AgencySize r x) as Hag.
  assert (Hev : World.events (selfInstalled findHost r x) = World.events x).
  { destruct (selfInstalled_cases findHost r x) as [[_ ->]|[_ ->]]; reflexivity. }
  assert (H1 : len (registry (selfInstalled findHost r x))
               < Service.AgencySize (World.svc x)).
  { destruct (selfInstalled_cases findHost r x) as [[_ ->]|[_ ->]];
      [cbn; lia|exact Hlt]. }
  destruct (hello_leader_cases r x Hl)
    as [(_ & E & Ev & _)|[(req & _ & E)|(req & _ & E)]].
  - left. split; [exact Ev|]. unfold registry. rewrite E. exact H1.
  - left. rewrite E. split; [exact Hev|].
    change (registry (registryReply _)) with
      (map (withRequestData req) (registry (selfInstalled findHost r x))).
    unfold len. rewrite length_map. exact H1.
  - rewrite E. cbv zeta.
    set (x1 := selfInstalled findHost r x) in *.
    set (x2 := setRegistry _ _).
    assert (L2 : len (registry x2) = len (registry x1) + 1) by apply len_snoc.
    assert (A2 : Service.AgencySize (World.svc x2)
                 = Service.AgencySize (World.svc x)) by exact Hag.
    rewrite A2.
    destruct (Z.eqb_spec (len (registry x2)) (Service.AgencySize (World.svc x)))
      as [Hq|Hq].
    + right.
      change (registry (registryReply (World.emit EvStartRunningTrigger x2)))
        with (registry x2).
      split; [|exact Hq].
      change (World.events (registryReply (World.emit EvStartRunningTrigger x2)))
        with (World.events x1 ++ [EvStartRunningTrigger]).
      now rewrite Hev.
    + left.
      change (registry (registryReply x2)) with (registry x2).
      change (World.events (registryReply x2)) with (World.events x1).
      split; [exact Hev|lia].
Qed.

(** With an agency of two or more, along a run of hello operations that
    starts below the agency size, the running trigger has been signalled
    exactly when the registry has grown to the agency size: once, at the
    hello that completed the agency, and never before or after. *)
Theorem trigger_iff_agency_complete (x : World.t) (ops : list Op) :
  let n := Service.AgencySize (World.svc x) in
  let x' := runOps portOffsetIncrement findHost x ops in
  2 <= n ->
  len (registry x) < n ->
  forallb isHello ops = true ->
  triggerCount x' =
    (triggerCount x + (if (n <=? len (registry x'))%Z then 1 else 0))%nat.
Proof.
  cbv zeta. intros Hn Hlt Hops.
  assert (G : forall ops y,
    forallb isHello ops = true ->
    2 <= Service.AgencySize (World.svc y) ->
    let y' := runOps portOffsetIncrement findHost y ops in
    let m := Service.AgencySize (World.svc y) in
    (len (registry y) < m ->
     triggerCount y' =
       (triggerCount y + (if (m <=? len (registry y'))%Z then 1 else 0))%nat) /\
    (m <= len (registry y) ->
     triggerCount y' = triggerCount y /\ m <= len (registry y'))).
  { clear. induction ops as [|o ops IH]; intros y Hops Hm; cbv zeta.
    - cbn [runOps fold_left]. split.
      + intros H. destruct (Z.leb_spec (Service.AgencySize (World.svc y))
                                       (len (registry y))); lia.
      + intros H. split; [reflexivity|exact H].
    - cbn [forallb] in Hops. apply andb_true_iff in Hops.
      destruct Hops as [Ho Hops].
      destruct o as [r|r]; [|discriminate]. rewrite runOps_cons. cbn [step].
      destruct (hello_size_events r y) as (Hag & Hlen & Hev).
      specialize (IH (hello portOffsetIncrement findHost r y) Hops).
      cbv zeta in IH. rewrite Hag in IH. destruct (IH Hm) as [IH1 IH2].
      split.
      + intros Hlt. destruct (hello_below_agency r y Hm Hlt) as [[Ev Hl]|[Ev Hl]].
        * rewrite (IH1 Hl). now rewrite (triggerCount_same _ _ Ev).
        * destruct IH2 as [I1 I2]; [lia|].
          rewrite I1, (triggerCount_signal _ _ Ev).
          destruct (Z.leb_spec (Service.AgencySize (World.svc y))
                      (len (registry
                              (runOps portOffsetIncrement findHost
                                 (hello portOffsetIncrement findHost r y) ops))));
            lia.
      + intros Hfull. destruct IH2 as [I1 I2]; [lia|].
        split; [|exact I2]. rewrite I1.
        destruct Hev as [Ev|(_ & Hc & _)]; [|lia].
        exact (triggerCount_same _ _ Ev). }
  exact (proj1 (G ops x Hops Hn) Hlt).
Qed.

(** A run of hello operations never writes the setup file and never calls
    [saveSetup]: the peers that join are in the registry of the leader and
    nowhere else. *)
Theorem hello_run_never_saves (x : World.t) (ops : list Op) :
  forallb isHello ops = true ->
  let x' := runOps portOffsetIncrement findHost x ops in
  World.setupFile x' = World.setupFile x /\
  filter isSave (World.events x') = filter isSave (World.events x).
Proof.
  revert x. induction ops as [|o ops IH]; intros x Hops; cbv zeta.
  - split; reflexivity.
  - cbn [forallb] in Hops. apply andb_true_iff in Hops. destruct Hops as [Ho Hops].
    destruct o as [r|r]; [|discriminate]. rewrite runOps_cons. cbn [step].
    destruct (IH (hello portOffsetIncrement findHost r x) Hops) as [IH1 IH2].
    destruct (hello_frame r x) as (_ & Hf & _).
    destruct (hello_size_events r x) as (_ & _ & Hev).
    split; [congruence|]. rewrite IH2.
    destruct Hev as [->|(-> & _)]; [reflexivity|].
    rewrite filter_app. cbn. apply app_nil_r.
Qed.


(** *** The answer to a hello *)

Lemma hello_leader_header r x :
  Service.state (World.svc x) <> stateSlave ->
  header (hello portOffsetIncrement findHost r x) = [].
Proof.
  intros Hst. rewrite (hello_leader portOffsetIncrement findHost r x Hst).
  unfold helloLeader. rewrite selfInstalled_set_w.
  repeat match goal with
  | |- context [if ?b then _ else _] => destruct b
  | |- context [match ?b with _ => _ end] => destruct b
  end; reflexivity.
Qed.

(** On a starter that is not a slave a hello is answered with 200 and the
    registry as the request has left it, the peer that joined included, or
    it is a POST answered with 400 and an error message that is not empty;
    a request answered with 400 has done nothing but the self-install. *)
Theorem hello_answer (x : World.t) (r : Request.t HelloRequest.t) :
  Service.state (World.svc x) <> stateSlave ->
  let x' := hello portOffsetIncrement findHost r x in
  header x' = [] /\
  ((status x' = Some 200 /\
    body x' = [JSON_peers (Service.myPeers (World.svc x'))])
   \/
   (status x' = Some 400 /\
    Request.Method r = "POST" /\
    (exists msg, body x' = [JSON_ErrorResponse msg] /\ msg <> "") /\
    World.svc x' = World.svc (selfInstalled findHost r x) /\
    World.events x' = World.events x)).
Proof.
  intros Hst. cbv zeta.
  split; [exact (hello_leader_header r x Hst)|].
  destruct (hello_leader_cases r x Hst)
    as [(_ & E & Ev & [(Hm & St & B)|(Hm & St & B)])
       |[(req & _ & E)|(req & _ & E)]].
  - right. auto.
  - left. split; [exact St|exact B].
  - rewrite E. left. split; reflexivity.
  - rewrite E. cbv zeta.
    match goal with |- context [if ?b then _ else _] => destruct b end;
      (left; split; reflexivity).
Qed.

(** A request to /hello that is no POST only reads, once the starter knows
    itself: on a registry that is not empty it changes neither the service
    nor the events, and it is answered with the registry. *)
Theorem hello_get_reads_only (x : World.t) (r : Request.t HelloRequest.t) :
  Service.state (World.svc x) <> stateSlave ->
  Request.Method r <> "POST" ->
  registry x <> [] ->
  let x' := hello portOffsetIncrement findHost r x in
  World.svc x' = World.svc x /\
  World.events x' = World.events x /\
  World.setupFile x' = World.setupFile x /\
  status x' = Some 200 /\
  body x' = [JSON_peers (Service.myPeers (World.svc x))].
Proof.
  intros Hst Hm Hne. cbv zeta.
  destruct (hello_frame r x) as (_ & Hf & _).
  destruct (hello_leader_cases r x Hst)
    as [(_ & E & Ev & [(Hm' & _)|(_ & St & B)])
       |[(req & (Hm' & _) & _)|(req & (Hm' & _) & _)]]; try contradiction.
  rewrite (selfInstalled_same r x Hne) in E.
  rewrite E in B. auto.
Qed.

(** *** The leader in its own registry *)

Lemma hello_peers_AgencySize r x :
  Service.state (World.svc x) <> stateSlave ->
  peers.AgencySize (Service.myPeers (World.svc (hello portOffsetIncrement findHost r x)))
  = peers.AgencySize (Service.myPeers (World.svc (selfInstalled findHost r x))).
Proof.
  intros Hst.
  destruct (hello_leader_cases r x Hst)
    as [(_ & E & _)|[(req & _ & E)|(req & _ & E)]].
  - now rewrite E.
  - rewrite E. reflexivity.
  - rewrite E. cbv zeta.
    match goal with |- context [if ?b then _ else _] => destruct b end;
      reflexivity.
Qed.

Lemma hello_first_peer r x :
  Service.state (World.svc x) <> stateSlave ->
  exists p0 rest0 p rest,
    registry (selfInstalled findHost r x) = p0 :: rest0 /\
    registry (hello portOffsetIncrement findHost r x) = p :: rest /\
    sameMember p0 p.
Proof.
  intros Hst.
  pose proof (selfInstalled_nonempty findHost r x) as Hne.
  destruct (registry (selfInstalled findHost r x)) as [|p0 rest0] eqn:E1;
    [contradiction|].
  exists p0, rest0.
  destruct (hello_leader_cases r x Hst)
    as [(_ & E & _)|[(req & _ & E)|(req & _ & E)]].
  - exists p0, rest0. unfold registry. rewrite E.
    fold (registry (selfInstalled findHost r x)). rewrite E1.
    repeat split.
  - exists (withRequestData req p0), (map (withRequestData req) rest0).
    rewrite E.
    change (registry (registryReply _))
      with (map (withRequestData req) (registry (selfInstalled findHost r x))).
    rewrite E1. split; [reflexivity|]. split; [reflexivity|].
    apply sameMember_withRequestData.
  - exists p0. eexists. rewrite E. cbv zeta.
    split; [reflexivity|]. split; [|apply sameMember_refl].
    match goal with |- context [if ?b then _ else _] => destruct b end.
    + change (registry (registryReply (World.emit EvStartRunningTrigger _)))
        with (registry (selfInstalled findHost r x) ++
              [newPeerOf portOffsetIncrement findHost r req
                 (selfInstalled findHost r x)]).
      rewrite E1. reflexivity.
    + change (registry (registryReply _))
        with (registry (selfInstalled findHost r x) ++
              [newPeerOf portOffsetIncrement findHost r req
                 (selfInstalled findHost r x)]).
      rewrite E1. reflexivity.
Qed.

Lemma hello_leadsRegistry r x :
  Service.state (World.svc x) <> stateSlave ->
  registry x = [] \/ leadsRegistry x ->
  leadsRegistry (hello portOffsetIncrement findHost r x).
Proof.
  intros Hst H0.
  destruct (hello_frame r x) as ([P HP] & _).
  pose proof (hello_peers_AgencySize r x Hst) as Hag.
  destruct (hello_first_peer r x Hst) as (p0 & rest0 & p & rest & E1 & E & (Si & So & Sa)).
  exists p, rest. split; [exact E|].
  assert (H1 : Peer.ID p0 = Service.ID (World.svc x) /\ Peer.PortOffset p0 = 0 /\
               Peer.HasAgent p0 = true /\
               peers.AgencySize (Service.myPeers (World.svc (selfInstalled findHost r x)))
               = Service.AgencySize (World.svc x)).
  { destruct H0 as [He|(q & qs & Hq & A & B & C & D)].
    - destruct (selfInstalled_fresh r x He) as [R MP].
      rewrite R in E1. injection E1 as <- <-. rewrite MP. repeat split.
    - assert (Hne : registry x <> []) by congruence.
      rewrite (selfInstalled_same r x Hne) in *.
      rewrite Hq in E1. injection E1 as <- <-. auto. }
  destruct H1 as (A & B & C & D).
  rewrite Hag, HP. cbn [Service.ID Service.AgencySize Service.set_myPeers].
  repeat split; congruence.
Qed.

Lemma hello_state r x :
  Service.state (World.svc (hello portOffsetIncrement findHost r x))
  = Service.state (World.svc x).
Proof. destruct (hello_frame r x) as ([P HP] & _). now rewrite HP. Qed.

Lemma hello_run_leadsRegistry ops : forall x,
  Service.state (World.svc x) <> stateSlave ->
  forallb isHello ops = true ->
  leadsRegistry x ->
  leadsRegistry (runOps portOffsetIncrement findHost x ops).
Proof.
  induction ops as [|o ops IH]; intros x Hst Hops Hx; [exact Hx|].
  cbn [forallb] in Hops. apply andb_true_iff in Hops. destruct Hops as [Ho Hops].
  destruct o as [r|r]; [|discriminate]. rewrite runOps_cons. cbn [step].
  apply IH; [rewrite hello_state; exact Hst|exact Hops|].
  apply hello_leadsRegistry; [exact Hst|right; exact Hx].
Qed.

Lemma hello_run_config ops : forall x,
  forallb isHello ops = true ->
  Service.ID (World.svc (runOps portOffsetIncrement findHost x ops))
    = Service.ID (World.svc x) /\
  Service.AgencySize (World.svc (runOps portOffsetIncrement findHost x ops))
    = Service.AgencySize (World.svc x).
Proof.
  induction ops as [|o ops IH]; intros x Hops; [split; reflexivity|].
  cbn [forallb] in Hops. apply andb_true_iff in Hops. destruct Hops as [Ho Hops].
  destruct o as [r|r]; [|discriminate]. rewrite runOps_cons. cbn [step].
  destruct (IH (hello portOffsetIncrement findHost r x) Hops) as [I1 I2].
  destruct (hello_frame r x) as ([P HP] & _).
  rewrite I1, I2, HP. split; reflexivity.
Qed.

Lemma leadsRegistry_myPeer x :
  leadsRegistry x ->
  exists p, myPeer (World.svc x) = Some p /\ hd_error (registry x) = Some p /\
            snd (getHTTPServerPort (World.svc x)) = None.
Proof.
  intros (p & rest & R & A & _). exists p.
  assert (Hp : myPeer (World.svc x) = Some p).
  { unfold myPeer, peers.PeerByID. fold (registry x). rewrite R. cbn [find].
    rewrite A, String.eqb_refl. reflexivity. }
  split; [exact Hp|]. split; [rewrite R; reflexivity|].
  unfold getHTTPServerPort. unfold myPeer in Hp. rewrite Hp.
  destruct (_ && _); reflexivity.
Qed.

(** Once the leader has served a hello on its empty registry it stays the
    first peer of its registry through every further hello: under its own
    id, with port offset 0 and an agent, whatever the requests write into
    the entry. So the starter finds itself by its id, and
    [getHTTPServerPort] has no error to report. *)
Theorem leader_stays_first (x : World.t) (r : Request.t HelloRequest.t)
    (ops : list Op) :
  Service.state (World.svc x) <> stateSlave ->
  registry x = [] ->
  forallb isHello ops = true ->
  let x' := runOps portOffsetIncrement findHost x (OpHello r :: ops) in
  exists p,
    hd_error (registry x') = Some p /\
    myPeer (World.svc x') = Some p /\
    Peer.ID p = Service.ID (World.svc x) /\
    Peer.PortOffset p = 0 /\
    Peer.HasAgent p = true /\
    peers.AgencySize (Service.myPeers (World.svc x'))
      = Service.AgencySize (World.svc x) /\
    snd (getHTTPServerPort (World.svc x')) = None.
Proof.
  intros Hst He Hops. cbv zeta. rewrite runOps_cons. cbn [step].
  pose proof (hello_leadsRegistry r x Hst (or_introl He)) as H1.
  assert (Hst1 : Service.state (World.svc (hello portOffsetIncrement findHost r x))
                 <> stateSlave) by (rewrite hello_state; exact Hst).
  pose proof (hello_run_leadsRegistry ops _ Hst1 Hops H1) as H.
  set (x' := runOps _ _ _ ops) in *.
  assert (Hsvc : Service.ID (World.svc x') = Service.ID (World.svc x) /\
                 Service.AgencySize (World.svc x') = Service.AgencySize (World.svc x)).
  { subst x'.
    destruct (hello_run_config ops (hello portOffsetIncrement findHost r x) Hops)
      as [I1 I2].
    destruct (hello_frame r x) as ([P HP] & _).
    rewrite I1, I2, HP. split; reflexivity. }
  destruct (leadsRegistry_myPeer x' H) as (p & Hp & Hh & Hg).
  destruct H as (q & rest & R & A & B & C & D).
  rewrite R in Hh. injection Hh as <-.
  exists q. rewrite R. destruct Hsvc as [S1 S2].
  repeat split; try assumption; congruence.
Qed.


(** *** The guard on the data directories *)

Lemma dataDirsApart_single p : dataDirsApart [p].
Proof.
  intros a b [<-|[]] [<-|[]] Hne. congruence.
Qed.

Lemma dataDirsApart_nil : dataDirsApart [].
Proof. intros a b []. Qed.

Lemma guard_passed a req l q :
  existsb (sameDataDir a req) l = false ->
  In q l -> Peer.Address q = a -> Peer.DataDir q = HelloRequest.DataDir req ->
  Peer.ID q = HelloRequest.SlaveID req.
Proof.
  intros Hex Hin Ha Hd.
  destruct (String.eqb_spec (Peer.ID q) (HelloRequest.SlaveID req)) as [E|E];
    [exact E|exfalso].
  assert (Hq : existsb (sameDataDir a req) l = true).
  { apply existsb_exists. exists q. split; [exact Hin|].
    unfold sameDataDir. rewrite Ha, Hd, !String.eqb_refl.
    apply String.eqb_neq in E. rewrite E. reflexivity. }
  congruence.
Qed.

Lemma dataDirsApart_update a req l :
  existsb (sameDataDir a req) l = false ->
  HelloRequest.SlaveAddress req = a ->
  dataDirsApart l ->
  dataDirsApart (map (withRequestData req) l).
Proof.
  intros Hex Ha Hl p' q' Hp Hq Hne [HA HD].
  apply in_map_iff in Hp. destruct Hp as (p & <- & Hp).
  apply in_map_iff in Hq. destruct Hq as (q & <- & Hq).
  rewrite !withRequestData_ID in Hne.
  unfold withRequestData in HA, HD.
  destruct (String.eqb_spec (Peer.ID p) (HelloRequest.SlaveID req)) as [Ep|Ep];
    destruct (String.eqb_spec (Peer.ID q) (HelloRequest.SlaveID req)) as [Eq|Eq];
    cbn in HA, HD.
  - congruence.
  - apply Eq. apply (guard_passed a req l q Hex Hq); congruence.
  - apply Ep. apply (guard_passed a req l p Hex Hp); congruence.
  - exact (Hl p q Hp Hq Hne (conj HA HD)).
Qed.

Lemma dataDirsApart_append a req l p :
  existsb (sameDataDir a req) l = false ->
  Peer.ID p = HelloRequest.SlaveID req ->
  Peer.Address p = a ->
  Peer.DataDir p = HelloRequest.DataDir req ->
  dataDirsApart l ->
  dataDirsApart (l ++ [p]).
Proof.
  intros Hex Hi Ha Hd Hl u v Hu Hv Hne [HA HD].
  apply in_app_iff in Hu. apply in_app_iff in Hv.
  destruct Hu as [Hu|[<-|[]]]; destruct Hv as [Hv|[<-|[]]].
  - exact (Hl u v Hu Hv Hne (conj HA HD)).
  - apply Hne. rewrite Hi. apply (guard_passed a req l u Hex Hu); congruence.
  - apply Hne. rewrite Hi. symmetry.
    apply (guard_passed a req l v Hex Hv); congruence.
  - congruence.
Qed.

(** Where the guard on the data directories is on, a hello keeps the
    peers with different ids on different pairs of address and data
    directory, as long as it is not the hello of a registered id that
    leaves its SlaveAddress empty: the guard compares the address derived
    from the request, the update stores the empty one. *)
Theorem hello_keeps_dataDirs_apart (x : World.t) (r : Request.t HelloRequest.t) :
  Service.allowSameDataDir (World.svc x) = false ->
  dataDirsApart (registry x) ->
  (forall req, Request.Body r = Decoded req ->
     HelloRequest.SlaveAddress req = "" ->
     peers.PeerByID (HelloRequest.SlaveID req) (Service.myPeers (World.svc x))
       = None) ->
  dataDirsApart (registry (hello portOffsetIncrement findHost r x)).
Proof.
  intros Hal Hx Hreq.
  destruct (Service.state (World.svc x)) eqn:Hs.
  2:{ destruct (hello_slave_same r x Hs) as [E _]. unfold registry. now rewrite E. }
  assert (Hst : Service.state (World.svc x) <> stateSlave) by congruence.
  set (x1 := selfInstalled findHost r x).
  assert (H1 : dataDirsApart (registry x1)).
  { subst x1. destruct (selfInstalled_cases findHost r x) as [[_ ->]|[_ ->]];
      [apply dataDirsApart_single|exact Hx]. }
  assert (Hal1 : Service.allowSameDataDir (World.svc x1) = false).
  { subst x1. destruct (selfInstalled_svc findHost r x) as [P HP].
    now rewrite HP. }
  assert (G : forall req, guardRejects findHost r req x1 = false ->
              existsb (sameDataDir (slaveAddrOf findHost r req) req) (registry x1)
              = false).
  { intros req. unfold guardRejects. now rewrite Hal1. }
  destruct (hello_leader_cases r x Hst)
    as [(_ & E & _)|[(req & U & E)|(req & A & E)]]; fold x1 in E.
  - unfold registry. rewrite E. exact H1.
  - rewrite E.
    change (registry (registryReply _))
      with (map (withRequestData req) (registry x1)).
    fold x1 in U. destruct U as (_ & Hb & _ & Hg & Hf).
    destruct (registry x) as [|q0 l0] eqn:Hrx.
    + (* the registry held nobody: it holds the starter alone *)
      subst x1. destruct (selfInstalled_fresh r x Hrx) as [-> _].
      apply dataDirsApart_single.
    + assert (Hne : registry x <> []) by congruence.
      assert (Ex : x1 = x) by apply (selfInstalled_same r x Hne).
      apply (dataDirsApart_update (slaveAddrOf findHost r req)); auto.
      unfold slaveAddrOf.
      destruct (String.eqb_spec (HelloRequest.SlaveAddress req) "") as [Ee|Ee];
        [|reflexivity].
      exfalso. apply Hf. rewrite Ex. exact (Hreq req Hb Ee).
  - rewrite E. cbv zeta.
    fold x1 in A. destruct A as (_ & _ & _ & Hg & _).
    assert (R : forall b : bool,
      registry
        (registryReply
           (if b
            then World.emit EvStartRunningTrigger
                   (setRegistry
                      (registry x1 ++
                       [newPeerOf portOffsetIncrement findHost r req x1])
                      (World.set_w ResponseWriter.new x1))
            else setRegistry
                   (registry x1 ++
                    [newPeerOf portOffsetIncrement findHost r req x1])
                   (World.set_w ResponseWriter.new x1)))
      = registry x1 ++ [newPeerOf portOffsetIncrement findHost r req x1])
      by (intros []; reflexivity).
    rewrite R.
    apply (dataDirsApart_append (slaveAddrOf findHost r req) req); auto.
Qed.

(** *** What an accepted hello stores *)

(** A POST to /hello that is answered with 200 leaves its sender in the
    registry: there is an entry under the SlaveID of the request, and
    every entry under that id carries the port and the data directory of
    the request. *)
Theorem hello_stores_request (x : World.t) (r : Request.t HelloRequest.t)
    (req : HelloRequest.t) :
  Service.state (World.svc x) <> stateSlave ->
  Request.Method r = "POST" ->
  Request.Body r = Decoded req ->
  let x' := hello portOffsetIncrement findHost r x in
  status x' = Some 200 ->
  (exists p, In p (registry x') /\ Peer.ID p = HelloRequest.SlaveID req) /\
  (forall p, In p (registry x') -> Peer.ID p = HelloRequest.SlaveID req ->
     Peer.Port p = HelloRequest.SlavePort req /\
     Peer.DataDir p = HelloRequest.DataDir req).
Proof.
  intros Hst Hm Hb x' H200. subst x'.
  set (x1 := selfInstalled findHost r x).
  destruct (hello_leader_cases r x Hst)
    as [(_ & _ & _ & [(_ & St & _)|(Hm' & _)])
       |[(req' & U & E)|(req' & A & E)]]; try fold x1 in E.
  - congruence.
  - contradiction.
  - fold x1 in U. destruct U as (_ & Hb' & _ & _ & Hf).
    rewrite Hb in Hb'. injection Hb' as <-. rewrite E.
    change (registry (registryReply _))
      with (map (withRequestData req) (registry x1)).
    split.
    + unfold peers.PeerByID in Hf. fold (registry x1) in Hf.
      destruct (find _ (registry x1)) as [q|] eqn:Hq; [|congruence].
      apply find_some in Hq. destruct Hq as [Hin Hid].
      apply String.eqb_eq in Hid.
      exists (withRequestData req q). split; [now apply in_map|].
      now rewrite withRequestData_ID.
    + intros p Hp Hid. apply in_map_iff in Hp. destruct Hp as (q & <- & _).
      rewrite withRequestData_ID in Hid. unfold withRequestData.
      apply String.eqb_eq in Hid. rewrite Hid. split; reflexivity.
  - fold x1 in A. destruct A as (_ & Hb' & _ & _ & Hf).
    rewrite Hb in Hb'. injection Hb' as <-. rewrite E. cbv zeta.
    assert (R : forall b : bool,
      registry
        (registryReply
           (if b
            then World.emit EvStartRunningTrigger
                   (setRegistry
                      (registry x1 ++
                       [newPeerOf portOffsetIncrement findHost r req x1])
                      (World.set_w ResponseWriter.new x1))
            else setRegistry
                   (registry x1 ++
                    [newPeerOf portOffsetIncrement findHost r req x1])
                   (World.set_w ResponseWriter.new x1)))
      = registry x1 ++ [newPeerOf portOffsetIncrement findHost r req x1])
      by (intros []; reflexivity).
    rewrite R. split.
    + eexists. split; [apply in_or_app; right; left; reflexivity|reflexivity].
    + intros p Hp Hid. apply in_app_iff in Hp. destruct Hp as [Hp|[<-|[]]].
      * exfalso. apply find_ID_none in Hf. apply Hf.
        fold (registry x1). rewrite <- Hid. now apply in_map.
      * split; reflexivity.
Qed.

End HelloMore.

(* ------------------------------------------------------------------ *)
(** ** The update loop of [helloHandler] *)

(** The loop "ID already found, update peer data" runs to its end and
    rewrites the port, the address and the data directory of every entry
    that carries the id of the request, and of no other entry; it touches
    nothing but the registry. *)
Theorem update_loop_rewrites_by_id (req : HelloRequest.t) (x : World.t) :
  let x' := run (updatePeerData req) x in
  fst (updatePeerData req x) = Some tt /\
  registry x' =
    map (fun p =>
           if String.eqb (Peer.ID p) (HelloRequest.SlaveID req)
           then Peer.mk (Peer.ID p) (HelloRequest.SlaveAddress req)
                        (HelloRequest.SlavePort req) (Peer.PortOffset p)
                        (HelloRequest.DataDir req) (Peer.HasAgent p)
           else p)
        (registry x) /\
  World.w x' = World.w x /\
  World.events x' = World.events x /\
  peers.AgencySize (Service.myPeers (World.svc x'))
    = peers.AgencySize (Service.myPeers (World.svc x)).
Proof.
  cbv zeta. unfold run. rewrite updatePeerData_run. cbn [fst snd].
  split; [reflexivity|]. split; [|repeat split].
  rewrite registry_setRegistry. apply map_ext. intros p.
  unfold withRequestData. destruct (String.eqb _ _); reflexivity.
Qed.

(* ------------------------------------------------------------------ *)
(** ** Requests that [goodbyeHandler] refuses *)

(** A goodbye that is no POST is answered with 405 whatever its body is;
    a POST whose body cannot be read or parsed, or that names no SlaveID,
    is answered with 400. A goodbye answered with 405 or 400 has changed
    neither the service nor the setup file, and has called nothing. *)
Theorem goodbye_refused_changes_nothing (x : World.t)
    (r : Request.t GoodbyeRequest.t) :
  let x' := goodbye r x in
  (Request.Method r <> "POST" ->
   status x' = Some 405 /\ body x' = [JSON_ErrorResponse "POST required"]) /\
  (Request.Method r = "POST" ->
   (forall req, Request.Body r = Decoded req -> GoodbyeRequest.SlaveID req = "") ->
   status x' = Some 400) /\
  (status x' = Some 405 \/ status x' = Some 400 ->
   registry x' = registry x /\
   World.svc x' = World.svc x /\
   World.events x' = World.events x /\
   World.setupFile x' = World.setupFile x).
Proof.
  cbv zeta. unfold goodbye, serve. rewrite goodbyeHandler_run.
  destruct (String.eqb_spec (Request.Method r) "POST") as [Hm|Hm]; cbn [negb].
  2:{ split; [intros _; split; reflexivity|].
      split; [contradiction|]. intros _. repeat split. }
  split; [contradiction|].
  destruct (Request.Body r) as [err|err|req].
  - split; [reflexivity|]. intros _. repeat split.
  - split; [reflexivity|]. intros _. repeat split.
  - destruct (String.eqb_spec (GoodbyeRequest.SlaveID req) "") as [Hid|Hid].
    + split; [reflexivity|]. intros _. repeat split.
    + split.
      * intros _ H. specialize (H req eq_refl). contradiction.
      * cbv zeta.
        destruct (snd (peers.RemovePeerByID _ _));
          [destruct (World.setupWriteFails _)|];
          cbn; intros [H|H]; discriminate H.
Qed.

(* ------------------------------------------------------------------ *)
(** ** [getHTTPServerPort] *)

Lemma len_pos_nonempty {A : Type} (l : list A) :
  (len l >? 0)%Z = true <-> l <> [].
Proof.
  unfold len. destruct l; cbn [List.length].
  - split; [discriminate|congruence].
  - split; [discriminate|]. intros _. apply Z.gtb_lt. lia.
Qed.

(** [getHTTPServerPort] fails in one case only: the announced port is the
    master port, the registry holds peers, and the id of the starter is
    not among them; both ports are then 0. Otherwise the host port is the
    announced port, or the container port on a host network, and the
    container port is the master port, moved by the port offset of the
    starter when the announced port is the master port and the starter is
    registered. *)
Theorem getHTTPServerPort_cases (s : Service.t) :
  let containerPort := fst (fst (getHTTPServerPort s)) in
  let hostPort := snd (fst (getHTTPServerPort s)) in
  let err := snd (getHTTPServerPort s) in
  let sameports := Service.announcePort s = Service.MasterPort s in
  (err <> None <->
   sameports /\ peers.Peers (Service.myPeers s) <> [] /\ myPeer s = None) /\
  (err <> None -> containerPort = 0 /\ hostPort = 0) /\
  (err = None ->
   hostPort = (if Service.isNetHost s then containerPort
               else Service.announcePort s) /\
   (~ sameports \/ peers.Peers (Service.myPeers s) = [] ->
    containerPort = Service.MasterPort s) /\
   (forall p, sameports -> myPeer s = Some p ->
      containerPort = GoInt.add (Service.MasterPort s) (Peer.PortOffset p))).
Proof.
  cbv zeta. unfold getHTTPServerPort, myPeer.
  destruct (Z.eqb_spec (Service.announcePort s) (Service.MasterPort s)) as [Ea|Ea];
    cbn [andb].
  2:{ cbn [fst snd]. split; [|split].
      - split; [congruence|]. intros (H & _). contradiction.
      - congruence.
      - intros _. split; [destruct (Service.isNetHost s); reflexivity|].
        split; [reflexivity|]. intros p H. contradiction. }
  destruct (len (peers.Peers (Service.myPeers s)) >? 0)%Z eqn:Hl.
  - assert (Hne : peers.Peers (Service.myPeers s) <> [])
      by (apply len_pos_nonempty; exact Hl).
    destruct (peers.PeerByID (Service.ID s) (Service.myPeers s)) as [q|] eqn:Hq;
      cbn [fst snd].
    + split; [|split].
      * split; [congruence|]. intros (_ & _ & H). discriminate.
      * congruence.
      * intros _. split; [destruct (Service.isNetHost s); reflexivity|].
        split; [intros [H|H]; contradiction|].
        intros p _ Hp. injection Hp as <-. reflexivity.
    + split; [|split].
      * split; [auto|discriminate].
      * auto.
      * discriminate.
  - assert (He : peers.Peers (Service.myPeers s) = []).
    { destruct (peers.Peers (Service.myPeers s)) eqn:E; [reflexivity|].
      exfalso. rewrite <- E in Hl.
      assert (peers.Peers (Service.myPeers s) <> []) as Hn by (rewrite E; discriminate).
      apply len_pos_nonempty in Hn. congruence. }
    cbn [fst snd]. split; [|split].
    + split; [congruence|]. intros (_ & H & _). contradiction.
    + congruence.
    + intros _. split; [destruct (Service.isNetHost s); reflexivity|].
      split; [reflexivity|].
      intros p _ Hp. unfold peers.PeerByID in Hp. rewrite He in Hp. discriminate.
Qed.

(* ------------------------------------------------------------------ *)
(** ** More on the process list and the logs *)


Section LogsMore.

Variable filepath_Join : list string -> string.

(** [logsHandler] answers with 412 exactly when the starter does not find
    itself in its registry, and then with an empty body whatever the file
    system holds; its other answers are 200 and 500. *)
Theorem logs_not_ready (x : World.t) (mode : string) (off : Z) :
  let x' := serve (logsHandler filepath_Join mode off) x in
  (status x' = Some 412 <-> myPeer (World.svc x) = None) /\
  (status x' = Some 412 -> body x' = []) /\
  (status x' = Some 412 \/ status x' = Some 200 \/ status x' = Some 500) /\
  World.svc x' = World.svc x /\
  World.events x' = World.events x.
Proof.
  cbv zeta. unfold serve. rewrite logsHandler_run.
  change (World.svc (World.set_w ResponseWriter.new x)) with (World.svc x).
  change (World.os_Open (World.set_w ResponseWriter.new x)) with (World.os_Open x).
  destruct (myPeer (World.svc x)) as [p|].
  - cbv zeta.
    destruct (World.os_Open x _) as [|err|c]; [| |destruct (String.eqb c "")];
      cbn; repeat split; try discriminate; auto.
  - cbn. repeat split; auto.
Qed.

End LogsMore.

(* ------------------------------------------------------------------ *)
(** ** [shutdownHandler] *)

Lemma shutdownHandler_run r d :
  run (shutdownHandler r) d =
  let onW f d := Starter.set_world
                   (World.set_w (f (World.w (Starter.world d))) (Starter.world d)) d in
  if negb (String.eqb (FormRequest.Method r) "POST")
  then onW (ResponseWriter.WriteHeader StatusMethodNotAllowed) d
  else
    let ok d :=
      onW (ResponseWriter.Write (Bytes "OK"))
        (onW (ResponseWriter.WriteHeader StatusOK) (Starter.call CallCancel d)) in
    if String.eqb (FormRequest.FormValue r "mode") "goodbye"
    then
      match Starter.sendMasterGoodbyeErr d with
      | Some err =>
          Starter.set_world
            (errorReply StatusInternalServerError
               (if String.eqb err "" then "Unknown error" else err)
               (Starter.world d))
            (Starter.call CallSendMasterGoodbye d)
      | None => ok (Starter.call CallSendMasterGoodbye d)
      end
    else ok d.
Proof.
  unfold run, shutdownHandler. cbv zeta.
  mbind. destruct (String.eqb (FormRequest.Method r) "POST"); cbn [negb when].
  2:{ mbind. reflexivity. }
  cbn [ret]. cbn beta iota. mbind.
  destruct (String.eqb (FormRequest.FormValue r "mode") "goodbye"); cbn [when].
  - mbind. unfold sendMasterGoodbye at 1. cbn beta iota.
    destruct (Starter.sendMasterGoodbyeErr d) as [err|] eqn:He.
    + mbind. unfold inWorld at 1. rewrite writeError_run. reflexivity.
    + cbn [ret]. cbn beta iota. mbind. unfold cancel at 1. cbn beta iota.
      mbind. reflexivity.
  - cbn [ret]. cbn beta iota. mbind. unfold cancel at 1. cbn beta iota.
    mbind. reflexivity.
Qed.

(** [shutdownHandler] stops the services exactly when it answers with 200:
    a request that is no POST is answered with 405 and calls nothing; a
    POST with mode=goodbye first tells the master, and when that fails it
    is answered with 500 and the error, and the services are not stopped;
    every other POST calls [cancel] once, after the goodbye if there is
    one, and is answered with 200 OK. *)
Theorem shutdown_stops_iff_ok (d : Starter.t) (r : FormRequest.t) :
  let d' := shutdown r d in
  let x' := Starter.world d' in
  let post := String.eqb (FormRequest.Method r) "POST" in
  let bye := String.eqb (FormRequest.FormValue r "mode") "goodbye" in
  let failed :=
    match Starter.sendMasterGoodbyeErr d with Some _ => true | None => false end in
  status x' =
    Some (if negb post then 405 else if bye && failed then 500 else 200) /\
  Starter.calls d' =
    Starter.calls d ++
    (if post && bye then [CallSendMasterGoodbye] else []) ++
    (if post && negb (bye && failed) then [CallCancel] else []) /\
  (status x' = Some 200 -> body x' = [Bytes "OK"]) /\
  (status x' = Some 405 -> body x' = []) /\
  (status x' = Some 500 ->
   exists msg, body x' = [JSON_ErrorResponse msg] /\ msg <> "").
Proof.
  cbv zeta. unfold shutdown. rewrite shutdownHandler_run. cbv zeta.
  destruct (String.eqb (FormRequest.Method r) "POST"); cbn [negb andb].
  2:{ cbn. rewrite app_nil_r. repeat split; try discriminate. }
  destruct (String.eqb (FormRequest.FormValue r "mode") "goodbye"); cbn [andb negb].
  2:{ cbn. repeat split; try discriminate. }
  cbn [Starter.sendMasterGoodbyeErr Starter.set_world].
  destruct (Starter.sendMasterGoodbyeErr d) as [err|]; cbn [negb].
  - cbn. repeat split; try discriminate.
    intros _. eexists. split; [reflexivity|].
    destruct (String.eqb_spec err ""); [discriminate|assumption].
  - cbn. rewrite <- app_assoc. repeat split; try discriminate.
Qed.

(* ------------------------------------------------------------------ *)
(** ** [handleSignal] *)

(** [handleSignal] calls [cancel] on the first signal and leaves the
    process with exit code 1 on the second: however many signals arrive,
    [cancel] is called at most once, two lines at most are printed, and
    the process exits exactly when a second signal has arrived. *)
Theorem handleSignal_second_signal_exits (sigChannel : list string) :
  let p := run (handleSignal sigChannel) SignalProc.start in
  SignalProc.stdout p =
    map (fun s => "Received signal: " +:+ s) (firstn 2 sigChannel) /\
  SignalProc.cancelCalls p = Nat.min 1 (List.length sigChannel) /\
  SignalProc.exitCode p =
    (if (2 <=? List.length sigChannel)%nat then Some 1 else None).
Proof.
  cbv zeta. destruct sigChannel as [|s1 [|s2 rest]].
  - repeat split.
  - repeat split.
  - unfold run, handleSignal. cbv zeta. cbn [handleSignalLoop].
    change (GoInt.add 0 1) with 1.
    cbv zeta. mbind. unfold fmt_Println2 at 1. cbn beta iota.
    mbind. cbn [Z.gtb Z.compare Pos.compare Pos.compare_cont when ret].
    cbn beta iota. mbind. unfold callCancel at 1. cbn beta iota.
    change (GoInt.add 1 1) with 2.
    mbind. unfold fmt_Println2 at 1. cbn beta iota.
    mbind. cbn [Z.gtb Z.compare Pos.compare Pos.compare_cont when].
    unfold os_Exit at 1. cbn beta iota.
    repeat split.
Qed.

(* ------------------------------------------------------------------ *)
(** ** [slasher] *)

Lemma slasher_cons c s :
  slasher (String c s) =
  String (if Ascii.eqb c backslash then "/"%char else c) (slasher s).
Proof. reflexivity. Qed.

Lemma slasher_get s : forall n c,
  String.get n s = Some c ->
  String.get n (slasher s) = Some (if Ascii.eqb c backslash then "/"%char else c).
Proof.
  induction s as [|c s IH]; intros n c' H; [discriminate|].
  rewrite slasher_cons. destruct n as [|n]; cbn [String.get] in *.
  - injection H as <-. reflexivity.
  - now apply IH.
Qed.

Lemma slasher_no_backslash s : forall n,
  String.get n (slasher s) <> Some backslash.
Proof.
  induction s as [|c s IH]; intros n H; [discriminate|].
  rewrite slasher_cons in H. destruct n as [|n]; cbn [String.get] in H.
  - injection H as H.
    destruct (Ascii.eqb_spec c backslash) as [E|E]; [discriminate|contradiction].
  - exact (IH n H).
Qed.

(** [slasher] keeps the length of a path and every byte that is no
    backslash, and puts a slash where a backslash was: no backslash is
    left in its result. *)
Theorem slasher_leaves_no_backslash (s : string) :
  String.length (slasher s) = String.length s /\
  (forall n c, String.get n s = Some c ->
     String.get n (slasher s) =
       Some (if Ascii.eqb c backslash then "/"%char else c)) /\
  (forall n, String.get n (slasher s) <> Some backslash).
Proof.
  split; [|split; [apply slasher_get|apply slasher_no_backslash]].
  induction s as [|c s IH]; [reflexivity|].
  rewrite slasher_cons. cbn [String.length]. now rewrite IH.
Qed.

(** A path is left as it is by [slasher] exactly when it holds no
    backslash; so [slasher] applied twice is [slasher] applied once. And
    [slasher] goes through a concatenation, so the parts of a path can be
    converted one by one. *)
Theorem slasher_fixpoint (s t : string) :
  (slasher s = s <-> forall n, String.get n s <> Some backslash) /\
  slasher (slasher s) = slasher s /\
  slasher (s +:+ t) = slasher s +:+ slasher t.
Proof.
  assert (Fix : forall u, (forall n, String.get n u <> Some backslash) ->
                          slasher u = u).
  { induction u as [|c u IH]; intros H; [reflexivity|].
    rewrite slasher_cons.
    destruct (Ascii.eqb_spec c backslash) as [E|E].
    - exfalso. apply (H 0%nat). cbn. now rewrite E.
    - f_equal. apply IH. intros n. exact (H (S n)). }
  split; [split|split].
  - intros E n. rewrite <- E.
    apply slasher_no_backslash.
  - apply Fix.
  - apply Fix. apply slasher_no_backslash.
  - induction s as [|c s IH]; [reflexivity|].
    cbn [String.append]. rewrite !slasher_cons. cbn [String.append].
    now rewrite IH.
Qed.

(* ------------------------------------------------------------------ *)
(** ** [cmdMainRun] after the checks, and the defaults of [init] *)

Lemma checksRefuse_iff f : checksRefuse f = true <-> refusedAtChecks f.
Proof.
  unfold checksRefuse, refusedAtChecks, agencySizeEvenOrNonPositive,
         singleAgentWithoutOwnAddress, containerWithDebugger.
  rewrite rem2_even, !orb_true_iff, !andb_true_iff, !negb_true_iff.
  rewrite Z.leb_le, Z.eqb_eq, String.eqb_eq.
  rewrite <- !not_true_iff_false, !String.eqb_eq. tauto.
Qed.

Lemma length_zero_empty s :
  (Z.of_nat (String.length s) =? 0)%Z = String.eqb s "".
Proof. destruct s; reflexivity. Qed.

Lemma cmdMainRun_passed f env :
  checksRefuse f = false ->
  run (cmdMainRun f env) Proc.start =
  let dir := workDir f env in
  match MainEnv.mkdirAllErr env with
  | Some err =>
      Proc.mk [MkdirAll dir;
               LogFatal ("Cannot create data directory " +:+ dir +:+ " because " +:+
                         err +:+ ", giving up.")]
              (Some 1)
  | None =>
      match MainEnv.newServiceErr env with
      | Some err =>
          Proc.mk [MkdirAll dir; GoHandleSignal; NewService;
                   LogFatal ("Failed to create service: " +:+ err)]
                  (Some 1)
      | None =>
          Proc.mk [MkdirAll dir; GoHandleSignal; NewService; ServiceRun] None
      end
  end.
Proof.
  unfold checksRefuse. intros H.
  apply orb_false_iff in H. destruct H as [H H3].
  apply orb_false_iff in H. destruct H as [H1 H2].
  unfold run, cmdMainRun, workDir.
  mbind. rewrite H1. cbn [when ret]. cbn beta iota.
  mbind. rewrite H2. cbn [when ret]. cbn beta iota.
  mbind. rewrite H3. cbn [when ret]. cbn beta iota.
  cbv zeta. rewrite length_zero_empty.
  mbind. unfold emitMain at 1. cbn beta iota.
  mbind.
  destruct (MainEnv.mkdirAllErr env) as [err|]; [reflexivity|].
  cbn [ret]. cbn beta iota. mbind. unfold emitMain at 1. cbn beta iota.
  mbind. unfold emitMain at 1. cbn beta iota.
  mbind.
  destruct (MainEnv.newServiceErr env) as [err|]; reflexivity.
Qed.

Lemma cmdMainRun_refused f env :
  checksRefuse f = true ->
  exists msg,
    run (cmdMainRun f env) Proc.start = Proc.mk [LogFatal msg] (Some 1).
Proof.
  unfold checksRefuse. intros H. unfold run, cmdMainRun.
  mbind.
  destruct ((GoInt.rem (Flags.agencySize f) 2 =? 0)%Z || (Flags.agencySize f <=? 0)%Z);
    cbn [when]; [eexists; reflexivity|].
  cbn [ret]. cbn beta iota. mbind.
  destruct ((Flags.agencySize f =? 1)%Z && String.eqb (Flags.ownAddress f) "");
    cbn [when]; [eexists; reflexivity|].
  cbn [ret]. cbn beta iota. mbind.
  cbn [orb] in H. rewrite H. cbn [when]. eexists. reflexivity.
Qed.

(** [cmdMainRun] gets to run the service exactly when the flags pass the
    checks, the work directory can be made and the service can be
    created; in every other case the process leaves with exit code 1, the
    fatal message being the last thing it does. The handler of the
    signals is started only once the work directory is there, and the
    work directory is the absolute path of the data directory, of "."
    when the flag is empty. *)
Theorem cmdMainRun_outcomes (f : Flags.t) (env : MainEnv.t) :
  let p := run (cmdMainRun f env) Proc.start in
  (In ServiceRun (Proc.trace p) <->
   ~ refusedAtChecks f /\ MainEnv.mkdirAllErr env = None /\
   MainEnv.newServiceErr env = None) /\
  (In ServiceRun (Proc.trace p) -> Proc.exitCode p = None) /\
  (~ In ServiceRun (Proc.trace p) ->
   Proc.exitCode p = Some 1 /\
   exists msg, last (Proc.trace p) ServiceRun = LogFatal msg) /\
  (In GoHandleSignal (Proc.trace p) <->
   ~ refusedAtChecks f /\ MainEnv.mkdirAllErr env = None) /\
  (forall dir, In (MkdirAll dir) (Proc.trace p) -> dir = workDir f env).
Proof.
  cbv zeta.
  assert (T : forall P Q R S U : Prop, P -> Q -> R -> S -> U ->
                P /\ Q /\ R /\ S /\ U) by tauto.
  destruct (checksRefuse f) eqn:Hc.
  - pose proof (proj1 (checksRefuse_iff f) Hc) as Hr.
    destruct (cmdMainRun_refused f env Hc) as [msg ->].
    cbn [Proc.trace Proc.exitCode In last].
    apply T.
    + intuition discriminate.
    + intuition discriminate.
    + intros _. split; [reflexivity|]. eexists. reflexivity.
    + intuition discriminate.
    + intros dir [H|[]]. discriminate H.
  - assert (Hr : ~ refusedAtChecks f).
    { intros H. apply checksRefuse_iff in H. congruence. }
    rewrite (cmdMainRun_passed f env Hc). cbv zeta.
    destruct (MainEnv.mkdirAllErr env) as [e1|];
      [|destruct (MainEnv.newServiceErr env) as [e2|]];
      cbn [Proc.trace Proc.exitCode In last]; apply T.
    + intuition discriminate.
    + intuition discriminate.
    + intros _. split; [reflexivity|]. eexists. reflexivity.
    + intuition discriminate.
    + intros dir [H|[H|[]]]; [now injection H|discriminate H].
    + intuition discriminate.
    + intuition discriminate.
    + intros _. split; [reflexivity|]. eexists. reflexivity.
    + intuition discriminate.
    + intros dir [H|[H|[H|[H|[]]]]]; [now injection H|discriminate H..].
    + intuition discriminate.
    + intuition discriminate.
    + intros H. exfalso. apply H. tauto.
    + intuition discriminate.
    + intros dir [H|[H|[H|[H|[]]]]]; [now injection H|discriminate H..].
Qed.

Lemma getEnvVar_cases os_Getenv key defaultValue :
  getEnvVar os_Getenv key defaultValue =
  if String.eqb (os_Getenv key) "" then defaultValue else os_Getenv key.
Proof. unfold getEnvVar. now destruct (String.eqb _ _). Qed.

(** A starter that is given no flag passes the start-up checks in every
    environment: the defaults of [init] are three agents and no rr. Its
    work directory is the absolute path of the value of DATA_DIR, of "."
    when the variable is not set or empty; [getEnvVar] never hands an
    empty data directory to [cmdMainRun], whose own default "." is not
    used then. *)
Theorem default_flags_pass_checks (os_Getenv : string -> string)
    (env : MainEnv.t) :
  let f := init os_Getenv in
  let p := run (cmdMainRun f env) Proc.start in
  ~ refusedAtChecks f /\
  Flags.dataDir f <> "" /\
  Flags.dataDir f =
    (if String.eqb (os_Getenv "DATA_DIR") "" then "."
     else os_Getenv "DATA_DIR") /\
  hd_error (Proc.trace p)
    = Some (MkdirAll (MainEnv.filepath_Abs env (Flags.dataDir f))).
Proof.
  cbv zeta.
  assert (Hc : checksRefuse (init os_Getenv) = false).
  { unfold checksRefuse, init. cbn [Flags.agencySize Flags.ownAddress Flags.rrPath
      Flags.dockerImage]. cbn. apply andb_false_r. }
  assert (Hd : Flags.dataDir (init os_Getenv) <> "").
  { cbn [init Flags.dataDir]. rewrite getEnvVar_cases.
    destruct (String.eqb_spec (os_Getenv "DATA_DIR") ""); [discriminate|assumption]. }
  split; [|split; [exact Hd|split]].
  - intros H. apply checksRefuse_iff in H. congruence.
  - cbn [init Flags.dataDir]. apply getEnvVar_cases.
  - rewrite (cmdMainRun_passed _ env Hc). cbv zeta. unfold workDir.
    apply String.eqb_neq in Hd. rewrite Hd.
    destruct (MainEnv.mkdirAllErr env); [|destruct (MainEnv.newServiceErr env)];
      reflexivity.
Qed.

(* ------------------------------------------------------------------ *)
(** ** [findExecutable] *)

(** The loop settles on the first path that [os.Stat] does not report as
    missing. *)
Lemma tryPaths_run h l : forall g,
  run (forRange l (tryPath h)) g =
  match find (statFinds h) l with
  | Some p => settledOn h p
  | None => g
  end.
Proof.
  induction l as [|p l IH]; intros g; [reflexivity|].
  unfold run in *. cbn [forRange find]. mbind. unfold tryPath at 1.
  destruct (statFinds h p); cbn [when].
  - mbind. unfold assign at 1. cbn beta iota. mbind. unfold settledOn.
    destruct (String.eqb p "build/bin/arangod"); reflexivity.
  - cbn [ret]. cbn beta iota. apply IH.
Qed.



(** *** The order of the strings *)

Lemma ascii_compare_trans a b c o :
  Ascii.compare a b = o -> Ascii.compare b c = o -> Ascii.compare a c = o.
Proof.
  unfold Ascii.compare. intros H1 H2. destruct o.
  - apply N.compare_eq in H1. apply N.compare_eq in H2.
    apply N.compare_eq_iff. congruence.
  - rewrite N.compare_lt_iff in *. lia.
  - rewrite N.compare_gt_iff in *. lia.
Qed.

Lemma string_compare_refl s : String.compare s s = Eq.
Proof.
  induction s as [|c s IH]; [reflexivity|]. cbn [String.compare].
  unfold Ascii.compare. now rewrite N.compare_refl.
Qed.

Lemma string_compare_lt_trans : forall s t u,
  String.compare s t = Lt -> String.compare t u = Lt -> String.compare s u = Lt.
Proof.
  induction s as [|a s IH]; intros [|b t] [|c u] H1 H2;
    cbn [String.compare] in *; try discriminate; try reflexivity.
  destruct (Ascii.compare a b) eqn:Eab; try discriminate;
    destruct (Ascii.compare b c) eqn:Ebc; try discriminate.
  - rewrite (ascii_compare_trans a b c Eq Eab Ebc). eapply IH; eauto.
  - apply Ascii.compare_eq_iff in Eab. subst b. now rewrite Ebc.
  - apply Ascii.compare_eq_iff in Ebc. subst c. now rewrite Eab.
  - now rewrite (ascii_compare_trans a b c Lt Eab Ebc).
Qed.

Lemma string_leb_refl s : String.leb s s = true.
Proof. unfold String.leb. now rewrite string_compare_refl. Qed.

Lemma string_leb_cases s t :
  String.leb s t = true <-> s = t \/ String.compare s t = Lt.
Proof.
  unfold String.leb. destruct (String.compare s t) eqn:E.
  - apply String.compare_eq_iff in E. tauto.
  - tauto.
  - split; [discriminate|]. intros [->|H]; [|discriminate].
    rewrite string_compare_refl in E. discriminate.
Qed.

Lemma string_leb_trans s t u :
  String.leb s t = true -> String.leb t u = true -> String.leb s u = true.
Proof.
  rewrite !string_leb_cases. intros [->|H1] [->|H2]; auto.
  right. eapply string_compare_lt_trans; eauto.
Qed.

Lemma string_ltb_leb s t : String.ltb s t = true -> String.leb s t = true.
Proof.
  unfold String.ltb, String.leb. destruct (String.compare s t); congruence.
Qed.

Lemma string_not_ltb_leb s t : String.ltb s t = false -> String.leb t s = true.
Proof.
  unfold String.ltb, String.leb. rewrite (String.compare_antisym t s).
  destruct (String.compare s t); cbn; congruence.
Qed.

(** *** The sort *)

Lemma insertDescending_In s l x :
  In x (insertDescending s l) <-> x = s \/ In x l.
Proof.
  induction l as [|t l IH]; cbn [insertDescending In].
  - intuition.
  - destruct (String.ltb s t); cbn [In]; rewrite ?IH; intuition.
Qed.

Lemma sortReverse_In l x : In x (sortReverse l) <-> In x l.
Proof.
  induction l as [|s l IH]; cbn [sortReverse fold_right In]; [tauto|].
  fold (sortReverse l). rewrite insertDescending_In, IH. intuition.
Qed.

Lemma insertDescending_sorted s l :
  descending l -> descending (insertDescending s l).
Proof.
  unfold descending. induction l as [|t l IH]; intros Hl; cbn [insertDescending].
  - constructor; constructor.
  - inversion Hl as [|t' l' Hl' Ht]; subst.
    destruct (String.ltb s t) eqn:E.
    + constructor; [now apply IH|].
      apply Forall_forall. intros x Hx. apply insertDescending_In in Hx.
      destruct Hx as [->|Hx]; [now apply string_ltb_leb|].
      rewrite Forall_forall in Ht. now apply Ht.
    + constructor; [exact Hl|].
      apply string_not_ltb_leb in E.
      constructor; [exact E|].
      rewrite Forall_forall in *. intros x Hx.
      eapply string_leb_trans; [apply Ht; exact Hx|exact E].
Qed.

Lemma sortReverse_sorted l : descending (sortReverse l).
Proof.
  induction l as [|s l IH]; [constructor|].
  cbn [sortReverse fold_right]. now apply insertDescending_sorted.
Qed.

Lemma find_descending (f : string -> bool) l p :
  descending l -> find f l = Some p ->
  forall q, In q l -> f q = true -> String.leb q p = true.
Proof.
  unfold descending. induction l as [|a l IH]; intros Hl Hf q Hq Hfq;
    [destruct Hq|].
  inversion Hl as [|a' l' Hl' Ha]; subst. cbn [find] in Hf.
  destruct (f a) eqn:Efa.
  - injection Hf as <-. destruct Hq as [->|Hq]; [apply string_leb_refl|].
    rewrite Forall_forall in Ha. now apply Ha.
  - destruct Hq as [->|Hq]; [congruence|]. now apply IH.
Qed.

(** The sort of [findExecutable] puts the paths in descending order and
    neither drops nor adds one. *)
Lemma sortReverse_descending_permutation (l : list string) :
  descending (sortReverse l) /\
  List.length (sortReverse l) = List.length l /\
  (forall x, count_occ string_dec (sortReverse l) x = count_occ string_dec l x).
Proof.
  split; [apply sortReverse_sorted|].
  assert (C : forall s m x,
    count_occ string_dec (insertDescending s m) x =
    count_occ string_dec (s :: m) x).
  { intros s m x. induction m as [|t m IH]; [reflexivity|].
    cbn [insertDescending]. destruct (String.ltb s t); [|reflexivity].
    cbn [count_occ] in *. rewrite IH.
    destruct (string_dec t x), (string_dec s x); reflexivity. }
  assert (L : forall s m,
    List.length (insertDescending s m) = S (List.length m)).
  { intros s m. induction m as [|t m IH]; [reflexivity|].
    cbn [insertDescending]. destruct (String.ltb s t); cbn [List.length]; congruence. }
  split.
  - induction l as [|s l IH]; [reflexivity|].
    cbn [sortReverse fold_right]. fold (sortReverse l).
    rewrite L. cbn [List.length]. congruence.
  - intros x. induction l as [|s l IH]; [reflexivity|].
    cbn [sortReverse fold_right]. fold (sortReverse l).
    rewrite C. cbn [count_occ]. rewrite IH. reflexivity.
Qed.

Lemma foundPaths_shape h p :
  In p (foundPaths h) ->
  exists name,
    p = "C:/Program Files" +:+ "/" +:+ name +:+ "/usr/bin/arangod.exe".
Proof.
  unfold foundPaths. cbv zeta.
  destruct (Host.readDir h "C:/Program Files") as [| |l]; try (intros []).
  assert (G : forall acc,
    (forall q, In q acc ->
       exists name,
         q = "C:/Program Files" +:+ "/" +:+ name +:+ "/usr/bin/arangod.exe") ->
    In p (fold_left
            (fun foundPaths (n : string * bool) =>
               if snd n then
                 if String.prefix "ArangoDB3 " (fst n)
                    || String.prefix "ArangoDB3e " (fst n)
                 then foundPaths ++ ["C:/Program Files" +:+ "/" +:+ fst n +:+
                                     "/usr/bin/arangod.exe"]
                 else foundPaths
               else foundPaths)
            l acc) ->
    exists name,
      p = "C:/Program Files" +:+ "/" +:+ name +:+ "/usr/bin/arangod.exe").
  { induction l as [|n l IH]; intros acc Hacc Hin; cbn [fold_left] in Hin.
    - now apply Hacc.
    - apply IH in Hin; [exact Hin|].
      destruct (snd n); [|exact Hacc].
      destruct (_ || _); [|exact Hacc].
      intros q Hq. apply in_app_iff in Hq. destruct Hq as [Hq|[<-|[]]].
      + now apply Hacc.
      + exists (fst n). reflexivity. }
  apply G. intros q [].
Qed.

Lemma foundPaths_not_local h p :
  In p (foundPaths h) -> String.eqb p "build/bin/arangod" = false.
Proof.
  intros Hin. destruct (foundPaths_shape h p Hin) as [name ->]. reflexivity.
Qed.

(** On Windows, when there is no build in the working directory, the
    installation under C:/Program Files that [findExecutable] settles on is
    the one with the greatest path, in the order of the bytes, among the
    installations that [os.Stat] does not report as missing; its JS
    directory is the one beside the executable. Without such an
    installation the two variables keep their values. *)
Theorem findExecutable_windows_greatest (h : Host.t) (g : Executable.t) :
  Host.GOOS h = "windows" ->
  statFinds h "build/bin/arangod" = false ->
  let g' := run (findExecutable h) g in
  (g' = g /\ forall q, In q (foundPaths h) -> statFinds h q = false) \/
  (exists p,
     In p (foundPaths h) /\ statFinds h p = true /\
     g' = Executable.mk
            (Host.filepath_Abs h (Host.filepath_FromSlash h p))
            (Host.filepath_Abs h
               (Host.filepath_FromSlash h
                  (Host.filepath_Dir h p +:+ "/../share/arangodb3/js"))) /\
     forall q, In q (foundPaths h) -> statFinds h q = true ->
               String.leb q p = true).
Proof.
  intros Hos Hlocal. cbv zeta. unfold findExecutable. rewrite tryPaths_run.
  unfold pathList. cbv zeta. rewrite Hos. cbn [String.eqb Ascii.eqb Bool.eqb app].
  cbn [find]. rewrite Hlocal.
  destruct (find (statFinds h) (sortReverse (foundPaths h))) as [p|] eqn:Hf.
  - right. exists p. pose proof (find_some _ _ Hf) as [Hin Hp].
    apply (proj1 (sortReverse_In _ _)) in Hin.
    split; [exact Hin|]. split; [exact Hp|]. split.
    + unfold settledOn. now rewrite (foundPaths_not_local h p Hin).
    + intros q Hq Hfq.
      apply (find_descending (statFinds h) (sortReverse (foundPaths h)) p);
        [apply sortReverse_sorted|exact Hf
        |exact (proj2 (sortReverse_In _ _) Hq)|exact Hfq].
  - left. split; [reflexivity|]. intros q Hq.
    apply (proj2 (sortReverse_In _ _)) in Hq.
    pose proof (find_none _ _ Hf q Hq) as H. exact H.
Qed.

(* ------------------------------------------------------------------ *)
(** ** More runs on the small cluster *)

(** [B] keeps its place, its port offset and its agent flag while [C]
    joins and [B] itself says hello again. *)
Lemma hello_run_keeps_peer_B :
  let pB := exPeer "B" "hostB" 5 true in
  forallb isHello exMoreHellos = true /\
  nth_error (registry exLeaderAB) 1 = Some pB /\
  exists p',
    nth_error (registry (runOps exStride exFindHost exLeaderAB exMoreHellos)) 1
      = Some p' /\
    sameMember pB p'.
Proof.
  cbv zeta. split; [reflexivity|]. split; [reflexivity|].
  exact (hello_run_keeps_peers exStride exFindHost exLeaderAB exMoreHellos 1
           (exPeer "B" "hostB" 5 true) eq_refl eq_refl).
Defined.

(** [B], [C] and [D] join an agency of three: one trigger. *)
Lemma three_joins_one_trigger :
  let x' := runOps exStride exFindHost (exLeader 3) exJoins in
  forallb isHello exJoins = true /\
  triggerCount x' = 1%nat /\
  (triggerCount x' <= S (triggerCount (exLeader 3)))%nat.
Proof.
  cbv zeta. split; [reflexivity|]. split; [reflexivity|].
  exact (proj1 (hello_run_triggers_once exStride exFindHost (exLeader 3) exJoins
                  eq_refl)).
Defined.

(** The trigger has been signalled when [B] and [C] have joined the
    leader of an agency of three, and not when only [B] has. *)
Lemma trigger_when_three_are_there :
  let x := exLeader 3 in
  let joinB := [OpHello (exPost "B" "hostB" "/data/B")] in
  let joinBC := joinB ++ [OpHello (exPost "C" "hostC" "/data/C")] in
  2 <= Service.AgencySize (World.svc x) /\
  len (registry x) < Service.AgencySize (World.svc x) /\
  triggerCount (runOps exStride exFindHost x joinB) = 0%nat /\
  triggerCount (runOps exStride exFindHost x joinBC) = 1%nat.
Proof.
  cbv zeta.
  assert (H2 : 2 <= Service.AgencySize (World.svc (exLeader 3))) by (cbn; lia).
  assert (H0 : len (registry (exLeader 3)) < Service.AgencySize (World.svc (exLeader 3)))
    by (cbn; lia).
  split; [exact H2|]. split; [exact H0|]. split.
  - exact (trigger_iff_agency_complete exStride exFindHost (exLeader 3)
             [OpHello (exPost "B" "hostB" "/data/B")] H2 H0 eq_refl).
  - exact (trigger_iff_agency_complete exStride exFindHost (exLeader 3)
             ([OpHello (exPost "B" "hostB" "/data/B")] ++
              [OpHello (exPost "C" "hostC" "/data/C")]) H2 H0 eq_refl).
Defined.

(** [B], [C] and [D] join while the setup file holds the three peers that
    were saved before: the file stays as it is. *)
Lemma three_joins_nothing_saved :
  let x' := runOps exStride exFindHost (exSaved false) exJoins in
  forallb isHello exJoins = true /\
  map Peer.ID (registry x') = ["A"; "B"; "C"; "D"] /\
  World.setupFile x' = Some (peers.mk exABC 3) /\
  filter isSave (World.events x') = [].
Proof.
  cbv zeta. split; [reflexivity|]. split; [reflexivity|].
  exact (hello_run_never_saves exStride exFindHost (exSaved false) exJoins eq_refl).
Defined.

(** The answer to the hello of [B] on the fresh leader. *)
Lemma hello_answer_to_B :
  let x' := hello exStride exFindHost (exPost "B" "hostB" "/data/B") (exLeader 3) in
  Service.state (World.svc (exLeader 3)) <> stateSlave /\
  status x' = Some 200 /\
  body x' = [JSON_peers (peers.mk [exPeerA; exPeer "B" "hostB" 5 true] 3)] /\
  header x' = [].
Proof.
  cbv zeta.
  assert (Hst : Service.state (World.svc (exLeader 3)) <> stateSlave)
    by discriminate.
  split; [exact Hst|]. split; [reflexivity|]. split; [reflexivity|].
  exact (proj1 (hello_answer exStride exFindHost (exLeader 3)
                  (exPost "B" "hostB" "/data/B") Hst)).
Defined.

(** A GET of /hello on the leader that knows [A] and [B]. *)
Lemma hello_get_on_AB :
  let x' := hello exStride exFindHost exGet exLeaderAB in
  Service.state (World.svc exLeaderAB) <> stateSlave /\
  Request.Method exGet <> "POST" /\
  registry exLeaderAB <> [] /\
  World.svc x' = World.svc exLeaderAB /\
  status x' = Some 200.
Proof.
  cbv zeta.
  assert (Hst : Service.state (World.svc exLeaderAB) <> stateSlave)
    by discriminate.
  assert (Hm : Request.Method exGet <> "POST") by discriminate.
  assert (Hne : registry exLeaderAB <> []) by discriminate.
  destruct (hello_get_reads_only exStride exFindHost exLeaderAB exGet Hst Hm Hne)
    as (S & _ & _ & St & _).
  split; [exact Hst|]. split; [exact Hm|]. split; [exact Hne|].
  split; [exact S|exact St].
Defined.

(** The fresh leader [A] serves a GET and the three joins. *)
Lemma leader_A_stays_first :
  let x' := runOps exStride exFindHost (exLeader 3) (OpHello exGet :: exJoins) in
  Service.state (World.svc (exLeader 3)) <> stateSlave /\
  registry (exLeader 3) = [] /\
  forallb isHello exJoins = true /\
  hd_error (registry x') = Some exPeerA /\
  exists p,
    hd_error (registry x') = Some p /\
    myPeer (World.svc x') = Some p /\
    Peer.ID p = "A" /\
    Peer.PortOffset p = 0 /\
    Peer.HasAgent p = true /\
    peers.AgencySize (Service.myPeers (World.svc x')) = 3 /\
    snd (getHTTPServerPort (World.svc x')) = None.
Proof.
  cbv zeta.
  assert (Hst : Service.state (World.svc (exLeader 3)) <> stateSlave)
    by discriminate.
  split; [exact Hst|]. split; [reflexivity|]. split; [reflexivity|].
  split; [reflexivity|].
  exact (leader_stays_first exStride exFindHost (exLeader 3) exGet exJoins
           Hst eq_refl eq_refl).
Defined.

(** [C] joins the leader that knows [A] and [B], each on a host and a
    data directory of its own. *)
Lemma dataDirs_apart_after_C :
  let r := exPost "C" "" "/data/C" in
  Service.allowSameDataDir (World.svc exLeaderAB) = false /\
  dataDirsApart (registry exLeaderAB) /\
  map Peer.ID (registry (hello exStride exFindHost r exLeaderAB)) = ["A"; "B"; "C"] /\
  dataDirsApart (registry (hello exStride exFindHost r exLeaderAB)).
Proof.
  cbv zeta.
  assert (H0 : dataDirsApart (registry exLeaderAB)).
  { intros p q [<-|[<-|[]]] [<-|[<-|[]]] Hne [HA HD];
      try (apply Hne; reflexivity); discriminate HA. }
  split; [reflexivity|]. split; [exact H0|]. split; [reflexivity|].
  apply (hello_keeps_dataDirs_apart exStride exFindHost exLeaderAB
           (exPost "C" "" "/data/C") eq_refl H0).
  intros req Hb _. injection Hb as <-. reflexivity.
Defined.

(** What the leader stores of the hello of [C]. *)
Lemma hello_stores_C :
  let r := exPost "C" "hostC" "/data/C" in
  let x' := hello exStride exFindHost r exLeaderAB in
  Service.state (World.svc exLeaderAB) <> stateSlave /\
  status x' = Some 200 /\
  nth_error (registry x') 2 = Some (Peer.mk "C" "hostC" 4000 10 "/data/C" true) /\
  forall p, In p (registry x') -> Peer.ID p = "C" ->
    Peer.Port p = 4000 /\ Peer.DataDir p = "/data/C".
Proof.
  cbv zeta.
  assert (Hst : Service.state (World.svc exLeaderAB) <> stateSlave)
    by discriminate.
  split; [exact Hst|]. split; [reflexivity|]. split; [reflexivity|].
  exact (proj2 (hello_stores_request exStride exFindHost exLeaderAB
                  (exPost "C" "hostC" "/data/C")
                  (HelloRequest.mk "C" "hostC" 4000 "/data/C")
                  Hst eq_refl eq_refl eq_refl)).
Defined.

(** On the Windows host with the installations 3.1.0 and 3.2.0 the
    executable is the one of 3.2.0. *)
Lemma windows_takes_3_2_0 :
  let g' := run (findExecutable exWindows) exDefaults in
  Host.GOOS exWindows = "windows" /\
  statFinds exWindows "build/bin/arangod" = false /\
  g' = Executable.mk
         "C:/Program Files/ArangoDB3 3.2.0/usr/bin/arangod.exe"
         "C:/Program Files/ArangoDB3 3.2.0/usr/bin/arangod.exe/../share/arangodb3/js" /\
  ((g' = exDefaults /\
    forall q, In q (foundPaths exWindows) -> statFinds exWindows q = false) \/
   (exists p,
      In p (foundPaths exWindows) /\ statFinds exWindows p = true /\
      g' = Executable.mk
             (Host.filepath_Abs exWindows (Host.filepath_FromSlash exWindows p))
             (Host.filepath_Abs exWindows
                (Host.filepath_FromSlash exWindows
                   (Host.filepath_Dir exWindows p +:+ "/../share/arangodb3/js"))) /\
      forall q, In q (foundPaths exWindows) -> statFinds exWindows q = true ->
                String.leb q p = true)).
Proof.
  cbv zeta. split; [reflexivity|]. split; [reflexivity|]. split; [reflexivity|].
  exact (findExecutable_windows_greatest exWindows exDefaults eq_refl eq_refl).
Defined.
